(** * stock-anomaly-detector: a shallow embedding of the detection pipeline

    The development follows the layout of the Python sources:

    - [Py]        the Python/NumPy value conventions the code relies on
                  (IEEE binary64 floats, [abs], [round], exceptions);
    - [Pickle]    what [pickle] accepts of the objects handed to a pool;
    - [ConfigManager]          [utils/config_manager.py], the live
                               threshold store;
    - [SymbolData]             [core/symbol_data.py];
    - [ZScoreProcessor]        [processing/zscore_processor.py];
    - [ParallelProcessor]      [parallel_processor.py];
    - [SymbolDataManager]      [data/symbol_data_manager.py];
    - [StreamProcessor]        [streaming/stream_processor.py];
    - [DataStreamManager]      [streaming/data_stream_manager.py];
    - [HistoricalDataFetcher]  [data/historical_data_fetcher.py];
    - [Calendar], [Startup]    the trading calendar and the whole of
                               [SymbolDataManager.initialize_data];
    - [Json], [Listener]       [StreamProcessor.handle_message] with
                               [process_trade] and [process_bar];
    - [Str], [Helpers]         [utils/helpers.py];
    - [ConfigFile]             [ConfigManager] with its file, and
                               [update_config_thresholds] of [main.py].

    Floats are the kernel's binary64 floats, so [nan], signed zeros and the
    comparisons behave as they do in CPython and NumPy. *)

From Stdlib Require Import ZArith Floats Lia List Bool Ascii.
From stdpp Require Import base option list gmap strings.

#[local] Set Warnings "-inexact-float".
#[local] Set Warnings "-register-all".
#[local] Open Scope Z_scope.

(* ===================================================================== *)
(** ** Python values *)
(* ===================================================================== *)

Module Py.

(** The exceptions the modelled code can raise. *)
Inductive exn : Type :=
| KeyError
| TypeError
| ValueError
| OverflowError
| ClientError
| TimeoutError
| RetryError.

#[global] Instance exn_eq_dec : EqDecision exn.
Proof. solve_decision. Defined.

(** A computation that returns or raises. *)
Inductive res (A : Type) : Type :=
| Ok (a : A)
| Raise (e : exn).
Arguments Ok {A} a.
Arguments Raise {A} e.

#[global] Instance res_ret : MRet res := fun _ a => Ok a.
#[global] Instance res_bind : MBind res := fun _ _ f m =>
  match m with
  | Ok a => f a
  | Raise e => Raise e
  end.

Definition is_ok {A} (r : res A) : bool :=
  match r with Ok _ => true | Raise _ => false end.

(** [x > y], [x < y], [x == y] on floats: false as soon as one side is nan. *)
Definition fgt (x y : float) : bool := PrimFloat.ltb y x.
Definition flt (x y : float) : bool := PrimFloat.ltb x y.
Definition feq (x y : float) : bool := PrimFloat.eqb x y.

Definition fabs (x : float) : float := PrimFloat.abs x.
Definition isnan (x : float) : bool := PrimFloat.is_nan x.
Definition isinf (x : float) : bool := PrimFloat.is_infinity x.

(** [float(n)] for a length [n]; exact below 2^53. *)
Definition float_of_nat (n : nat) : float :=
  PrimFloat.of_uint63 (Uint63.of_Z (Z.of_nat n)).

(** Nearest integer to [m / d], ties to the even one. *)
Definition div_half_even (m d : Z) : Z :=
  let q := m / d in
  let r := m mod d in
  if 2 * r <? d then q
  else if d <? 2 * r then q + 1
  else if Z.even q then q else q + 1.

(** [round(x)] with no [ndigits]: an [int], ties to even; [ValueError] on
    nan and [OverflowError] on an infinity. *)
Definition round (x : float) : res Z :=
  match Prim2SF x with
  | S754_zero _ => Ok 0
  | S754_nan => Raise ValueError
  | S754_infinity _ => Raise OverflowError
  | S754_finite s m e =>
      let mag := if 0 <=? e then Z.pos m * 2 ^ e
                 else div_half_even (Z.pos m) (2 ^ (- e)) in
      Ok (if s then - mag else mag)
  end.

(** A [dict] with string keys, in insertion order. *)
Definition dict (V : Type) : Type := list (string * V).

Definition dict_get {V} (d : dict V) (k : string) : option V :=
  snd <$> List.find (fun kv => String.eqb (fst kv) k) d.

Definition dict_keys {V} (d : dict V) : list string := map fst d.

End Py.

Import Py.

(** [pickle], as far as the objects sent to a worker process go. *)
Module Pickle.

(** An object as [pickle] walks it: plain data (numbers, strings, paths,
    arrays, frames and containers of them), a [threading.Thread], a tuple
    with its items, or an instance of a class of the program with the
    attributes of its [__dict__]. *)
Inductive obj : Type :=
| Data
| Thread
| Tuple (items : list obj)
| Instance (attrs : list (string * obj)).

(** [pickle.dumps(o)], for what it raises: a thread holds a lock, which is
    refused with [TypeError]; the items and the attributes are pickled in
    order. *)
Fixpoint dumps (o : obj) : res unit :=
  match o with
  | Data => Ok tt
  | Thread => Raise TypeError
  | Tuple items =>
      (fix each (l : list obj) : res unit :=
         match l with
         | [] => Ok tt
         | x :: rest => _ ← dumps x; each rest
         end) items
  | Instance attrs =>
      (fix each (l : list (string * obj)) : res unit :=
         match l with
         | [] => Ok tt
         | kv :: rest => _ ← dumps (snd kv); each rest
         end) attrs
  end.

End Pickle.

(* ===================================================================== *)
(** ** utils/config_manager.py *)
(* ===================================================================== *)

Module ConfigManager.

(** The JSON object held by [ConfigManager.config]; a key may be missing. *)
Record t : Type := {
  sigma_thresh : option float;
  zscore_trend_thresh : option float;
  lambda_multiplier : option (gmap string float)
}.

(** [config_manager.get(key, default)], one accessor per key used. *)
Definition get_sigma_thresh (cm : t) (dflt : float) : float :=
  default dflt (sigma_thresh cm).
Definition get_zscore_trend_thresh (cm : t) (dflt : float) : float :=
  default dflt (zscore_trend_thresh cm).
Definition get_lambda_multiplier (cm : t) (dflt : gmap string float)
  : gmap string float :=
  default dflt (lambda_multiplier cm).

(** The object behind the settings, as [pickle] finds it: [__init__] sets
    the path of the file, the settings, the modification time and the
    watcher thread, which it starts. *)
Definition __dict__ (self : t) : list (string * Pickle.obj) :=
  [("config_file", Pickle.Data); ("config", Pickle.Data);
   ("last_modified", Pickle.Data); ("watch_thread", Pickle.Thread)].

End ConfigManager.

(* ===================================================================== *)
(** ** core/symbol_data.py *)
(* ===================================================================== *)

Module SymbolData.

(** A row of the historical frame: the calendar day of its timestamp (a day
    number) and its close. *)
Definition Row : Type := (Z * float)%type.

Record t : Type := {
  symbol : string;
  historical_data : list Row;
  baseline_prices : option (list float);
  baseline_mean : float;
  baseline_std : float;
  full_prices : list float;
  timeframe : string
}.

(** The dataclass constructor with its defaults and [__post_init__]. *)
Definition new (sym : string) (df : list Row) : t :=
  {| symbol := sym;
     historical_data := df;
     baseline_prices := None;
     baseline_mean := 0%float;
     baseline_std := 1%float;
     full_prices := map snd df;
     timeframe := "1Min" |}.

Definition append_price (d : t) (price : float) : t :=
  {| symbol := symbol d;
     historical_data := historical_data d;
     baseline_prices := baseline_prices d;
     baseline_mean := baseline_mean d;
     baseline_std := baseline_std d;
     full_prices := full_prices d ++ [price];
     timeframe := timeframe d |}.

End SymbolData.


(* ===================================================================== *)
(** ** pandas, SciPy, statsmodels and NumPy *)
(* ===================================================================== *)

Module Pandas.

(** A [Series]: values labelled by the row they belong to. *)
Definition Series : Type := list (nat * float).

(** The series of a column, labelled [0 .. n-1] (a [RangeIndex]). *)
Definition to_series (xs : list float) : Series := imap (fun i x => (i, x)) xs.

Definition dropna (s : Series) : Series :=
  List.filter (fun iv => negb (isnan (snd iv))) s.

Definition series_get (s : Series) (i : nat) : option float :=
  snd <$> List.find (fun iv => Nat.eqb (fst iv) i) s.

(** [df[col] = s] on a frame of [n] rows: the values are aligned on the row
    labels and a row without a value holds nan. *)
Definition assign_column (n : nat) (s : Series) : list float :=
  map (fun i => default nan (series_get s i)) (seq 0 n).

(** [pd.Series(df.iloc[idx][col].values, index=df.iloc[idx].index)]. *)
Definition take_rows (col : list float) (idx : list nat) : Series :=
  omap (fun i => pair i <$> col !! i) idx.

(** [s.diff()]: the difference with the row before, nan on the first row. *)
Definition diff (xs : list float) : list float :=
  match xs with
  | [] => []
  | _ :: rest => nan :: zip_with (fun a b => (b - a)%float) xs rest
  end.

(** The right-hand side of [df[col] = value]: a [Series], which is aligned
    on the row labels, or an array, which is taken row by row and refused
    with [ValueError] when its length is not the number of rows. *)
Inductive Value : Type :=
| OfSeries (s : Series)
| OfArray (a : list float).

Definition setitem (n : nat) (value : Value) : res (list float) :=
  match value with
  | OfSeries s => Ok (assign_column n s)
  | OfArray a => if (length a =? n)%nat then Ok a else Raise ValueError
  end.

End Pandas.

(** The tuple [hpfilter] returns: the cycle component first, the trend
    component second. *)
Module HP.
Definition t : Type := (list float * list float)%type.
Definition cycle (hp : t) : list float := fst hp.
Definition trend (hp : t) : list float := snd hp.
End HP.

(** The numerical routines the code imports; the development is parametric in
    them, and each call returns or raises. [hpfilter] returns components as
    long as its argument. [zscore] is given a series and returns, with the
    version of the library, a series on the same labels or a bare array.
    [find_peaks] returns positions inside its argument, without repetition,
    which is what keeps [df.iloc[peaks]] from raising. *)
Class Numerics : Type := {
  (** [statsmodels.tsa.filters.hp_filter.hpfilter(x, lamb)]: the tuple
      [cycle, trend] it returns, in this order. *)
  hpfilter : list float -> Z -> res HP.t;
  hpfilter_length : forall x lamb hp,
    hpfilter x lamb = Ok hp ->
    length (HP.cycle hp) = length x /\ length (HP.trend hp) = length x;
  (** [scipy.stats.zscore(a, nan_policy='omit')] *)
  zscore : Pandas.Series -> res Pandas.Value;
  (** [scipy.signal.find_peaks(x)[0]] *)
  find_peaks : list float -> list nat;
  find_peaks_bound : forall x i, i ∈ find_peaks x -> (i < length x)%nat;
  find_peaks_NoDup : forall x, NoDup (find_peaks x);
  (** [np.mean] and [np.std] *)
  np_mean : list float -> float;
  np_std : list float -> float
}.

(* ===================================================================== *)
(** ** processing/zscore_processor.py *)
(* ===================================================================== *)

(** The dictionary returned by [get_last_action]; [samples_ago] is an [int]
    or the string ['N/A'], here [None]. *)
Module LastAction.
Record t : Type := {
  type : string;
  price : float;
  samples_ago : option nat
}.
End LastAction.

(** The dictionary returned by [process_data]. *)
Module Processed.
Record t : Type := {
  lambda : Z;
  zscore_trend : option (list float);
  action : string;
  price : float;
  samples_ago : option nat
}.
End Processed.

(** The dictionary returned by [process]: three keys are always present, the
    others are added together by [result.update] and the assignment after
    it. *)
Module Result.
Record Enriched : Type := {
  symbol : string;
  num_samples : nat;
  lambda : Z;
  action : string;
  price : float;
  current_price : float;
  samples_ago : option nat;
  zscore_trend : option float;
  zscore_trend_alert : bool
}.
Record t : Type := {
  zscore : float;
  alert : bool;
  latest_price : float;
  enriched : option Enriched
}.

(** [result[key]] raises [KeyError] on a missing key, [result.get(key)] is
    [None] there. *)
Definition getitem {A} (f : Enriched -> A) (r : t) : res A :=
  match enriched r with
  | Some e => Ok (f e)
  | None => Raise KeyError
  end.
Definition get {A} (f : Enriched -> option A) (r : t) : option A :=
  e ← enriched r; f e.
End Result.

Module ZScoreProcessor.

(** [__init__]: the detector holds the configuration manager of the
    program and nothing else. *)
Definition __dict__ (config_manager : ConfigManager.t)
  : list (string * Pickle.obj) :=
  [("config_manager", Pickle.Instance (ConfigManager.__dict__ config_manager))].

(** The frame built by [process_data]; every column has one value per row. *)
Record DataFrame : Type := {
  col_c : list float;
  col_velocity : list float;
  col_zscore_velocity : list float;
  col_trend : list float;
  col_cycle : list float;
  col_zscore_trend : list float;
  col_peaks : list float;
  col_troughs : list float
}.

Definition len (df : DataFrame) : nat := length (col_c df).

Section Methods.
Context `{Numerics}.
Variable config_manager : ConfigManager.t.

Definition get_last_action (data : DataFrame) : LastAction.t :=
  let peaks := Pandas.dropna (Pandas.to_series (col_peaks data)) in
  let troughs := Pandas.dropna (Pandas.to_series (col_troughs data)) in
  let at_row (action_type : string) (last_action : nat) : LastAction.t :=
    {| LastAction.type := action_type;
       LastAction.price := default nan (col_c data !! last_action);
       LastAction.samples_ago := Some (len data - last_action - 1)%nat |} in
  match last peaks, last troughs with
  | None, None =>
      {| LastAction.type := "None";
         LastAction.price := 0%float;
         LastAction.samples_ago := None |}
  | Some p, None => at_row "Sell" (fst p)
  | Some p, Some t =>
      if (fst t <? fst p)%nat then at_row "Sell" (fst p) else at_row "Buy" (fst t)
  | None, Some t => at_row "Buy" (fst t)
  end.

(** The frame of [process_data] for the prices and the smoothing
    coefficient, column by column in the order of the source. The tuple of
    [hpfilter] is unpacked as the source unpacks it: its first component
    goes to the column ['trend'], its second to the column ['cycle']. *)
Definition build_frame (prices : list float) (lamb : Z) : res DataFrame :=
  let n := length prices in
  let c := prices in
  let velocity := Pandas.diff c in
  value ← zscore (Pandas.dropna (Pandas.to_series velocity));
  zscore_velocity ← Pandas.setitem n value;
  hp ← hpfilter c lamb;
  let '(trend_s, cycle_s) := hp in
  let trend := Pandas.assign_column n (Pandas.to_series trend_s) in
  let cycle := Pandas.assign_column n (Pandas.to_series cycle_s) in
  value ← zscore (Pandas.dropna (Pandas.to_series trend));
  zscore_trend ← Pandas.setitem n value;
  let peaks := find_peaks cycle in
  let troughs := find_peaks (map PrimFloat.opp cycle) in
  Ok {| col_c := c;
        col_velocity := velocity;
        col_zscore_velocity := zscore_velocity;
        col_trend := trend;
        col_cycle := cycle;
        col_zscore_trend := zscore_trend;
        col_peaks := Pandas.assign_column n (Pandas.take_rows c peaks);
        col_troughs := Pandas.assign_column n (Pandas.take_rows c troughs) |}.

Definition process_data (data : SymbolData.t) (new_price : float)
  : res Processed.t :=
  let prices := SymbolData.full_prices data ++ [new_price] in
  let num_samples := length prices in
  let lambda_multipliers :=
    ConfigManager.get_lambda_multiplier config_manager
      {[ "1Min" := 12%float; "1Day" := 0.0436%float ]} in
  let lambda_multiplier :=
    default 12%float (lambda_multipliers !! SymbolData.timeframe data) in
  lamb ← round (lambda_multiplier * float_of_nat num_samples)%float;
  df ← build_frame prices lamb;
  let last_action := get_last_action df in
  Ok {| Processed.lambda := lamb;
        Processed.zscore_trend :=
          match col_zscore_trend df with
          | [] => None
          | _ => Some (col_zscore_trend df)
          end;
        Processed.action := LastAction.type last_action;
        Processed.price := LastAction.price last_action;
        Processed.samples_ago := LastAction.samples_ago last_action |}.

Definition process (data : SymbolData.t) (new_price : float) : res Result.t :=
  let zscore_value :=
    if feq (SymbolData.baseline_std data) 0 then nan
    else ((new_price - SymbolData.baseline_mean data) / SymbolData.baseline_std data)%float in
  let sigma_thresh := ConfigManager.get_sigma_thresh config_manager 30.0 in
  let zscore_trend_thresh := ConfigManager.get_zscore_trend_thresh config_manager 2.0 in
  let alert :=
    if negb (isnan zscore_value) then fgt (fabs zscore_value) sigma_thresh
    else false in
  if fgt (fabs zscore_value) sigma_thresh then
    processed_data ← process_data data new_price;
    let zscore_trend := l ← Processed.zscore_trend processed_data; last l in
    Ok {| Result.zscore := zscore_value;
          Result.alert := alert;
          Result.latest_price := new_price;
          Result.enriched := Some
            {| Result.symbol := SymbolData.symbol data;
               Result.num_samples := length (SymbolData.full_prices data);
               Result.lambda := Processed.lambda processed_data;
               Result.action := Processed.action processed_data;
               Result.price := Processed.price processed_data;
               Result.current_price := new_price;
               Result.samples_ago := Processed.samples_ago processed_data;
               Result.zscore_trend := zscore_trend;
               Result.zscore_trend_alert :=
                 match zscore_trend with
                 | Some zt => fgt (fabs zt) zscore_trend_thresh
                 | None => false
                 end |} |}
  else
    Ok {| Result.zscore := zscore_value;
          Result.alert := alert;
          Result.latest_price := new_price;
          Result.enriched := None |}.

End Methods.
End ZScoreProcessor.

(* ===================================================================== *)
(** ** parallel_processor.py *)
(* ===================================================================== *)

Module ParallelProcessor.

(** [ary[st:en]] *)
Definition slice {A} (ary : list A) (st en : nat) : list A :=
  take (en - st) (drop st ary).

Fixpoint cumsum (acc : nat) (l : list nat) : list nat :=
  match l with
  | [] => []
  | x :: rest => (acc + x)%nat :: cumsum (acc + x) rest
  end.

(** [[ary[div_points[i]:div_points[i + 1]] for i in range(Nsections)]] *)
Fixpoint sub_arys {A} (ary : list A) (div_points : list nat) : list (list A) :=
  match div_points with
  | st :: (en :: _) as rest => slice ary st en :: sub_arys ary rest
  | _ => []
  end.

(** [np.array_split(ary, Nsections)] on a one-dimensional sequence. *)
Definition array_split {A} (ary : list A) (Nsections : Z) : res (list (list A)) :=
  if Nsections <=? 0 then Raise ValueError
  else
    let Ntotal := Z.of_nat (length ary) in
    let Neach_section := Ntotal / Nsections in
    let extras := Ntotal mod Nsections in
    let section_sizes :=
      [0%nat] ++ repeat (Z.to_nat (Neach_section + 1)) (Z.to_nat extras)
              ++ repeat (Z.to_nat Neach_section) (Z.to_nat (Nsections - extras)) in
    let div_points := cumsum 0 section_sizes in
    Ok (sub_arys ary div_points).

(** The pool keeps its size and the detector, here the configuration
    manager the detector holds. *)
Record t : Type := {
  num_processes : Z;
  zscore_processor : ConfigManager.t
}.

(** [__init__]: [mp.Pool] refuses a size below one. *)
Definition init (requested cpu_count : Z) (processor : ConfigManager.t)
  : res t :=
  let n := Z.min requested cpu_count in
  if n <? 1 then Raise ValueError
  else Ok {| num_processes := n; zscore_processor := processor |}.

(** One argument of [pool.map]: [(chunk, new_prices, self.zscore_processor)],
    and the object [pickle] is given for it. *)
Definition Args : Type := (list SymbolData.t * dict float * ConfigManager.t)%type.

Definition pickled (args : Args) : Pickle.obj :=
  let '(chunk, new_prices, processor) := args in
  Pickle.Tuple [Pickle.Data; Pickle.Data;
                Pickle.Instance (ZScoreProcessor.__dict__ processor)].

(** [pool.map(func, iterable)]: each argument is pickled on its way to a
    worker, and what [pickle] raises for the first one it refuses is raised
    by [map], whatever the workers did with the others. Otherwise the
    results come in the order of the arguments, and a worker's exception is
    raised again by [map]; when several workers fail the first chunk's is
    kept here. *)
Definition pool_map {B} (func : Args -> res B) (iterable : list Args)
  : res (list B) :=
  _ ← mapM (fun args => Pickle.dumps (pickled args)) iterable;
  mapM func iterable.

Section Methods.
Context `{Numerics}.

Definition _process_chunk (args : Args) : res (list Result.t) :=
  let '(chunk, new_prices, processor) := args in
  (fix loop (chunk : list SymbolData.t) : res (list Result.t) :=
     match chunk with
     | [] => Ok []
     | symbol_data :: rest =>
         match dict_get new_prices (SymbolData.symbol symbol_data) with
         | Some new_price =>
             result ← ZScoreProcessor.process processor symbol_data new_price;
             results ← loop rest;
             Ok (result :: results)
         | None => loop rest
         end
     end) chunk.

Definition process_symbols (self : t)
    (symbol_data_list : list SymbolData.t) (new_prices : dict float)
  : res (list Result.t) :=
  chunks ← array_split symbol_data_list (num_processes self);
  let args := map (fun chunk => (chunk, new_prices, zscore_processor self)) chunks in
  results ← pool_map _process_chunk args;
  Ok (concat results).

End Methods.
End ParallelProcessor.

(* ===================================================================== *)
(** ** data/symbol_data_manager.py *)
(* ===================================================================== *)

(** One entry of [price_trends]. *)
Module Trend.
Record t : Type := {
  last_action : option string;
  extreme_price : option float;
  day_high : option float;
  day_low : option float
}.
Definition init : t :=
  {| last_action := None; extreme_price := None; day_high := None; day_low := None |}.
End Trend.

Module SymbolDataManager.

Record t : Type := {
  symbols : gset string;
  symbol_data : gmap string SymbolData.t;
  last_processed_price : gmap string float;
  price_trends : gmap string Trend.t
}.

Definition init (syms : gset string) : t :=
  {| symbols := syms;
     symbol_data := ∅;
     last_processed_price := ∅;
     price_trends := gset_to_gmap Trend.init syms |}.

Definition set_price_trends (self : t) (pt : gmap string Trend.t)
  : t :=
  {| symbols := symbols self;
     symbol_data := symbol_data self;
     last_processed_price := last_processed_price self;
     price_trends := pt |}.

Definition set_last_processed_price (self : t) (lp : gmap string float)
  : t :=
  {| symbols := symbols self;
     symbol_data := symbol_data self;
     last_processed_price := lp;
     price_trends := price_trends self |}.

(** [update_price_trends]: [trend_data] is the dictionary stored under
    [symbol], so every assignment lands in [price_trends]. *)
Definition update_price_trends (self : t)
    (symbol : string) (current_price : float) (action : string)
  : res t :=
  match price_trends self !! symbol with
  | None => Raise KeyError
  | Some trend_data =>
      let '(last_action, extreme_price) :=
        if bool_decide (Trend.last_action trend_data = Some action) then
          if String.eqb action "buy" then
            match Trend.extreme_price trend_data with
            | None => (Trend.last_action trend_data, Some current_price)
            | Some e =>
                if flt current_price e
                then (Trend.last_action trend_data, Some current_price)
                else (Trend.last_action trend_data, Some e)
            end
          else if String.eqb action "sell" then
            match Trend.extreme_price trend_data with
            | None => (Trend.last_action trend_data, Some current_price)
            | Some e =>
                if fgt current_price e
                then (Trend.last_action trend_data, Some current_price)
                else (Trend.last_action trend_data, Some e)
            end
          else (Trend.last_action trend_data, Trend.extreme_price trend_data)
        else (Some action, Some current_price) in
      let day_high :=
        match Trend.day_high trend_data with
        | None => current_price
        | Some h => if fgt current_price h then current_price else h
        end in
      let day_low :=
        match Trend.day_low trend_data with
        | None => current_price
        | Some l => if flt current_price l then current_price else l
        end in
      Ok (set_price_trends self
            (<[symbol := {| Trend.last_action := last_action;
                            Trend.extreme_price := extreme_price;
                            Trend.day_high := Some day_high;
                            Trend.day_low := Some day_low |}]> (price_trends self)))
  end.

Section Calibration.
Context `{Numerics}.

(** What one turn of the loop of [initialize_symbol_data] decides for a
    symbol: it goes to [symbols_to_remove], or stays with its baseline. *)
Inductive Verdict : Type :=
| Remove
| Keep (data : SymbolData.t).

(** [valid_days[-2]] when there are at least two valid days. *)
Definition last_valid_day (valid_days : list Z) : option Z :=
  if (1 <? length valid_days)%nat
  then valid_days !! (length valid_days - 2)%nat
  else None.

Definition calibrate (valid_days : list Z) (data : SymbolData.t) : Verdict :=
  let df := SymbolData.historical_data data in
  if bool_decide (df = []) || (length df <? 2)%nat then Remove
  else
    match last_valid_day valid_days with
    | None => Remove
    | Some day =>
        let baseline_data := List.filter (fun row => Z.eqb (fst row) day) df in
        let baseline_prices := map snd baseline_data in
        if (length baseline_prices <? 2)%nat then Remove
        else
          let baseline_mean := np_mean baseline_prices in
          let baseline_std := np_std baseline_prices in
          let data' :=
            {| SymbolData.symbol := SymbolData.symbol data;
               SymbolData.historical_data := df;
               SymbolData.baseline_prices := Some baseline_prices;
               SymbolData.baseline_mean := baseline_mean;
               SymbolData.baseline_std := baseline_std;
               SymbolData.full_prices := map snd df;
               SymbolData.timeframe := SymbolData.timeframe data |} in
          match last baseline_prices with
          | None => Remove
          | Some last_price =>
              if feq baseline_std 0 || isnan baseline_std || isnan last_price
              then Remove
              else
                let baseline_zscore :=
                  ((last_price - baseline_mean) / baseline_std)%float in
                if isnan baseline_zscore || isinf baseline_zscore then Remove
                else Keep data'
          end
    end.

Definition removed (valid_days : list Z) (data : SymbolData.t) : Prop :=
  calibrate valid_days data = Remove.

#[global] Instance removed_dec valid_days data : Decision (removed valid_days data).
Proof. unfold removed. destruct (calibrate valid_days data); [left|right]; congruence. Defined.

Definition kept (valid_days : list Z) (data : SymbolData.t)
  : option SymbolData.t :=
  match calibrate valid_days data with
  | Keep data' => Some data'
  | Remove => None
  end.

(** [initialize_symbol_data]: the loop fills [symbols_to_remove], then those
    symbols leave [symbol_data] and [symbols]. *)
Definition initialize_symbol_data (valid_days : list Z) (self : t)
  : t :=
  let symbols_to_remove : gset string :=
    dom (filter (fun kv => removed valid_days (snd kv)) (symbol_data self)) in
  {| symbols := symbols self ∖ symbols_to_remove;
     symbol_data := omap (kept valid_days) (symbol_data self);
     last_processed_price := last_processed_price self;
     price_trends := price_trends self |}.

(** The loop of [initialize_data] over what the fetcher returned: a frame
    with rows becomes the symbol's [SymbolData]. *)
Fixpoint store_frames (historical_data : list (string * list SymbolData.Row))
    (sd : gmap string SymbolData.t) : gmap string SymbolData.t :=
  match historical_data with
  | [] => sd
  | (sym, df) :: rest =>
      store_frames rest
        (if bool_decide (df = []) then sd else <[sym := SymbolData.new sym df]> sd)
  end.

(** [initialize_data], from the frames fetched and the valid trading days of
    the window. *)
Definition initialize_data (historical_data : list (string * list SymbolData.Row))
    (valid_days : list Z) (self : t) : t :=
  initialize_symbol_data valid_days
    {| symbols := symbols self;
       symbol_data := store_frames historical_data (symbol_data self);
       last_processed_price := last_processed_price self;
       price_trends := price_trends self |}.

End Calibration.

End SymbolDataManager.

(* ===================================================================== *)
(** ** streaming/stream_processor.py, streaming/data_stream_manager.py *)
(* ===================================================================== *)

Module StreamProcessor.

(** The records handed to [logging.info], with the values their format
    strings print. *)
Inductive LogRecord : Type :=
| TREND_CHANGE (symbol prev_act new_act : string) (ext_price day_high day_low : float)
| ALERT (symbol : string) (price zscore : float) (act : string)
    (samples_ago : option nat) (z_trend : float) (lamb : Z) (ext_price : float).

(** What a call can change: the symbol manager it holds and the log. *)
Record World : Type := {
  symbol_manager : SymbolDataManager.t;
  log : list LogRecord
}.

(** A method of the stream processor: it returns or raises, and what it
    changed before raising stays changed. *)
Definition M (A : Type) : Type := World -> res A * World.

#[global] Instance M_ret : MRet M := fun _ a w => (Ok a, w).
#[global] Instance M_bind : MBind M := fun _ _ f m w =>
  match m w with
  | (Ok a, w') => f a w'
  | (Raise e, w') => (Raise e, w')
  end.

Definition lift {A} (r : res A) : M A := fun w => (r, w).

(** [self.symbol_manager.price_trends[symbol]] *)
Definition getitem_price_trends (symbol : string) : M Trend.t := fun w =>
  match SymbolDataManager.price_trends (symbol_manager w) !! symbol with
  | Some current_trend => (Ok current_trend, w)
  | None => (Raise KeyError, w)
  end.

(** An assignment through [current_trend], the dictionary stored under
    [symbol]. *)
Definition setitem_price_trends (symbol : string) (current_trend : Trend.t)
  : M unit := fun w =>
  (Ok tt,
   {| symbol_manager :=
        SymbolDataManager.set_price_trends (symbol_manager w)
          (<[symbol := current_trend]> (SymbolDataManager.price_trends (symbol_manager w)));
      log := log w |}).

Definition setitem_last_processed_price (symbol : string) (price : float)
  : M unit := fun w =>
  (Ok tt,
   {| symbol_manager :=
        SymbolDataManager.set_last_processed_price (symbol_manager w)
          (<[symbol := price]> (SymbolDataManager.last_processed_price (symbol_manager w)));
      log := log w |}).

Definition logging_info (record : LogRecord) : M unit := fun w =>
  (Ok tt, {| symbol_manager := symbol_manager w; log := log w ++ [record] |}).

(** A replacement field with a format specification ([:<4], [:>8.3f],
    [:>5.1f]): [None] has no such format and raises [TypeError]. *)
Definition format_spec {A} (value : option A) : res A :=
  match value with
  | Some v => Ok v
  | None => Raise TypeError
  end.

Definition format_trend_change (symbol : string) (current_trend : Trend.t)
    (action : string) : res LogRecord :=
  prev_act ← format_spec (Trend.last_action current_trend);
  ext_price ← format_spec (Trend.extreme_price current_trend);
  day_high ← format_spec (Trend.day_high current_trend);
  day_low ← format_spec (Trend.day_low current_trend);
  Ok (TREND_CHANGE symbol prev_act action ext_price day_high day_low).

Definition format_alert (symbol : string) (result : Result.t) (e : Result.Enriched)
    (current_trend : Trend.t) : res LogRecord :=
  z_trend ← format_spec (Result.zscore_trend e);
  ext_price ← format_spec (Trend.extreme_price current_trend);
  Ok (ALERT symbol (Result.latest_price result) (Result.zscore result)
        (Result.action e) (Result.samples_ago e) z_trend (Result.lambda e)
        ext_price).

Definition log_alert (result : Result.t) : M unit :=
  symbol ← lift (Result.getitem Result.symbol result);
  current_trend ← getitem_price_trends symbol;
  e ← lift (Result.getitem id result);
  _ ← (if bool_decide (Trend.last_action current_trend ≠ Some (Result.action e))
       then
         _ ← match Trend.extreme_price current_trend with
             | Some _ =>
                 record ← lift (format_trend_change symbol current_trend
                                  (Result.action e));
                 logging_info record
             | None => mret tt
             end;
         setitem_price_trends symbol
           {| Trend.last_action := Some (Result.action e);
              Trend.extreme_price := Some (Result.latest_price result);
              Trend.day_high := Trend.day_high current_trend;
              Trend.day_low := Trend.day_low current_trend |}
       else mret tt);
  current_trend ← getitem_price_trends symbol;
  record ← lift (format_alert symbol result e current_trend);
  logging_info record.

Section Methods.
(** [self.processor], the callable the stream processor was built with, and
    [self.config_manager]. *)
Variable processor : list SymbolData.t -> dict float -> res (list Result.t).
Variable config_manager : ConfigManager.t.

(** The condition under which the loop of [process_data] calls
    [log_alert]. *)
Definition alert_condition (result : Result.t) : bool :=
  let zscore := Result.zscore result in
  let zscore_trend := Result.get Result.zscore_trend result in
  let sigma_thresh := ConfigManager.get_sigma_thresh config_manager 30.0 in
  let zscore_trend_thresh := ConfigManager.get_zscore_trend_thresh config_manager 2.0 in
  fgt (fabs zscore) sigma_thresh
  && match zscore_trend with
     | None => true
     | Some zt => fgt (fabs zt) zscore_trend_thresh
     end.

(** One turn of the loop of [process_data]. *)
Definition process_result (result : Result.t) : M unit :=
  symbol ← lift (Result.getitem Result.symbol result);
  _ ← (if alert_condition result then log_alert result else mret tt);
  setitem_last_processed_price symbol (Result.latest_price result).

Fixpoint for_each (results : list Result.t) : M unit :=
  match results with
  | [] => mret tt
  | result :: rest => _ ← process_result result; for_each rest
  end.

Definition process_data (new_prices : dict float) : M unit := fun w =>
  let symbol_data_list :=
    omap (fun symbol => SymbolDataManager.symbol_data (symbol_manager w) !! symbol)
      (dict_keys new_prices) in
  (results ← lift (processor symbol_data_list new_prices); for_each results) w.

End Methods.
End StreamProcessor.

Module DataStreamManager.

(** [DataStreamManager]: the detector, the optional pool, and
    [process_data], the callable it gives to its stream processor. *)
Record t : Type := {
  processor : ConfigManager.t;
  parallel_processor : option ParallelProcessor.t
}.

Section Methods.
Context `{Numerics}.

(** The loop of the branch without a pool. *)
Fixpoint process_each (processor : ConfigManager.t)
    (symbol_data_list : list SymbolData.t) (new_prices : dict float)
  : res (list Result.t) :=
  match symbol_data_list with
  | [] => Ok []
  | symbol_data :: rest =>
      match dict_get new_prices (SymbolData.symbol symbol_data) with
      | Some new_price =>
          result ← ZScoreProcessor.process processor symbol_data new_price;
          results ← process_each processor rest new_prices;
          Ok (result :: results)
      | None => process_each processor rest new_prices
      end
  end.

Definition process_data (self : t)
    (symbol_data_list : list SymbolData.t) (new_prices : dict float)
  : res (list Result.t) :=
  match parallel_processor self with
  | Some pool =>
      ParallelProcessor.process_symbols pool symbol_data_list new_prices
  | None => process_each (processor self) symbol_data_list new_prices
  end.

(** The stream processor as [DataStreamManager.__init__] builds it. *)
Definition stream_processor (self : t)
    (config_manager : ConfigManager.t) (new_prices : dict float) : StreamProcessor.M unit :=
  StreamProcessor.process_data (process_data self) config_manager new_prices.

End Methods.
End DataStreamManager.

(* ===================================================================== *)
(** ** data/historical_data_fetcher.py *)
(* ===================================================================== *)

Module HistoricalDataFetcher.

(** The body of a response, as [response.json()] meets it: a content type
    that is not JSON; a JSON content type with text that does not parse, with
    nothing but white space, or with a JSON object, for which [bars] is
    [data["bars"][symbol]] when both keys are there. *)
Inductive Body : Type :=
| NotJson
| Unparsable
| Blank
| Json (bars : option (list SymbolData.Row)).

(** What one [session.get] meets: an exception of the transport, or a
    response with its status. *)
Inductive Reply : Type :=
| Failed (e : exn)
| Response (status : Z) (body : Body).

(** What the fetcher does besides returning: requests and sleeps, in
    seconds. *)
Inductive Event : Type :=
| Request (symbol : string) (attempt_number : Z)
| Sleep (seconds : Z).

#[global] Instance Event_eq_dec : EqDecision Event.
Proof. solve_decision. Defined.

(** [response.raise_for_status()] of aiohttp raises [ClientResponseError], a
    [ClientError], when the status is 400 or more. *)
Definition raise_for_status (status : Z) : res unit :=
  if 400 <=? status then Raise ClientError else Ok tt.

(** A response with a status below 200, 204 or 304 has no body: aiohttp
    reads none, whatever was sent. *)
Definition bodiless (status : Z) : bool :=
  (status <? 200) || (status =? 204) || (status =? 304).

(** [await response.json()]: [ContentTypeError], a [ClientError], on a
    content type that is not JSON; [None] when there is nothing to read but
    white space; [JSONDecodeError], a [ValueError], on text that does not
    parse; otherwise the object, here what it has under
    [data["bars"][symbol]]. *)
Definition json (status : Z) (body : Body)
  : res (option (option (list SymbolData.Row))) :=
  match body with
  | NotJson => Raise ClientError
  | Unparsable => if bodiless status then Ok None else Raise ValueError
  | Blank => Ok None
  | Json bars => if bodiless status then Ok None else Ok (Some bars)
  end.

(** The body of [fetch_symbol_data], one attempt: the sleeps it made and
    what it returned or raised. ["bars" in data] raises [TypeError] when
    [data] is [None]; a frame built from an empty list has no column ['t']. *)
Definition fetch_once (symbol : string) (reply : Reply)
  : list Event * res (string * list SymbolData.Row) :=
  match reply with
  | Failed e => ([], Raise e)
  | Response status body =>
      if status =? 429 then ([Sleep 60], Raise ClientError)
      else
        ([],
         _ ← raise_for_status status;
         data ← json status body;
         match data with
         | None => Raise TypeError
         | Some (Some []) => Raise KeyError
         | Some (Some bar_list) => Ok (symbol, bar_list)
         | Some None => Ok (symbol, [])
         end)
  end.

(** [retry_if_exception_type((aiohttp.ClientError, asyncio.TimeoutError))] *)
Definition retry_if_exception_type (e : exn) : bool :=
  match e with
  | ClientError | TimeoutError => true
  | _ => false
  end.

(** [wait_exponential(multiplier, min, max)] of tenacity, after the attempt
    of the given number. *)
Definition wait_exponential (multiplier min max : Z) (attempt_number : Z) : Z :=
  Z.max (Z.max 0 min) (Z.min (multiplier * 2 ^ (attempt_number - 1)) max).

Definition wait : Z -> Z := wait_exponential 1 4 60.

(** [stop_after_attempt(5)] *)
Definition max_attempt_number : Z := 5.

(** The [@retry] loop of tenacity around [fn]: an exception that is not of
    the retried types is raised as it is, the last attempt allowed raises
    [RetryError], any other failure sleeps and calls again. [remaining] is
    the number of attempts still allowed after this one. *)
Fixpoint retry {A} (remaining : nat) (attempt_number : Z) (symbol : string)
    (fn : Z -> list Event * res A) : list Event * res A :=
  let '(events, outcome) := fn attempt_number in
  match outcome with
  | Ok a => (Request symbol attempt_number :: events, Ok a)
  | Raise e =>
      if negb (retry_if_exception_type e)
      then (Request symbol attempt_number :: events, Raise e)
      else
        match remaining with
        | O => (Request symbol attempt_number :: events, Raise RetryError)
        | S remaining' =>
            let '(events', outcome') :=
              retry remaining' (attempt_number + 1) symbol fn in
            (Request symbol attempt_number :: events
               ++ Sleep (wait attempt_number) :: events',
             outcome')
        end
  end.

Section Methods.
(** The reply the service gives to the attempt of a number for a symbol. *)
Variable service : string -> Z -> Reply.

Definition fetch_symbol_data (symbol : string)
  : list Event * res (string * list SymbolData.Row) :=
  retry (Z.to_nat (max_attempt_number - 1)) 1 symbol
    (fun attempt_number => fetch_once symbol (service symbol attempt_number)).

(** [asyncio.gather] with [return_exceptions=True] over one task per symbol,
    and the filter on what it returned. *)
Definition fetch_historical_data (symbols : list string)
  : list (string * list SymbolData.Row) :=
  let results := map (fun symbol => snd (fetch_symbol_data symbol)) symbols in
  omap (fun result => match result with Ok r => Some r | Raise _ => None end)
    results.

End Methods.
End HistoricalDataFetcher.

(* ===================================================================== *)
(** ** data/symbol_data_manager.py: the window of [initialize_data] *)
(* ===================================================================== *)

(** The calendar of [pandas_market_calendars] and the index of its result. *)
Module Calendar.

(** [seq[i]] with an index counted from the end when it is negative;
    [None] stands for [IndexError]. *)
Definition getitem {A} (l : list A) (i : Z) : option A :=
  let n := Z.of_nat (length l) in
  if 0 <=? i then l !! Z.to_nat i
  else if - n <=? i then l !! Z.to_nat (n + i)
  else None.

Section NYSE.
(** The trading days of the exchange, on day numbers. *)
Variable trading_day : Z -> bool.

(** [nyse.valid_days(start_date, end_date)]: the trading days from the first
    date to the second, both included, in order. *)
Definition valid_days (start_date end_date : Z) : list Z :=
  List.filter trading_day (seqZ start_date (end_date - start_date + 1)).

End NYSE.
End Calendar.

(** [SymbolDataManager.initialize_data] as a whole: the window, the fetch and
    the calibration. *)
Module Startup.

(** The arguments of [SymbolDataManager.__init__] that set the window. *)
Record Options : Type := {
  ndays : Z;
  test_mode : bool;
  days_ago : Z
}.

Section Methods.
Context `{Numerics}.
Variable trading_day : Z -> bool.
(** The reply of the service to an attempt for a symbol, for the start and
    end dates of the request. *)
Variable service : Z -> Z -> string -> Z -> HistoricalDataFetcher.Reply.
(** [datetime.now(pytz.UTC).date()] *)
Variable today : Z.

(** The start and end dates [initialize_data] computes; [None] stands for
    the [IndexError] of an index outside [valid_dates]. *)
Definition window (o : Options) : option (Z * Z) :=
  let valid_dates := Calendar.valid_days trading_day (today - 30) today in
  let len := Z.of_nat (length valid_dates) in
  if test_mode o then
    end_date ← Calendar.getitem valid_dates (- days_ago o);
    start_date ← Calendar.getitem valid_dates (Z.max (- len) (- ndays o - days_ago o));
    Some (start_date, end_date)
  else
    start_date ← Calendar.getitem valid_dates (Z.max (- len) (- ndays o));
    Some (start_date, today).

(** [initialize_data]: the window, the fetch over [self.symbols], the frames
    stored and [initialize_symbol_data] over the valid days of the window. *)
Definition initialize_data (o : Options) (self : SymbolDataManager.t)
  : option SymbolDataManager.t :=
  '(start_date, end_date) ← window o;
  let historical_data :=
    HistoricalDataFetcher.fetch_historical_data (service start_date end_date)
      (elements (SymbolDataManager.symbols self)) in
  Some (SymbolDataManager.initialize_data historical_data
          (Calendar.valid_days trading_day start_date end_date) self).

End Methods.
End Startup.

(* ===================================================================== *)
(** ** streaming/stream_processor.py: [handle_message] *)
(* ===================================================================== *)

(** What [json.loads] returns. A number, an [int] or a [float] in Python, is
    kept as the float of the same value; an object is its items, each key
    once. *)
Module Json.
Inductive value : Type :=
| Null
| Bool (b : bool)
| Number (x : float)
| String (s : string)
| Array (items : list value)
| Object (items : list (string * value)).

(** The truth value of [v] in a condition. *)
Definition truthy (v : value) : bool :=
  match v with
  | Null => false
  | Bool b => b
  | Number x => negb (feq x 0)
  | String s => negb (String.eqb s "")
  | Array items => negb (bool_decide (items = []))
  | Object items => negb (bool_decide (items = []))
  end.

(** [d.get(key)]: [None], here [Null], for a missing key. *)
Definition get (d : dict value) (key : string) : value :=
  default Null (dict_get d key).

(** [v == s] for a string [s]. *)
Definition eq_str (v : value) (s : string) : bool :=
  match v with
  | String s' => String.eqb s' s
  | _ => false
  end.
End Json.

(** [StreamProcessor.handle_message], [process_trade] and [process_bar]. *)
Module Listener.

(** What the handler catches besides the exceptions of the detection path. *)
Inductive Caught : Type :=
| AttributeError
| Raised (e : exn).

(** The records handed to [logging.error] by [handle_message]. *)
Inductive ErrorRecord : Type :=
| DECODE_ERROR
| HANDLING_ERROR (e : Caught).

Section Methods.
(** [json.loads]; [None] stands for [JSONDecodeError]. Then [self.processor],
    [self.stream_type] and [self.config_manager]. *)
Variable json_loads : string -> option Json.value.
Variable processor : list SymbolData.t -> dict float -> res (list Result.t).
Variable stream_type : string.
Variable config_manager : ConfigManager.t.

(** [process_data({symbol: price})] for the symbol and the price read from a
    message. The model covers a symbol that is a string and a price that is
    a number; [None] stands for the other messages. *)
Definition process_tick (symbol price : Json.value)
  : option (StreamProcessor.M unit) :=
  match symbol, price with
  | Json.String symbol, Json.Number price =>
      Some (StreamProcessor.process_data processor config_manager [(symbol, price)])
  | _, _ => None
  end.

(** [process_trade] and [process_bar]: [trade_data['S']] and
    [trade_data['p']], or [bar_data['c']], raise [KeyError] on a missing
    key. *)
Definition process_keyed (key : string) (data : dict Json.value)
  : option (StreamProcessor.M unit) :=
  match dict_get data "S" with
  | None => Some (StreamProcessor.lift (Raise KeyError))
  | Some symbol =>
      match dict_get data key with
      | None => Some (StreamProcessor.lift (Raise KeyError))
      | Some price => process_tick symbol price
      end
  end.

Definition process_trade : dict Json.value -> option (StreamProcessor.M unit) :=
  process_keyed "p".
Definition process_bar : dict Json.value -> option (StreamProcessor.M unit) :=
  process_keyed "c".

(** [except Exception]: what the call changed stays, the exception is
    logged. *)
Definition logged (m : StreamProcessor.M unit) (w : StreamProcessor.World)
  : StreamProcessor.World * list ErrorRecord :=
  match m w with
  | (Ok _, w') => (w', [])
  | (Raise e, w') => (w', [HANDLING_ERROR (Raised e)])
  end.

(** [handle_message]: the world after the message and the errors logged. It
    never raises. *)
Definition handle_message (message : string) (w : StreamProcessor.World)
  : option (StreamProcessor.World * list ErrorRecord) :=
  match json_loads message with
  | None => Some (w, [DECODE_ERROR])
  | Some (Json.Object data) =>
      let message_type := Json.get data "T" in
      let symbol := Json.get data "S" in
      if Json.truthy message_type && Json.truthy symbol then
        if String.eqb stream_type "trades" && Json.eq_str message_type "t" then
          m ← process_trade data; Some (logged m w)
        else if String.eqb stream_type "bars" && Json.eq_str message_type "b" then
          m ← process_bar data; Some (logged m w)
        else Some (w, [])
      else Some (w, [])
  | Some _ => Some (w, [HANDLING_ERROR AttributeError])
  end.

End Methods.
End Listener.

(* ===================================================================== *)
(** ** utils/helpers.py *)
(* ===================================================================== *)

(** The string methods used on symbols, on ASCII text. *)
Module Str.

(** [c.isspace()]: tab to carriage return, the four separators and the
    space. *)
Definition isspace (c : Ascii.ascii) : bool :=
  let n := Ascii.nat_of_ascii c in
  ((9 <=? n) && (n <=? 13) || (28 <=? n) && (n <=? 32))%nat.

Definition upper_char (c : Ascii.ascii) : Ascii.ascii :=
  let n := Ascii.nat_of_ascii c in
  if ((97 <=? n) && (n <=? 122))%nat then Ascii.ascii_of_nat (n - 32) else c.

(** [s.upper()] *)
Fixpoint upper (s : string) : string :=
  match s with
  | EmptyString => EmptyString
  | String c s' => String (upper_char c) (upper s')
  end.

Fixpoint lstrip (s : string) : string :=
  match s with
  | EmptyString => EmptyString
  | String c s' => if isspace c then lstrip s' else s
  end.

Fixpoint rstrip (s : string) : string :=
  match s with
  | EmptyString => EmptyString
  | String c s' =>
      match rstrip s' with
      | EmptyString => if isspace c then EmptyString else String c EmptyString
      | t => String c t
      end
  end.

(** [s.strip()] *)
Definition strip (s : string) : string := rstrip (lstrip s).

(** [s.split(sep)] for a separator of one character. *)
Fixpoint split (sep : Ascii.ascii) (s : string) : list string :=
  match s with
  | EmptyString => [EmptyString]
  | String c s' =>
      if Ascii.eqb c sep then EmptyString :: split sep s'
      else
        match split sep s' with
        | [] => [String c EmptyString]
        | t :: ts => String c t :: ts
        end
  end.

(** The truth value of an optional string argument: [None] and the empty
    string are false. *)
Definition truthy (s : option string) : bool :=
  match s with
  | Some s => negb (String.eqb s "")
  | None => false
  end.

End Str.

(** [read_symbols_from_file] and [get_symbols]. *)
Module Helpers.
Section Files.
(** [f.readlines()] of the file opened at a path; [None] stands for the
    [IOError] of a file that cannot be read. *)
Variable readlines : string -> option (list string).

(** The set comprehension of both functions. *)
Definition symbols_of (entries : list string) : gset string :=
  list_to_set
    (map (fun symbol => Str.upper (Str.strip symbol))
       (List.filter (fun symbol => negb (String.eqb (Str.strip symbol) "")) entries)).

Definition read_symbols_from_file (file_path : string) : gset string :=
  match readlines file_path with
  | Some lines => symbols_of lines
  | None => ∅
  end.

Definition get_symbols (file_path symbol_list : option string) : res (gset string) :=
  let symbols : gset string := ∅ in
  let symbols :=
    if Str.truthy file_path
    then symbols ∪ read_symbols_from_file (default "" file_path)
    else symbols in
  let symbols :=
    if Str.truthy symbol_list
    then symbols ∪ symbols_of (Str.split ","%char (default "" symbol_list))
    else symbols in
  if bool_decide (symbols = ∅) then Raise ValueError else Ok symbols.

End Files.
End Helpers.

(* ===================================================================== *)
(** ** utils/config_manager.py: the file, and [update_config_thresholds] of main.py *)
(* ===================================================================== *)

(** [ConfigManager] with its file: [load_config], [update] and one turn of
    the loop of [watch_config]. *)
Module ConfigFile.

(** The configuration file as [open] and [os.path.getmtime] find it: not
    there, there with a content [json.load] refuses, or there with a JSON
    object; and whether it can be opened for writing. *)
Inductive Content : Type :=
| Missing
| Invalid (mtime : Z)
| Valid (mtime : Z) (config : ConfigManager.t).

Record File : Type := {
  content : Content;
  writable : bool
}.

(** [self.config] and [self.last_modified]. *)
Record State : Type := {
  config : ConfigManager.t;
  last_modified : Z
}.

(** [{}] *)
Definition empty : ConfigManager.t :=
  {| ConfigManager.sigma_thresh := None;
     ConfigManager.zscore_trend_thresh := None;
     ConfigManager.lambda_multiplier := None |}.

(** [load_config]: every exception is caught and gives [{}]. *)
Definition load_config (file : File) : ConfigManager.t :=
  match content file with
  | Valid _ config => config
  | Invalid _ | Missing => empty
  end.

(** [os.path.getmtime]; [None] stands for [FileNotFoundError]. *)
Definition getmtime (file : File) : option Z :=
  match content file with
  | Valid mtime _ | Invalid mtime => Some mtime
  | Missing => None
  end.

(** [__init__], without the thread it starts. *)
Definition init (file : File) : option State :=
  let config := load_config file in
  last_modified ← getmtime file;
  Some {| config := config; last_modified := last_modified |}.

(** A key of the configuration with a value for it. *)
Inductive Entry : Type :=
| sigma_thresh (value : float)
| zscore_trend_thresh (value : float)
| lambda_multiplier (value : gmap string float).

(** [self.config[key] = value] *)
Definition setitem (config : ConfigManager.t) (entry : Entry) : ConfigManager.t :=
  match entry with
  | sigma_thresh value =>
      {| ConfigManager.sigma_thresh := Some value;
         ConfigManager.zscore_trend_thresh := ConfigManager.zscore_trend_thresh config;
         ConfigManager.lambda_multiplier := ConfigManager.lambda_multiplier config |}
  | zscore_trend_thresh value =>
      {| ConfigManager.sigma_thresh := ConfigManager.sigma_thresh config;
         ConfigManager.zscore_trend_thresh := Some value;
         ConfigManager.lambda_multiplier := ConfigManager.lambda_multiplier config |}
  | lambda_multiplier value =>
      {| ConfigManager.sigma_thresh := ConfigManager.sigma_thresh config;
         ConfigManager.zscore_trend_thresh := ConfigManager.zscore_trend_thresh config;
         ConfigManager.lambda_multiplier := Some value |}
  end.

(** [update]: the key is set in memory, then the file is written; [now] is
    the modification time the write gives the file. A write that fails is
    logged and leaves the file and [last_modified] as they were. *)
Definition update (entry : Entry) (now : Z) (self : State) (file : File)
  : State * File :=
  let config := setitem (config self) entry in
  if writable file then
    ({| config := config; last_modified := now |},
     {| content := Valid now config; writable := writable file |})
  else
    ({| config := config; last_modified := last_modified self |}, file).

(** One turn of the loop of [watch_config], after its sleep. The lines of
    [log_changes] are left out. *)
Definition watch_config (self : State) (file : File) : State :=
  match getmtime file with
  | None => self
  | Some current_mtime =>
      if last_modified self <? current_mtime then
        {| config := load_config file; last_modified := current_mtime |}
      else self
  end.

(** [update_config_thresholds] of [main.py]; each write has its time. *)
Definition update_config_thresholds (sigma_thresh' zscore_trend_thresh' : option float)
    (now1 now2 : Z) (self : State) (file : File) : State * File :=
  let '(self, file) :=
    match sigma_thresh' with
    | Some value => update (sigma_thresh value) now1 self file
    | None => (self, file)
    end in
  match zscore_trend_thresh' with
  | Some value => update (zscore_trend_thresh value) now2 self file
  | None => (self, file)
  end.

End ConfigFile.

(* ===================================================================== *)
(** ** A small instance of the numerical routines *)
(* ===================================================================== *)

(** Plain versions of the routines, enough to run the pipeline on concrete
    prices: the filter returns its input twice, so that cycle and trend
    coincide, [zscore] returns a series, peaks are the local maxima as
    [find_peaks] reports them, mean and deviation are the population ones.
    They stand in for the libraries: what is computed with them is a value
    of these routines, not of statsmodels or SciPy. *)
Module Plain.

Definition fsum (xs : list float) : float :=
  fold_left (fun acc x => (acc + x)%float) xs 0%float.

Definition mean (xs : list float) : float :=
  (fsum xs / float_of_nat (length xs))%float.

Definition std (xs : list float) : float :=
  let m := mean xs in
  PrimFloat.sqrt (mean (map (fun x => ((x - m) * (x - m))%float) xs)).

Definition z_scores (xs : list float) : list float :=
  let m := mean xs in
  let s := std xs in
  map (fun x => ((x - m) / s)%float) xs.

(** [find_peaks] of SciPy without conditions: a local maximum is a row
    higher than the row before it, or the first of a flat stretch that is,
    with a lower row after the stretch; it is reported once, at the middle
    of the stretch, rounded down. The first and the last row are never
    peaks. [plateau_end x i] is the last row of the stretch that starts at
    row [i]; the stretch stops before the last row of the series. *)
Fixpoint plateau_end (x : list float) (i : nat) (fuel : nat) : nat :=
  match fuel with
  | O => i
  | S fuel' =>
      match x !! i, x !! (i + 1)%nat with
      | Some a, Some b =>
          if (i + 1 <? length x - 1)%nat && feq b a
          then plateau_end x (i + 1) fuel'
          else i
      | _, _ => i
      end
  end.

Definition peak_from (x : list float) (i : nat) : option nat :=
  let j := plateau_end x i (length x) in
  match x !! (i - 1)%nat, x !! i, x !! (j + 1)%nat with
  | Some a, Some b, Some c =>
      if (0 <? i)%nat && flt a b && flt c b then Some ((i + j) / 2)%nat else None
  | _, _, _ => None
  end.

Definition is_peak (x : list float) (m : nat) : bool :=
  existsb (fun i => bool_decide (peak_from x i = Some m)) (seq 0 (length x)).

Definition local_maxima (x : list float) : list nat :=
  List.filter (is_peak x) (seq 0 (length x)).

#[global, refine] Instance numerics : Numerics := {|
  hpfilter := fun x _ => Ok (x, x);
  hpfilter_length := _;
  zscore := fun s => Ok (Pandas.OfSeries (zip (map fst s) (z_scores (map snd s))));
  find_peaks := local_maxima;
  find_peaks_bound := _;
  find_peaks_NoDup := _;
  np_mean := mean;
  np_std := std
|}.
Proof.
  - intros x lamb hp [= <-]. split; reflexivity.
  - intros x i Hin. unfold local_maxima in Hin. apply list_elem_of_In in Hin.
    apply filter_In in Hin as [Hin _]. apply in_seq in Hin. lia.
  - intros x. unfold local_maxima.
    apply NoDup_ListNoDup, List.NoDup_filter, seq_NoDup.
Defined.

End Plain.

(** The routines computed from their definitions. [hpfilter] is the
    Hodrick-Prescott filter as statsmodels states it: the trend solves
    [(I + lamb * K'K) trend = x], with [K] the second-difference matrix of
    [nobs - 2] rows, and the cycle is [x - trend]; the system is solved here
    by elimination, so the last digits may differ from those of the library's
    sparse solver. A series of fewer than two samples is refused, the shape
    of [K] having a negative side. [zscore] returns
    a series on the labels of its argument, with the population deviation;
    peaks are those of the plain routines. *)
Module Reference.

Definition float_of_Z (z : Z) : float :=
  if z <? 0 then (- float_of_nat (Z.to_nat (- z)))%float
  else float_of_nat (Z.to_nat z).

(** Entry [(r, i)] of [K] and entry [(i, j)] of [K'K]. *)
Definition K (r i : nat) : float :=
  if (i =? r)%nat then 1%float
  else if (i =? r + 1)%nat then (-2)%float
  else if (i =? r + 2)%nat then 1%float
  else 0%float.

Definition KtK (nobs i j : nat) : float :=
  Plain.fsum (map (fun r => (K r i * K r j)%float) (seq 0 (nobs - 2))).

(** The rows of [I + lamb * K'K], each with its right-hand side. *)
Definition system (x : list float) (lamb : float) : list (list float * float) :=
  let nobs := length x in
  imap (fun i b =>
          (map (fun j => ((if (i =? j)%nat then 1 else 0) + lamb * KtK nobs i j)%float)
               (seq 0 nobs), b)) x.

(** Elimination on the first unknown, then back substitution. *)
Fixpoint solve (n : nat) (rows : list (list float * float)) : list float :=
  match n, rows with
  | S n', (a :: coeffs, b) :: rest =>
      let reduce (row : list float * float) :=
        match fst row with
        | c :: cs =>
            let f := (c / a)%float in
            (zip_with (fun p q => (q - f * p)%float) coeffs cs, (snd row - f * b)%float)
        | [] => ([], snd row)
        end in
      let sol := solve n' (map reduce rest) in
      ((b - Plain.fsum (zip_with PrimFloat.mul coeffs sol)) / a)%float :: sol
  | _, _ => []
  end.

Definition hp_filter (x : list float) (lamb : Z) : res HP.t :=
  let nobs := length x in
  if (nobs <? 2)%nat then Raise ValueError
  else
    let sol := solve nobs (system x (float_of_Z lamb)) in
    let trend := map (fun i => default nan (sol !! i)) (seq 0 nobs) in
    let cycle := zip_with PrimFloat.sub x trend in
    Ok (cycle, trend).

#[local, refine] Instance numerics : Numerics := {|
  hpfilter := hp_filter;
  hpfilter_length := _;
  zscore := fun s =>
    Ok (Pandas.OfSeries (zip (map fst s) (Plain.z_scores (map snd s))));
  find_peaks := Plain.local_maxima;
  find_peaks_bound := find_peaks_bound (Numerics := Plain.numerics);
  find_peaks_NoDup := find_peaks_NoDup (Numerics := Plain.numerics);
  np_mean := Plain.mean;
  np_std := Plain.std
|}.
Proof.
  intros x lamb hp. unfold hp_filter.
  destruct (length x <? 2)%nat; [discriminate|]. intros [= <-].
  unfold HP.cycle, HP.trend. simpl.
  rewrite length_zip_with, length_map, length_seq. split; lia.
Defined.

End Reference.

(** Concrete data used to run the definitions. *)
Module Sample.

Definition thresholds (sigma trend : float) : ConfigManager.t :=
  {| ConfigManager.sigma_thresh := Some sigma;
     ConfigManager.zscore_trend_thresh := Some trend;
     ConfigManager.lambda_multiplier := None |}.

Definition series (sym : string) (mean std : float) (prices : list float)
  : SymbolData.t :=
  {| SymbolData.symbol := sym;
     SymbolData.historical_data := map (fun p => (0, p)) prices;
     SymbolData.baseline_prices := Some prices;
     SymbolData.baseline_mean := mean;
     SymbolData.baseline_std := std;
     SymbolData.full_prices := prices;
     SymbolData.timeframe := "1Min" |}.

(** Baseline mean 100.0 and deviation 2.0. *)
Definition aapl : SymbolData.t :=
  series "AAPL" 100.0 2.0 [98.0; 102.0; 99.0; 101.0]%float.

Definition msft : SymbolData.t :=
  series "MSFT" 50.0 1.0 [49.0; 51.0; 50.0; 52.0]%float.

(** A manager tracking the sample series, before any tick. *)
Definition manager : SymbolDataManager.t :=
  {| SymbolDataManager.symbols := {[ "AAPL"; "MSFT" ]};
     SymbolDataManager.symbol_data := {[ "AAPL" := aapl; "MSFT" := msft ]};
     SymbolDataManager.last_processed_price := ∅;
     SymbolDataManager.price_trends := gset_to_gmap Trend.init {[ "AAPL"; "MSFT" ]} |}.

Definition world : StreamProcessor.World :=
  {| StreamProcessor.symbol_manager := manager; StreamProcessor.log := [] |}.

(** The pipeline without a pool, detector and stream processor reading the
    same thresholds. *)
Definition direct (cm : ConfigManager.t) : DataStreamManager.t :=
  {| DataStreamManager.processor := cm; DataStreamManager.parallel_processor := None |}.

Definition tick (cm : ConfigManager.t) (sym : string) (price : float)
  : StreamProcessor.M unit :=
  DataStreamManager.stream_processor (direct cm) cm [(sym, price)].

(** Frames as the fetcher returns them, over the trading days 1, 2 and 3:
    five bars for AAPL, four of them on day 2; one bar for MSFT; an empty
    frame for TSLA. *)
Definition frames : list (string * list SymbolData.Row) :=
  [("AAPL", [(2, 98.0%float); (2, 102.0%float); (2, 99.0%float);
             (2, 101.0%float); (3, 100.0%float)]);
   ("MSFT", [(2, 50.0%float)]);
   ("TSLA", [])].

Definition valid_days : list Z := [1; 2; 3].

(** The world after a sequence of ticks, whatever each of them returned. *)
Definition run (cm : ConfigManager.t) (ticks : list (string * float))
    (w : StreamProcessor.World) : StreamProcessor.World :=
  fold_left (fun w t => snd (tick cm (fst t) (snd t) w)) ticks w.

(** What the detector returns for the sample series at 93.9 and at 106.1
    with the plain routines, under a sigma threshold of 3.0 and a trend
    threshold of 1.7. *)
Definition sell_payload : Result.Enriched :=
  {| Result.symbol := "AAPL";
     Result.num_samples := 4;
     Result.lambda := 60;
     Result.action := "Sell";
     Result.price := 101.0%float;
     Result.current_price := 93.9%float;
     Result.samples_ago := Some 1%nat;
     Result.zscore_trend := Some (-1.7303659045848503)%float;
     Result.zscore_trend_alert := true |}.

Definition sell_result : Result.t :=
  {| Result.zscore := (-3.0499999999999972)%float;
     Result.alert := true;
     Result.latest_price := 93.9%float;
     Result.enriched := Some sell_payload |}.

(** A result for AAPL with its payload, as [process] builds it under the
    trend threshold 1.7, and the results of four ticks. *)
Definition result (price z : float) (act : string) (zt : option float)
  : Result.t :=
  {| Result.zscore := z;
     Result.alert := true;
     Result.latest_price := price;
     Result.enriched := Some
       {| Result.symbol := "AAPL";
          Result.num_samples := 4;
          Result.lambda := 60;
          Result.action := act;
          Result.price := 101.0%float;
          Result.current_price := price;
          Result.samples_ago := Some 1%nat;
          Result.zscore_trend := zt;
          Result.zscore_trend_alert :=
            match zt with
            | Some t => fgt (fabs t) 1.7
            | None => false
            end |} |}.

Definition sell_930 : Result.t := result 93.0 (-3.5) "Sell" (Some (-2.6)%float).
Definition sell_939 : Result.t := result 93.9 (-3.05) "Sell" (Some (-2.5)%float).
Definition buy_1061 : Result.t := result 106.1 3.05 "Buy" (Some 2.5%float).
Definition trendless : Result.t := result 106.1 3.05 "Buy" None.

(** The result of the tick 94.0, below the sigma threshold 3.0. *)
Definition quiet_940 : Result.t :=
  {| Result.zscore := (-3.0)%float;
     Result.alert := false;
     Result.latest_price := 94.0%float;
     Result.enriched := None |}.

(** A processor that returns the given results, and the stream processor
    fed with one result. *)
Definition replay (results : list Result.t)
  : list SymbolData.t -> dict float -> res (list Result.t) :=
  fun _ _ => Ok results.

Definition feed (cm : ConfigManager.t) (r : Result.t) : StreamProcessor.M unit :=
  StreamProcessor.process_data (replay [r]) cm [("AAPL", Result.latest_price r)].

End Sample.

(** Concrete inputs for the start-up, the listener, the symbol files and the
    configuration file. *)
Module Scenario.

(** A calendar with the days 5 and 6 of every week closed; day 100 is the
    third open day of its week. *)
Definition weekdays (d : Z) : bool := d mod 7 <? 5.
Definition today : Z := 100.

Definition live (ndays : Z) : Startup.Options :=
  {| Startup.ndays := ndays; Startup.test_mode := false; Startup.days_ago := 1 |}.
Definition replayed (ndays days_ago : Z) : Startup.Options :=
  {| Startup.ndays := ndays; Startup.test_mode := true; Startup.days_ago := days_ago |}.

(** A service with five bars for AAPL, four of them on day 99, and a body
    without bars for every other symbol. *)
Definition service (start_date end_date : Z) (symbol : string) (attempt_number : Z)
  : HistoricalDataFetcher.Reply :=
  if String.eqb symbol "AAPL" then
    HistoricalDataFetcher.Response 200
      (HistoricalDataFetcher.Json
         (Some [(99, 98.0%float); (99, 102.0%float); (99, 99.0%float);
                (99, 101.0%float); (100, 100.0%float)]))
  else HistoricalDataFetcher.Response 200 (HistoricalDataFetcher.Json None).

(** A service that answers 429, then 503, then a bar. *)
Definition flaky (symbol : string) (attempt_number : Z) : HistoricalDataFetcher.Reply :=
  if attempt_number =? 1
  then HistoricalDataFetcher.Response 429 HistoricalDataFetcher.NotJson
  else if attempt_number =? 2
  then HistoricalDataFetcher.Response 503 HistoricalDataFetcher.NotJson
  else HistoricalDataFetcher.Response 200
         (HistoricalDataFetcher.Json (Some [(1, 100.0%float)])).

(** A trade message once decoded, and a decoder for four messages named by
    what they hold. *)
Definition trade (symbol : string) (price : float) : Json.value :=
  Json.Object [("T", Json.String "t"); ("S", Json.String symbol);
               ("p", Json.Number price)].

Definition json_loads (message : string) : option Json.value :=
  if String.eqb message "AAPL 94.0" then Some (trade "AAPL" 94.0)
  else if String.eqb message "AAPL 93.9" then Some (trade "AAPL" 93.9)
  else if String.eqb message "TSLA 10.0" then Some (trade "TSLA" 10.0)
  else if String.eqb message "subscribed"
  then Some (Json.Array [Json.Object [("T", Json.String "subscription")]])
  else None.

(** The sample world after the first alert of AAPL, at 93.9, with the plain
    routines and the thresholds 3.0 and 1.7. *)
Definition alerted : StreamProcessor.World :=
  {| StreamProcessor.symbol_manager :=
       {| SymbolDataManager.symbols := {[ "AAPL"; "MSFT" ]};
          SymbolDataManager.symbol_data := {[ "AAPL" := Sample.aapl; "MSFT" := Sample.msft ]};
          SymbolDataManager.last_processed_price := {[ "AAPL" := 93.9%float ]};
          SymbolDataManager.price_trends :=
            <["AAPL" := {| Trend.last_action := Some "Sell";
                           Trend.extreme_price := Some 93.9%float;
                           Trend.day_high := None;
                           Trend.day_low := None |}]>
              (gset_to_gmap Trend.init {[ "AAPL"; "MSFT" ]}) |};
     StreamProcessor.log :=
       [StreamProcessor.ALERT "AAPL" 93.9 (-3.0499999999999972) "Sell" (Some 1%nat)
          (-1.7303659045848503) 60 93.9] |}.

(** What the detector returns for the sample series at 93.9 with the filter
    computed from its definition, under the sigma threshold 3.0 and the
    trend threshold 1.2, and the world after the trade "AAPL 93.9" on the
    sample world. The last digits of the trend z-score are those of the
    elimination. *)
Definition trend_payload : Result.Enriched :=
  {| Result.symbol := "AAPL";
     Result.num_samples := 4;
     Result.lambda := 60;
     Result.action := "None";
     Result.price := 0%float;
     Result.current_price := 93.9%float;
     Result.samples_ago := None;
     Result.zscore_trend := Some (-1.2115136735150862)%float;
     Result.zscore_trend_alert := true |}.

Definition trend_result : Result.t :=
  {| Result.zscore := (-3.0499999999999972)%float;
     Result.alert := true;
     Result.latest_price := 93.9%float;
     Result.enriched := Some trend_payload |}.

Definition first_alert : StreamProcessor.World :=
  {| StreamProcessor.symbol_manager :=
       {| SymbolDataManager.symbols := {[ "AAPL"; "MSFT" ]};
          SymbolDataManager.symbol_data := {[ "AAPL" := Sample.aapl; "MSFT" := Sample.msft ]};
          SymbolDataManager.last_processed_price := {[ "AAPL" := 93.9%float ]};
          SymbolDataManager.price_trends :=
            <["AAPL" := {| Trend.last_action := Some "None";
                           Trend.extreme_price := Some 93.9%float;
                           Trend.day_high := None;
                           Trend.day_low := None |}]>
              (gset_to_gmap Trend.init {[ "AAPL"; "MSFT" ]}) |};
     StreamProcessor.log :=
       [StreamProcessor.ALERT "AAPL" 93.9 (-3.0499999999999972) "None" None
          (-1.2115136735150862) 60 93.9] |}.

(** A symbol file of three lines, the second one blank. *)
Definition newline : string := String (Ascii.ascii_of_nat 10) EmptyString.

Definition readlines (path : string) : option (list string) :=
  if String.eqb path "symbols.txt"
  then Some [" aapl" +:+ newline; newline; "Msft " +:+ newline]
  else None.

(** A configuration in memory with a sigma threshold of 3.0, read at time
    10, and a file saved at time 20 that [json.load] refuses. *)
Definition state : ConfigFile.State :=
  {| ConfigFile.config := Sample.thresholds 3.0 1.7; ConfigFile.last_modified := 10 |}.

Definition broken : ConfigFile.File :=
  {| ConfigFile.content := ConfigFile.Invalid 20; ConfigFile.writable := true |}.

End Scenario.


(* ===================================================================== *)
(** ** Notions used in the statements *)
(* ===================================================================== *)

(** The z-score of step 1. *)
Definition zscore_of (data : SymbolData.t) (new_price : float) : float :=
  ((new_price - SymbolData.baseline_mean data) / SymbolData.baseline_std data)%float.

(** The payload [process] adds from what [process_data] returned. *)
Definition payload (data : SymbolData.t) (new_price : float)
    (pd : Processed.t) (e : Result.Enriched) : Prop :=
  Result.symbol e = SymbolData.symbol data
  /\ Result.num_samples e = length (SymbolData.full_prices data)
  /\ Result.lambda e = Processed.lambda pd
  /\ Result.action e = Processed.action pd
  /\ Result.price e = Processed.price pd
  /\ Result.current_price e = new_price
  /\ Result.samples_ago e = Processed.samples_ago pd.

(** Row [i] of a column holds a number, not nan: the rows [dropna] keeps. *)
Definition number_at (col : list float) (i : nat) : Prop :=
  exists v, col !! i = Some v /\ isnan v = false.

(** The largest index with a property. *)
Definition latest (P : nat -> Prop) (i : nat) : Prop :=
  P i /\ forall j, P j -> (j <= i)%nat.

(** What a method logged: the records it appended. *)
Definition emitted (m : StreamProcessor.M unit) (w : StreamProcessor.World) : list StreamProcessor.LogRecord :=
  drop (length (StreamProcessor.log w)) (StreamProcessor.log (snd (m w))).

Definition is_alert (record : StreamProcessor.LogRecord) : bool :=
  match record with
  | StreamProcessor.ALERT _ _ _ _ _ _ _ _ => true
  | StreamProcessor.TREND_CHANGE _ _ _ _ _ _ => false
  end.

(** The two conditions of a corroborated alert, on a result and under the
    thresholds the stream processor reads. *)
Definition corroborated (cm : ConfigManager.t) (result : Result.t) : Prop :=
  fgt (fabs (Result.zscore result)) (ConfigManager.get_sigma_thresh cm 30.0) = true
  /\ exists zt,
       Result.get Result.zscore_trend result = Some zt
       /\ fgt (fabs zt) (ConfigManager.get_zscore_trend_thresh cm 2.0) = true.

(** The record is the "ALERT" line of the result: symbol, price, z-score,
    action, samples-ago, trend z-score and lambda are those of the result;
    the extreme price is read from the trend entry. *)
Definition alert_of (result : Result.t) (record : StreamProcessor.LogRecord) : Prop :=
  exists e zt ext_price,
    Result.enriched result = Some e
    /\ Result.zscore_trend e = Some zt
    /\ record = StreamProcessor.ALERT (Result.symbol e) (Result.latest_price result)
                  (Result.zscore result) (Result.action e) (Result.samples_ago e)
                  zt (Result.lambda e) ext_price.

(** The trend entry and the stored closes of a symbol in a world. *)
Definition trend_of (w : StreamProcessor.World) (sym : string) : option Trend.t :=
  SymbolDataManager.price_trends (StreamProcessor.symbol_manager w) !! sym.

Definition closes_of (w : StreamProcessor.World) (sym : string) : option (list float) :=
  SymbolData.full_prices <$> SymbolDataManager.symbol_data (StreamProcessor.symbol_manager w) !! sym.

(** A method that only appends records with a property to the log and
    leaves the stored series and the symbol set alone. *)
Definition appends (P : StreamProcessor.LogRecord -> Prop) {A} (m : StreamProcessor.M A) : Prop :=
  forall w,
    (exists records,
       StreamProcessor.log (snd (m w)) = StreamProcessor.log w ++ records
       /\ forall record, record ∈ records -> P record)
    /\ SymbolDataManager.symbol_data (StreamProcessor.symbol_manager (snd (m w)))
       = SymbolDataManager.symbol_data (StreamProcessor.symbol_manager w)
    /\ SymbolDataManager.symbols (StreamProcessor.symbol_manager (snd (m w)))
       = SymbolDataManager.symbols (StreamProcessor.symbol_manager w).

(** The trend entry of a symbol after [update_price_trends]. *)
Definition trend_after_update (m : SymbolDataManager.t) (sym : string)
    (current_price : float) (action : string) : res (option Trend.t) :=
  m' ← SymbolDataManager.update_price_trends m sym current_price action;
  Ok (SymbolDataManager.price_trends m' !! sym).

(** Two worlds with the same day high and day low for every symbol. *)
Definition same_day_range (w w' : StreamProcessor.World) : Prop :=
  forall sym,
    (Trend.day_high <$> trend_of w' sym) = (Trend.day_high <$> trend_of w sym)
    /\ (Trend.day_low <$> trend_of w' sym) = (Trend.day_low <$> trend_of w sym).

(** The closes of the baseline session of a symbol: the rows of the last
    valid day before the current one, none when there is no such day. *)
Definition baseline_session (valid_days : list Z) (data : SymbolData.t)
  : list float :=
  match SymbolDataManager.last_valid_day valid_days with
  | Some day =>
      map snd (List.filter (fun row => Z.eqb (fst row) day)
                 (SymbolData.historical_data data))
  | None => []
  end.

(** The drop conditions of the calibrator, in the words of the claim. *)
Definition drop_condition `{Numerics} (valid_days : list Z)
    (data : SymbolData.t) : Prop :=
  let prices := baseline_session valid_days data in
  let mean := np_mean prices in
  let std := np_std prices in
  (length (SymbolData.historical_data data) < 2)%nat
  \/ (length prices < 2)%nat
  \/ feq std 0 = true
  \/ isnan std = true
  \/ exists last_price,
       last prices = Some last_price
       /\ (isnan last_price = true
           \/ isnan ((last_price - mean) / std)%float = true
           \/ isinf ((last_price - mean) / std)%float = true).

(** The events of the fetcher that are sleeps, and the number of requests
    in a trace. *)
Definition is_sleep (e : HistoricalDataFetcher.Event) : Prop := exists seconds, e = HistoricalDataFetcher.Sleep seconds.

Definition requests (trace : list HistoricalDataFetcher.Event) : nat :=
  length (List.filter
            (fun e => match e with HistoricalDataFetcher.Request _ _ => true | _ => false end)
            trace).

(** [max(a, b)] and [min(a, b)] of Python: the first argument unless the
    second is strictly beyond it. *)
Definition fmax (a b : float) : float := if fgt b a then b else a.
Definition fmin (a b : float) : float := if flt b a then b else a.

(** The pipeline as [main] builds it: one detector, and a pool of the given
    size around it when multiprocessing is enabled. *)
Definition pipeline (cm : ConfigManager.t) (workers : option Z) : DataStreamManager.t :=
  {| DataStreamManager.processor := cm;
     DataStreamManager.parallel_processor :=
       (fun n => {| ParallelProcessor.num_processes := n;
                    ParallelProcessor.zscore_processor := cm |}) <$> workers |}.

(** The last processed prices of a world. *)
Definition last_prices (w : StreamProcessor.World) : gmap string float :=
  SymbolDataManager.last_processed_price (StreamProcessor.symbol_manager w).

Definition last_price_of (w : StreamProcessor.World) (sym : string) : option float :=
  last_prices w !! sym.

(** A method that leaves an observation of the world as it was, whether it
    returns or raises. *)
Definition keeps {B A} (f : StreamProcessor.World -> B) (m : StreamProcessor.M A) : Prop :=
  forall w, f (snd (m w)) = f w.

(** The world after a sequence of calls of [process_data], whatever each of
    them returned. *)
Definition after_batches
    (processor : list SymbolData.t -> dict float -> res (list Result.t))
    (cm : ConfigManager.t) (batches : list (dict float))
    (w : StreamProcessor.World) : StreamProcessor.World :=
  fold_left (fun w new_prices =>
               snd (StreamProcessor.process_data processor cm new_prices w))
    batches w.

(** A decoded message that is a tick of the subscribed kind: a trade with
    its price under ["p"], or a bar with its close under ["c"], for a symbol
    that is a non-empty string. *)
Definition tick_of (stream_type : string) (data : dict Json.value)
    (symbol : string) (price : float) : Prop :=
  symbol <> ""
  /\ dict_get data "S" = Some (Json.String symbol)
  /\ ((stream_type = "trades"
       /\ dict_get data "T" = Some (Json.String "t")
       /\ dict_get data "p" = Some (Json.Number price))
      \/ (stream_type = "bars"
          /\ dict_get data "T" = Some (Json.String "b")
          /\ dict_get data "c" = Some (Json.Number price))).

(** What the attempt of a number for a symbol returns or raises. *)
Definition attempt (service : string -> Z -> HistoricalDataFetcher.Reply)
    (symbol : string) (n : Z) : res (string * list SymbolData.Row) :=
  snd (HistoricalDataFetcher.fetch_once symbol (service symbol n)).

(** The attempt fails with an exception of a retried type. *)
Definition retried (service : string -> Z -> HistoricalDataFetcher.Reply)
    (symbol : string) (n : Z) : Prop :=
  exists e, attempt service symbol n = Raise e
            /\ HistoricalDataFetcher.retry_if_exception_type e = true.

(** The entries [get_symbols] reads: the lines of the file, when one is
    given and can be read, and the items of the list, when one is given. *)
Definition entries (readlines : string -> option (list string))
    (file_path symbol_list : option string) : list string :=
  (if Str.truthy file_path
   then default [] (readlines (default "" file_path)) else [])
  ++ (if Str.truthy symbol_list
      then Str.split ","%char (default "" symbol_list) else []).

(** Text within ASCII, the domain of [Str]. *)
Definition ascii_text (s : string) : Prop :=
  Forall (fun c => (Ascii.nat_of_ascii c < 128)%nat) (String.list_ascii_of_string s).

(* ===================================================================== *)
(** * Properties *)
(* ===================================================================== *)

(** ** Floats *)

Section FloatFacts.

Lemma SFltb_nan_r (x : spec_float) : SFltb x S754_nan = false.
Proof. destruct x; reflexivity. Qed.

Lemma SFcompare_refl (x : spec_float) :
  x <> S754_nan -> SFcompare x x = Some Eq.
Proof.
  destruct x as [s|s| |s m e]; simpl; try congruence.
  - destruct s; reflexivity.
  - intros _. rewrite Z.compare_refl.
    assert (Hm : PosDef.Pos.compare_cont Eq m m = Eq) by apply Pos.compare_refl.
    rewrite Hm. destruct s; reflexivity.
Qed.

(** A comparison that holds involves no nan. *)
Lemma fgt_fabs_isnan (z thresh : float) :
  fgt (fabs z) thresh = true -> isnan z = false.
Proof.
  unfold fgt, fabs, isnan, PrimFloat.is_nan. intros Hlt.
  rewrite ltb_spec, abs_spec in Hlt.
  rewrite FloatAxioms.eqb_spec. unfold SFeqb.
  destruct (Prim2SF z) eqn:Hz; simpl in Hlt.
  - reflexivity.
  - rewrite SFcompare_refl by discriminate. reflexivity.
  - rewrite SFltb_nan_r in Hlt. discriminate.
  - rewrite SFcompare_refl by discriminate. reflexivity.
Qed.

Lemma isnan_fgt_fabs (z thresh : float) :
  isnan z = true -> fgt (fabs z) thresh = false.
Proof.
  intros Hnan. destruct (fgt (fabs z) thresh) eqn:Hgt; [|reflexivity].
  apply fgt_fabs_isnan in Hgt. congruence.
Qed.

End FloatFacts.

(** ** The detector: [ZScoreProcessor.process] *)

Section DetectorFacts.
Context `{Numerics}.
Variable cm : ConfigManager.t.

Lemma process_zero_std data new_price :
  feq (SymbolData.baseline_std data) 0 = true ->
  ZScoreProcessor.process cm data new_price =
    Ok {| Result.zscore := nan; Result.alert := false;
          Result.latest_price := new_price; Result.enriched := None |}.
Proof.
  intros Hstd. unfold ZScoreProcessor.process. rewrite Hstd.
  rewrite (isnan_fgt_fabs nan) by reflexivity. reflexivity.
Qed.

Lemma process_below data new_price :
  feq (SymbolData.baseline_std data) 0 = false ->
  fgt (fabs (zscore_of data new_price)) (ConfigManager.get_sigma_thresh cm 30.0) = false ->
  ZScoreProcessor.process cm data new_price =
    Ok {| Result.zscore := zscore_of data new_price; Result.alert := false;
          Result.latest_price := new_price; Result.enriched := None |}.
Proof.
  intros Hstd Hgt. unfold ZScoreProcessor.process. rewrite Hstd.
  fold (zscore_of data new_price). rewrite Hgt.
  destruct (negb _); reflexivity.
Qed.

Lemma process_above data new_price :
  feq (SymbolData.baseline_std data) 0 = false ->
  fgt (fabs (zscore_of data new_price)) (ConfigManager.get_sigma_thresh cm 30.0) = true ->
  match ZScoreProcessor.process_data cm data new_price with
  | Ok pd =>
      exists e,
        ZScoreProcessor.process cm data new_price =
          Ok {| Result.zscore := zscore_of data new_price; Result.alert := true;
                Result.latest_price := new_price; Result.enriched := Some e |}
        /\ payload data new_price pd e
  | Raise ex => ZScoreProcessor.process cm data new_price = Raise ex
  end.
Proof.
  intros Hstd Hgt. unfold ZScoreProcessor.process. rewrite Hstd.
  fold (zscore_of data new_price). rewrite Hgt.
  rewrite (fgt_fabs_isnan _ _ Hgt). simpl negb. cbv iota.
  destruct (ZScoreProcessor.process_data cm data new_price) as [pd|ex]; simpl.
  - eexists. split; [reflexivity|]. repeat split.
  - reflexivity.
Qed.

(** [process_data] returns as soon as [round] and the routines behind the
    frame do. *)
Lemma process_data_returns data new_price :
  is_ok (ZScoreProcessor.process_data cm data new_price) =
  match round
    (default 12%float
       (ConfigManager.get_lambda_multiplier cm
          {[ "1Min" := 12%float; "1Day" := 0.0436%float ]}
        !! SymbolData.timeframe data)
     * float_of_nat (length (SymbolData.full_prices data ++ [new_price])))%float
  with
  | Ok lamb =>
      is_ok (ZScoreProcessor.build_frame (SymbolData.full_prices data ++ [new_price]) lamb)
  | Raise _ => false
  end.
Proof.
  unfold ZScoreProcessor.process_data.
  destruct (round _) as [lamb|ex]; simpl; [|reflexivity].
  destruct (ZScoreProcessor.build_frame _ lamb); reflexivity.
Qed.

End DetectorFacts.

(** C4. [process] (the spec's [evaluate]): with a zero baseline deviation the
    z-score is nan, the sigma-alert flag is false and nothing is added,
    whatever the price. Otherwise the flag is true and [process_data] is run
    for the payload exactly when [|z| > sigma_thresh] holds strictly. With
    mean 100.0, deviation 2.0 and threshold 3.0, the price 94.0 has z = -3.0:
    flag false, no payload; the price 93.9 has z = -3.0499999999999972 (about
    -3.05): flag true, with the payload. On the sample series at 93.9 the
    evaluation returns exactly when the routines behind the frame return,
    as they do when computed from their definitions. *)
Theorem evaluate_sigma_alert `{Numerics} (cm : ConfigManager.t)
    (data : SymbolData.t) (new_price : float) :
  let sigma_thresh := ConfigManager.get_sigma_thresh cm 30.0 in
  let z := zscore_of data new_price in
  (if feq (SymbolData.baseline_std data) 0 then
     exists r,
       ZScoreProcessor.process cm data new_price = Ok r
       /\ isnan (Result.zscore r) = true
       /\ Result.alert r = false
       /\ Result.enriched r = None
   else if fgt (fabs z) sigma_thresh then
     match ZScoreProcessor.process_data cm data new_price with
     | Ok pd =>
         exists e,
           ZScoreProcessor.process cm data new_price =
             Ok {| Result.zscore := z; Result.alert := true;
                   Result.latest_price := new_price; Result.enriched := Some e |}
           /\ payload data new_price pd e
     | Raise ex => ZScoreProcessor.process cm data new_price = Raise ex
     end
   else
     ZScoreProcessor.process cm data new_price =
       Ok {| Result.zscore := z; Result.alert := false;
             Result.latest_price := new_price; Result.enriched := None |})
  /\ (SymbolData.baseline_mean data = 100.0%float ->
      SymbolData.baseline_std data = 2.0%float ->
      ConfigManager.sigma_thresh cm = Some 3.0%float ->
      ZScoreProcessor.process cm data 94.0 =
        Ok {| Result.zscore := (-3.0)%float; Result.alert := false;
              Result.latest_price := 94.0%float; Result.enriched := None |}
      /\ match ZScoreProcessor.process_data cm data 93.9 with
         | Ok pd =>
             exists e,
               ZScoreProcessor.process cm data 93.9 =
                 Ok {| Result.zscore := (-3.0499999999999972)%float;
                       Result.alert := true;
                       Result.latest_price := 93.9%float;
                       Result.enriched := Some e |}
               /\ payload data 93.9 pd e
         | Raise ex => ZScoreProcessor.process cm data 93.9 = Raise ex
         end)
  /\ is_ok (ZScoreProcessor.process (Sample.thresholds 3.0 1.7) Sample.aapl 93.9)
     = is_ok (ZScoreProcessor.build_frame
                (SymbolData.full_prices Sample.aapl ++ [93.9%float]) 60)
  /\ is_ok (ZScoreProcessor.process (H := Reference.numerics)
              (Sample.thresholds 3.0 1.7) Sample.aapl 93.9) = true.
Proof.
  intros sigma_thresh z. split; [|split; [|split]].
  - destruct (feq (SymbolData.baseline_std data) 0) eqn:Hstd.
    + eexists. split; [apply process_zero_std, Hstd|]. repeat split.
    + destruct (fgt (fabs z) sigma_thresh) eqn:Hgt.
      * apply process_above; assumption.
      * apply process_below; assumption.
  - intros Hmean Hstd Hsig.
    assert (Hz94 : zscore_of data 94.0 = (-3.0)%float).
    { unfold zscore_of. rewrite Hmean, Hstd. reflexivity. }
    assert (Hz939 : zscore_of data 93.9 = (-3.0499999999999972)%float).
    { unfold zscore_of. rewrite Hmean, Hstd. reflexivity. }
    assert (Hs : ConfigManager.get_sigma_thresh cm 30.0 = 3.0%float).
    { unfold ConfigManager.get_sigma_thresh. rewrite Hsig. reflexivity. }
    assert (Hnz : feq (SymbolData.baseline_std data) 0 = false).
    { rewrite Hstd. reflexivity. }
    split.
    + rewrite <- Hz94. apply process_below; [exact Hnz|].
      rewrite Hz94, Hs. reflexivity.
    + rewrite <- Hz939. apply process_above; [exact Hnz|].
      rewrite Hz939, Hs. reflexivity.
  - pose proof (process_above (Sample.thresholds 3.0 1.7) Sample.aapl 93.9
                  ltac:(vm_compute; reflexivity) ltac:(vm_compute; reflexivity)) as Ha.
    pose proof (process_data_returns (Sample.thresholds 3.0 1.7) Sample.aapl 93.9) as Hr.
    assert (Hround :
      round (default 12%float
               (ConfigManager.get_lambda_multiplier (Sample.thresholds 3.0 1.7)
                  {[ "1Min" := 12%float; "1Day" := 0.0436%float ]}
                !! SymbolData.timeframe Sample.aapl)
             * float_of_nat (length (SymbolData.full_prices Sample.aapl ++ [93.9%float])))%float
      = Ok 60) by (vm_compute; reflexivity).
    rewrite Hround in Hr. rewrite <- Hr.
    destruct (ZScoreProcessor.process_data _ _ _) as [pd|ex].
    + destruct Ha as (e & -> & _). reflexivity.
    + rewrite Ha. reflexivity.
  - vm_compute. reflexivity.
Qed.

Section LambdaFacts.
Context `{Numerics}.
Variable cm : ConfigManager.t.

Lemma process_data_lambda data new_price pd :
  ZScoreProcessor.process_data cm data new_price = Ok pd ->
  round
    (default 12%float
       (ConfigManager.get_lambda_multiplier cm
          {[ "1Min" := 12%float; "1Day" := 0.0436%float ]}
        !! SymbolData.timeframe data)
     * float_of_nat (length (SymbolData.full_prices data) + 1))%float
  = Ok (Processed.lambda pd).
Proof.
  unfold ZScoreProcessor.process_data. rewrite length_app. simpl length.
  destruct (round _) as [lamb|ex]; simpl; [|discriminate].
  destruct (ZScoreProcessor.build_frame _ lamb) as [df|ex]; simpl; [|discriminate].
  intros [= <-]. reflexivity.
Qed.

Lemma process_enriched data new_price r e :
  ZScoreProcessor.process cm data new_price = Ok r ->
  Result.enriched r = Some e ->
  exists pd,
    ZScoreProcessor.process_data cm data new_price = Ok pd
    /\ payload data new_price pd e.
Proof.
  unfold ZScoreProcessor.process.
  destruct (fgt _ _).
  - destruct (ZScoreProcessor.process_data cm data new_price) as [pd|ex]; simpl.
    + intros [= <-]. simpl. intros [= <-]. exists pd. repeat split.
    + discriminate.
  - intros [= <-]. simpl. discriminate.
Qed.

End LambdaFacts.

(** C10. For an evaluation that crosses the sigma threshold, so that the
    result has its payload: the sample count reported is the length of the
    stored close sequence at the call, the smoothing coefficient is
    [round(lambda_multiplier[timeframe] * (that length + 1))], one sample
    more than reported, and a timeframe missing from the mapping takes the
    multiplier 12. *)
Theorem lambda_counts_one_more `{Numerics} (cm : ConfigManager.t)
    (data : SymbolData.t) (new_price : float)
    (r : Result.t) (e : Result.Enriched) :
  ZScoreProcessor.process cm data new_price = Ok r ->
  Result.enriched r = Some e ->
  let n := length (SymbolData.full_prices data) in
  let lambda_multipliers :=
    ConfigManager.get_lambda_multiplier cm
      {[ "1Min" := 12%float; "1Day" := 0.0436%float ]} in
  Result.num_samples e = n
  /\ match lambda_multipliers !! SymbolData.timeframe data with
     | Some lambda_multiplier =>
         round (lambda_multiplier * float_of_nat (n + 1))%float
         = Ok (Result.lambda e)
     | None =>
         round (12 * float_of_nat (n + 1))%float = Ok (Result.lambda e)
     end.
Proof.
  intros Hproc Henr n lambda_multipliers.
  destruct (process_enriched cm data new_price r e Hproc Henr)
    as (pd & Hpd & _ & Hn & Hlam & _).
  split; [exact Hn|].
  apply process_data_lambda in Hpd. rewrite Hlam.
  fold lambda_multipliers in Hpd. fold n in Hpd.
  destruct (lambda_multipliers !! SymbolData.timeframe data); exact Hpd.
Qed.

(** The evaluation of the sample series at 93.9 under the threshold 3.0:
    four stored closes, five samples behind the coefficient 60. *)
Lemma lambda_counts_one_more_witness :
  ZScoreProcessor.process (Sample.thresholds 3.0 1.7) Sample.aapl 93.9
  = Ok Sample.sell_result
  /\ Result.num_samples Sample.sell_payload = 4%nat
  /\ round (12 * float_of_nat (4 + 1))%float = Ok (Result.lambda Sample.sell_payload).
Proof.
  assert (Hproc : ZScoreProcessor.process (Sample.thresholds 3.0 1.7) Sample.aapl 93.9
                  = Ok Sample.sell_result) by (vm_compute; reflexivity).
  split; [exact Hproc|].
  exact (lambda_counts_one_more (Sample.thresholds 3.0 1.7) Sample.aapl 93.9
           Sample.sell_result Sample.sell_payload Hproc eq_refl).
Defined.

(** ** pandas helpers *)

Section PandasFacts.

Lemma to_series_snoc (l : list float) (x : float) :
  Pandas.to_series (l ++ [x]) = Pandas.to_series l ++ [(length l, x)].
Proof.
  unfold Pandas.to_series. rewrite imap_app. simpl.
  rewrite Nat.add_0_r. reflexivity.
Qed.

Lemma number_at_snoc (l : list float) (x : float) (i : nat) :
  number_at (l ++ [x]) i <->
  number_at l i \/ (i = length l /\ isnan x = false).
Proof.
  unfold number_at. split.
  - intros (v & Hv & Hnan).
    destruct (decide (i < length l)%nat) as [Hlt|Hge].
    + left. exists v. rewrite lookup_app_l in Hv by exact Hlt. auto.
    + right. rewrite lookup_app_r in Hv by lia.
      destruct (i - length l)%nat as [|k] eqn:Hk; simpl in Hv.
      * injection Hv as ->. split; [lia|exact Hnan].
      * discriminate.
  - intros [(v & Hv & Hnan)|[-> Hnan]].
    + exists v. split; [|exact Hnan].
      rewrite lookup_app_l; [exact Hv|]. eapply lookup_lt_Some, Hv.
    + exists x. split; [|exact Hnan].
      rewrite lookup_app_r by lia. rewrite Nat.sub_diag. reflexivity.
Qed.

Lemma number_at_lt (l : list float) (i : nat) :
  number_at l i -> (i < length l)%nat.
Proof. intros (v & Hv & _). eapply lookup_lt_Some, Hv. Qed.

(** The last row [dropna] keeps is the latest row holding a number. *)
Lemma last_dropna (col : list float) :
  match last (Pandas.dropna (Pandas.to_series col)) with
  | Some (i, v) => latest (number_at col) i /\ col !! i = Some v
  | None => forall i, ~ number_at col i
  end.
Proof.
  induction col as [|x l IH] using rev_ind.
  - simpl. intros i (v & Hv & _). discriminate.
  - rewrite to_series_snoc. unfold Pandas.dropna in *.
    rewrite List.filter_app. simpl List.filter.
    destruct (isnan x) eqn:Hx; simpl negb; cbv iota.
    + rewrite app_nil_r.
      destruct (last (List.filter _ (Pandas.to_series l))) as [[i v]|].
      * destruct IH as [[Hi Hmax] Hv]. split; [split|].
        -- apply number_at_snoc. left. exact Hi.
        -- intros j Hj. apply number_at_snoc in Hj as [Hj|[_ Hj]];
             [apply Hmax, Hj|congruence].
        -- rewrite lookup_app_l; [exact Hv|]. eapply lookup_lt_Some, Hv.
      * intros i Hi. apply number_at_snoc in Hi as [Hi|[_ Hi]];
          [exact (IH i Hi)|congruence].
    + rewrite last_snoc. split; [split|].
      * apply number_at_snoc. right. split; [reflexivity|exact Hx].
      * intros j Hj. apply number_at_lt in Hj.
        rewrite length_app in Hj. simpl in Hj. lia.
      * rewrite lookup_app_r by lia. rewrite Nat.sub_diag. reflexivity.
Qed.

Lemma series_get_take_rows (c : list float) (idx : list nat) (i : nat) :
  Pandas.series_get (Pandas.take_rows c idx) i =
  if decide (i ∈ idx) then c !! i else None.
Proof.
  unfold Pandas.series_get, Pandas.take_rows.
  induction idx as [|j idx IH]; [reflexivity|].
  simpl omap. destruct (c !! j) as [v|] eqn:Hj; simpl.
  - destruct (Nat.eqb_spec j i) as [->|Hne]; simpl.
    + rewrite decide_True by (left). symmetry. exact Hj.
    + etrans; [exact IH|]. destruct (decide (i ∈ idx)) as [Hin|Hnin].
      * rewrite decide_True by (right; exact Hin). reflexivity.
      * rewrite decide_False; [reflexivity|].
        intros [?|?]%elem_of_cons; [congruence|contradiction].
  - etrans; [exact IH|]. destruct (decide (i ∈ idx)) as [Hin|Hnin].
    + rewrite decide_True by (right; exact Hin). reflexivity.
    + destruct (decide (i ∈ j :: idx)) as [[->|?]%elem_of_cons|_];
        [symmetry; exact Hj|contradiction|reflexivity].
Qed.

Lemma assign_column_lookup (n : nat) (s : Pandas.Series) (i : nat) :
  Pandas.assign_column n s !! i =
  if decide (i < n)%nat then Some (default nan (Pandas.series_get s i)) else None.
Proof.
  unfold Pandas.assign_column. rewrite list_lookup_fmap.
  destruct (decide (i < n)%nat) as [Hlt|Hge].
  - rewrite lookup_seq_lt by exact Hlt. reflexivity.
  - rewrite lookup_seq_ge by lia. reflexivity.
Qed.

Lemma length_assign_column (n : nat) (s : Pandas.Series) :
  length (Pandas.assign_column n s) = n.
Proof. unfold Pandas.assign_column. rewrite length_map, length_seq. reflexivity. Qed.

Lemma series_get_imap (l : list float) (k i : nat) :
  snd <$> List.find (fun iv => Nat.eqb (fst iv) (k + i))
            (imap (fun j x => ((k + j)%nat, x)) l)
  = l !! i.
Proof.
  revert k i. induction l as [|x l IH]; intros k i; [reflexivity|].
  simpl. rewrite Nat.add_0_r.
  destruct i as [|i].
  - rewrite Nat.add_0_r, Nat.eqb_refl. reflexivity.
  - destruct (Nat.eqb_spec k (k + S i)) as [Heq|_]; [lia|].
    simpl. rewrite <- (IH (S k) i).
    replace (k + S i)%nat with (S k + i)%nat by lia.
    f_equal. f_equal. apply imap_ext. intros j y _. simpl. f_equal. lia.
Qed.

Lemma series_get_to_series (l : list float) (i : nat) :
  Pandas.series_get (Pandas.to_series l) i = l !! i.
Proof. exact (series_get_imap l 0 i). Qed.

(** A series on the rows of the frame, assigned to a column, gives its
    values. *)
Lemma assign_column_to_series (n : nat) (l : list float) :
  length l = n -> Pandas.assign_column n (Pandas.to_series l) = l.
Proof.
  intros Hlen. apply list_eq. intros i.
  rewrite assign_column_lookup, series_get_to_series.
  destruct (decide (i < n)%nat) as [Hlt|Hge].
  - destruct (l !! i) as [v|] eqn:Hv; [reflexivity|].
    apply lookup_ge_None in Hv. lia.
  - symmetry. apply lookup_ge_None. lia.
Qed.

Lemma length_setitem (n : nat) (value : Pandas.Value) (col : list float) :
  Pandas.setitem n value = Ok col -> length col = n.
Proof.
  destruct value as [s0|a]; simpl.
  - intros [= <-]. apply length_assign_column.
  - destruct (Nat.eqb_spec (length a) n) as [Heq|_]; [|discriminate].
    intros [= <-]. exact Heq.
Qed.

(** The rows marked in a column filled from [take_rows]. *)
Lemma number_at_marks (c : list float) (idx : list nat) (i : nat) :
  number_at (Pandas.assign_column (length c) (Pandas.take_rows c idx)) i <->
  i ∈ idx /\ number_at c i.
Proof.
  unfold number_at. rewrite assign_column_lookup, series_get_take_rows.
  split.
  - intros (v & Hv & Hnan).
    destruct (decide (i < length c)%nat); [|discriminate].
    injection Hv as <-.
    destruct (decide (i ∈ idx)) as [Hin|Hnin]; [|discriminate Hnan].
    destruct (c !! i) as [w|]; [|discriminate Hnan].
    split; [exact Hin|]. exists w. auto.
  - intros [Hin (v & Hv & Hnan)].
    exists v. assert (Hlt : (i < length c)%nat) by (eapply lookup_lt_Some, Hv).
    destruct (decide (i < length c)%nat); [|contradiction].
    destruct (decide (i ∈ idx)); [|contradiction].
    rewrite Hv. auto.
Qed.

End PandasFacts.

(** ** The detector: [get_last_action] and [process_data] *)

Section LastActionFacts.
Context `{Numerics}.

Lemma latest_unique (P : nat -> Prop) (i j : nat) :
  latest P i -> latest P j -> i = j.
Proof. intros [Hi Hmi] [Hj Hmj]. apply Nat.le_antisymm; auto. Qed.

(** [get_last_action] on any frame, read off its [peaks] and [troughs]
    columns. *)
Lemma get_last_action_columns (data : ZScoreProcessor.DataFrame) :
  let peak := number_at (ZScoreProcessor.col_peaks data) in
  let trough := number_at (ZScoreProcessor.col_troughs data) in
  let la := ZScoreProcessor.get_last_action data in
  ((forall i, ~ peak i) -> (forall i, ~ trough i) ->
     la = {| LastAction.type := "None"; LastAction.price := 0%float;
             LastAction.samples_ago := None |})
  /\ (forall p, latest peak p -> (forall t, trough t -> (t < p)%nat) ->
        la = {| LastAction.type := "Sell";
                LastAction.price := default nan (ZScoreProcessor.col_c data !! p);
                LastAction.samples_ago := Some (ZScoreProcessor.len data - p - 1)%nat |})
  /\ (forall t, latest trough t -> (forall p, peak p -> (p <= t)%nat) ->
        la = {| LastAction.type := "Buy";
                LastAction.price := default nan (ZScoreProcessor.col_c data !! t);
                LastAction.samples_ago := Some (ZScoreProcessor.len data - t - 1)%nat |}).
Proof.
  intros peak trough la. subst la. unfold ZScoreProcessor.get_last_action.
  pose proof (last_dropna (ZScoreProcessor.col_peaks data)) as Hp.
  pose proof (last_dropna (ZScoreProcessor.col_troughs data)) as Ht.
  destruct (last (Pandas.dropna (Pandas.to_series (ZScoreProcessor.col_peaks data))))
    as [[p0 v]|];
  destruct (last (Pandas.dropna (Pandas.to_series (ZScoreProcessor.col_troughs data))))
    as [[t0 w]|]; simpl fst.
  - destruct Hp as [Hp _]. destruct Ht as [Ht _]. split; [|split].
    + intros Hno _. exfalso. exact (Hno p0 (proj1 Hp)).
    + intros p Hlp Hlt. rewrite (latest_unique _ _ _ Hlp Hp).
      assert (Hlt' : (t0 < p0)%nat).
      { rewrite <- (latest_unique _ _ _ Hlp Hp). apply Hlt, Ht. }
      apply Nat.ltb_lt in Hlt'. rewrite Hlt'. reflexivity.
    + intros t Hlt Hle. rewrite (latest_unique _ _ _ Hlt Ht).
      assert (Hle' : (p0 <= t0)%nat).
      { rewrite <- (latest_unique _ _ _ Hlt Ht). apply Hle, Hp. }
      apply Nat.ltb_ge in Hle'. rewrite Hle'. reflexivity.
  - destruct Hp as [Hp _]. split; [|split].
    + intros Hno _. exfalso. exact (Hno p0 (proj1 Hp)).
    + intros p Hlp _. rewrite (latest_unique _ _ _ Hlp Hp). reflexivity.
    + intros t [Hlt _] _. exfalso. exact (Ht t Hlt).
  - destruct Ht as [Ht _]. split; [|split].
    + intros _ Hno. exfalso. exact (Hno t0 (proj1 Ht)).
    + intros p [Hlp _] _. exfalso. exact (Hp p Hlp).
    + intros t Hlt _. rewrite (latest_unique _ _ _ Hlt Ht). reflexivity.
  - split; [|split].
    + reflexivity.
    + intros p [Hlp _] _. exfalso. exact (Hp p Hlp).
    + intros t [Hlt _] _. exfalso. exact (Ht t Hlt).
Qed.

(** The frame: the closes, and what lands in its columns. The column
    ['trend'] holds the cycle component of [hpfilter] and the column
    ['cycle'], where the peaks and troughs are searched, its trend
    component. *)
Lemma build_frame_columns (prices : list float) (lamb : Z)
    (df : ZScoreProcessor.DataFrame) :
  ZScoreProcessor.build_frame prices lamb = Ok df ->
  exists hp,
    hpfilter prices lamb = Ok hp
    /\ ZScoreProcessor.col_c df = prices
    /\ ZScoreProcessor.col_trend df = HP.cycle hp
    /\ ZScoreProcessor.col_cycle df = HP.trend hp
    /\ ZScoreProcessor.col_peaks df =
         Pandas.assign_column (length prices)
           (Pandas.take_rows prices (find_peaks (HP.trend hp)))
    /\ ZScoreProcessor.col_troughs df =
         Pandas.assign_column (length prices)
           (Pandas.take_rows prices (find_peaks (map PrimFloat.opp (HP.trend hp))))
    /\ length (ZScoreProcessor.col_zscore_trend df) = length prices.
Proof.
  unfold ZScoreProcessor.build_frame.
  destruct (zscore _) as [v1|ex]; simpl; [|discriminate].
  destruct (Pandas.setitem _ v1) as [zv|ex]; simpl; [|discriminate].
  destruct (hpfilter prices lamb) as [[trend_s cycle_s]|ex] eqn:Hhp; simpl;
    [|discriminate].
  destruct (hpfilter_length _ _ _ Hhp) as [Hlc Hlt].
  unfold HP.cycle, HP.trend in Hlc, Hlt. simpl in Hlc, Hlt.
  rewrite !assign_column_to_series by assumption.
  destruct (zscore _) as [v2|ex]; simpl; [|discriminate].
  destruct (Pandas.setitem _ v2) as [zt|ex] eqn:Hzt; simpl; [|discriminate].
  intros [= <-]. simpl. exists (trend_s, cycle_s).
  repeat split. exact (length_setitem _ _ _ Hzt).
Qed.

(** When [zscore] returns a bare array for the velocities, which are one
    fewer than the rows, the assignment of the column is refused. *)
Lemma build_frame_array (prices a : list float) (lamb : Z) :
  zscore (Pandas.dropna (Pandas.to_series (Pandas.diff prices))) = Ok (Pandas.OfArray a) ->
  length a <> length prices ->
  ZScoreProcessor.build_frame prices lamb = Raise ValueError.
Proof.
  intros Hz Hlen. unfold ZScoreProcessor.build_frame. rewrite Hz. simpl.
  destruct (Nat.eqb_spec (length a) (length prices)); [contradiction|reflexivity].
Qed.

Lemma process_data_last_action (cm : ConfigManager.t)
    (data : SymbolData.t) (new_price : float) (pd : Processed.t) :
  ZScoreProcessor.process_data cm data new_price = Ok pd ->
  exists df,
    ZScoreProcessor.build_frame (SymbolData.full_prices data ++ [new_price])
      (Processed.lambda pd) = Ok df
    /\ Processed.zscore_trend pd =
         match ZScoreProcessor.col_zscore_trend df with
         | [] => None
         | _ => Some (ZScoreProcessor.col_zscore_trend df)
         end
    /\ let la := ZScoreProcessor.get_last_action df in
       Processed.action pd = LastAction.type la
       /\ Processed.price pd = LastAction.price la
       /\ Processed.samples_ago pd = LastAction.samples_ago la.
Proof.
  unfold ZScoreProcessor.process_data.
  destruct (round _) as [lamb|ex]; simpl; [|discriminate].
  destruct (ZScoreProcessor.build_frame _ lamb) as [df|ex] eqn:Hdf; simpl;
    [|discriminate].
  intros [= <-]. simpl. exists df. repeat split. exact Hdf.
Qed.

End LastActionFacts.

(** C5. The claim takes the peaks and troughs on the cycle component. In an
    evaluation with its payload, [hpfilter] has returned its tuple, cycle
    first and trend second, and the peaks and troughs that decide are the
    positions [find_peaks] returns on the trend component and on its
    negation (at rows whose close is a number, the rows [dropna] keeps):
    the source unpacks the tuple as [trend, cycle]. Among them the latest
    decides: a peak after every trough gives "Sell", a trough after every
    peak gives "Buy" (a tie, which a series and its negation never have,
    would count as a trough); the price is the close at that row and
    samples-ago its distance from the last row. When the trend component has
    neither, the action is "None", the price 0.0 and samples-ago 'N/A',
    whatever peaks the cycle component has. *)
Theorem action_from_trend_extrema `{Numerics} (cm : ConfigManager.t)
    (data : SymbolData.t) (new_price : float)
    (r : Result.t) (e : Result.Enriched) :
  ZScoreProcessor.process cm data new_price = Ok r ->
  Result.enriched r = Some e ->
  let prices := SymbolData.full_prices data ++ [new_price] in
  exists hp,
    hpfilter prices (Result.lambda e) = Ok hp
    /\ let peak i := i ∈ find_peaks (HP.trend hp) /\ number_at prices i in
       let trough i :=
         i ∈ find_peaks (map PrimFloat.opp (HP.trend hp)) /\ number_at prices i in
       ((forall i, ~ peak i) -> (forall i, ~ trough i) ->
          Result.action e = "None"
          /\ Result.price e = 0%float
          /\ Result.samples_ago e = None)
       /\ (forall p, latest peak p -> (forall t, trough t -> (t < p)%nat) ->
             Result.action e = "Sell"
             /\ prices !! p = Some (Result.price e)
             /\ Result.samples_ago e = Some (length prices - 1 - p)%nat)
       /\ (forall t, latest trough t -> (forall p, peak p -> (p <= t)%nat) ->
             Result.action e = "Buy"
             /\ prices !! t = Some (Result.price e)
             /\ Result.samples_ago e = Some (length prices - 1 - t)%nat).
Proof.
  intros Hproc Henr prices.
  destruct (process_enriched cm data new_price r e Hproc Henr)
    as (pd & Hpd & _ & _ & Hlam & Hact & Hprice & _ & Hago).
  destruct (process_data_last_action cm data new_price pd Hpd)
    as (df & Hdf & _ & Ha & Hp & Hs).
  rewrite <- Hlam in Hdf. fold prices in Hdf.
  rewrite Hact, Hprice, Hago, Ha, Hp, Hs. clear Ha Hp Hs Hact Hprice Hago.
  destruct (build_frame_columns prices (Result.lambda e) df Hdf)
    as (hp & Hhp & Hc & _ & _ & Hpk & Htr & _).
  exists hp. split; [exact Hhp|]. intros peak trough.
  assert (Hpeak : forall i, number_at (ZScoreProcessor.col_peaks df) i <-> peak i).
  { intros i. rewrite Hpk. apply number_at_marks. }
  assert (Htrough : forall i, number_at (ZScoreProcessor.col_troughs df) i <-> trough i).
  { intros i. rewrite Htr. apply number_at_marks. }
  assert (Hlen : ZScoreProcessor.len df = length prices).
  { unfold ZScoreProcessor.len. rewrite Hc. reflexivity. }
  destruct (get_last_action_columns df) as (Hnone & Hsell & Hbuy).
  split; [|split].
  - intros Hnp Hnt. rewrite Hnone.
    + repeat split.
    + intros i Hi. apply (Hnp i), Hpeak, Hi.
    + intros i Hi. apply (Hnt i), Htrough, Hi.
  - intros p [Hp Hmax] Hlt. rewrite (Hsell p).
    + simpl. rewrite Hc, Hlen. destruct Hp as [_ (v & Hv & _)].
      rewrite Hv. simpl. repeat split. f_equal. lia.
    + split; [apply Hpeak, Hp|]. intros j Hj. apply Hmax, Hpeak, Hj.
    + intros t Ht. apply Hlt, Htrough, Ht.
  - intros t [Ht Hmax] Hle. rewrite (Hbuy t).
    + simpl. rewrite Hc, Hlen. destruct Ht as [_ (v & Hv & _)].
      rewrite Hv. simpl. repeat split. f_equal. lia.
    + split; [apply Htrough, Ht|]. intros j Hj. apply Hmax, Htrough, Hj.
    + intros p Hp. apply Hle, Hpeak, Hp.
Qed.

(** The sample series at 93.9 with the filter computed from its definition:
    the cycle component of 98, 102, 99, 101, 93.9 has peaks at rows 1 and 3
    and a trough at row 2, which by the claim is "Sell" at row 3 with price
    101.0, one sample before the last; the trend component falls from row
    to row, and the evaluation returns "None", 0.0 and 'N/A'. *)
Lemma action_from_trend_extrema_witness :
  ZScoreProcessor.process (H := Reference.numerics)
    (Sample.thresholds 3.0 1.2) Sample.aapl 93.9 = Ok Scenario.trend_result
  /\ exists hp,
       hpfilter (Numerics := Reference.numerics)
         (SymbolData.full_prices Sample.aapl ++ [93.9%float]) 60 = Ok hp
       /\ find_peaks (Numerics := Reference.numerics) (HP.cycle hp) = [1; 3]%nat
       /\ find_peaks (Numerics := Reference.numerics)
            (map PrimFloat.opp (HP.cycle hp)) = [2]%nat
       /\ find_peaks (Numerics := Reference.numerics) (HP.trend hp) = []
       /\ find_peaks (Numerics := Reference.numerics)
            (map PrimFloat.opp (HP.trend hp)) = []
       /\ Result.action Scenario.trend_payload = "None"
       /\ Result.price Scenario.trend_payload = 0%float
       /\ Result.samples_ago Scenario.trend_payload = None.
Proof.
  assert (Hproc : ZScoreProcessor.process (H := Reference.numerics)
                    (Sample.thresholds 3.0 1.2) Sample.aapl 93.9
                  = Ok Scenario.trend_result) by (vm_compute; reflexivity).
  split; [exact Hproc|].
  destruct (action_from_trend_extrema (H := Reference.numerics)
              (Sample.thresholds 3.0 1.2) Sample.aapl 93.9
              Scenario.trend_result Scenario.trend_payload Hproc eq_refl)
    as (hp & Hhp & Hnone & _ & _).
  change (Result.lambda Scenario.trend_payload) with 60 in Hhp.
  assert (Hpeaks :
    find_peaks (Numerics := Reference.numerics) (HP.cycle hp) = [1; 3]%nat
    /\ find_peaks (Numerics := Reference.numerics)
         (map PrimFloat.opp (HP.cycle hp)) = [2]%nat
    /\ find_peaks (Numerics := Reference.numerics) (HP.trend hp) = []
    /\ find_peaks (Numerics := Reference.numerics)
         (map PrimFloat.opp (HP.trend hp)) = []).
  { vm_compute in Hhp. injection Hhp as <-. vm_compute. repeat split. }
  destruct Hpeaks as (Hc1 & Hc2 & Ht1 & Ht2).
  exists hp. split; [exact Hhp|].
  split; [exact Hc1|]. split; [exact Hc2|]. split; [exact Ht1|]. split; [exact Ht2|].
  apply Hnone.
  - intros i [Hi _]. rewrite Ht1 in Hi. inversion Hi.
  - intros i [Hi _]. rewrite Ht2 in Hi. inversion Hi.
Defined.

(** ** The fan-out: [np.array_split] and [process_symbols] *)

Section SplitFacts.
Context {A : Type}.

Lemma list_sum_repeat (a n : nat) : list_sum (repeat a n) = (n * a)%nat.
Proof. induction n as [|n IH]; simpl; [reflexivity|]. rewrite IH. reflexivity. Qed.

Lemma sub_arys_cons (ary : list A) (st en : nat) (rest : list nat) :
  ParallelProcessor.sub_arys ary (st :: en :: rest)
  = ParallelProcessor.slice ary st en :: ParallelProcessor.sub_arys ary (en :: rest).
Proof. reflexivity. Qed.

Lemma sub_arys_concat (ary : list A) (sizes : list nat) (acc : nat) :
  concat (ParallelProcessor.sub_arys ary (acc :: ParallelProcessor.cumsum acc sizes))
  = take (list_sum sizes) (drop acc ary).
Proof.
  revert acc. induction sizes as [|x sizes IH]; intros acc.
  - reflexivity.
  - change (ParallelProcessor.cumsum acc (x :: sizes))
      with ((acc + x)%nat :: ParallelProcessor.cumsum (acc + x) sizes).
    rewrite sub_arys_cons, concat_cons, IH. unfold ParallelProcessor.slice.
    replace (acc + x - acc)%nat with x by lia.
    replace (drop (acc + x) ary) with (drop x (drop acc ary))
      by (rewrite drop_drop; f_equal; lia).
    simpl list_sum. apply take_take_drop.
Qed.

Lemma sub_arys_length (ary : list A) (sizes : list nat) (acc : nat) :
  length (ParallelProcessor.sub_arys ary (acc :: ParallelProcessor.cumsum acc sizes)) = length sizes.
Proof.
  revert acc. induction sizes as [|x sizes IH]; intros acc; [reflexivity|].
  change (ParallelProcessor.cumsum acc (x :: sizes))
    with ((acc + x)%nat :: ParallelProcessor.cumsum (acc + x) sizes).
  rewrite sub_arys_cons, length_cons, IH. reflexivity.
Qed.

(** With at least one section, [array_split] returns that many contiguous
    chunks, which put end to end are the sequence. *)
Lemma array_split_chunks (ary : list A) (Nsections : Z) :
  1 <= Nsections ->
  exists chunks,
    ParallelProcessor.array_split ary Nsections = Ok chunks
    /\ length chunks = Z.to_nat Nsections
    /\ concat chunks = ary.
Proof.
  intros Hk. unfold ParallelProcessor.array_split.
  destruct (Nsections <=? 0) eqn:Hle; [apply Z.leb_le in Hle; lia|].
  eexists. split; [reflexivity|].
  set (Ntotal := Z.of_nat (length ary)).
  assert (Hdm : Ntotal = Nsections * (Ntotal / Nsections) + Ntotal mod Nsections)
    by (apply Z.div_mod; lia).
  assert (Hmod : 0 <= Ntotal mod Nsections < Nsections)
    by (apply Z.mod_pos_bound; lia).
  assert (Hdiv : 0 <= Ntotal / Nsections)
    by (apply Z.div_pos; lia).
  simpl app. simpl ParallelProcessor.cumsum. split.
  - rewrite sub_arys_length, length_app, !repeat_length. lia.
  - rewrite sub_arys_concat, drop_0. apply take_ge.
    rewrite list_sum_app, !list_sum_repeat.
    apply Nat2Z.inj_le.
    rewrite Nat2Z.inj_add, !Nat2Z.inj_mul, !Z2Nat.id by lia.
    fold Ntotal. nia.
Qed.

End SplitFacts.

Section FanoutFacts.
Context `{Numerics}.
Variable cm : ConfigManager.t.
Variable new_prices : dict float.

(** The loop over a chunk followed by the loop over the next one is the loop
    over both. *)
Lemma process_each_app (l1 l2 : list SymbolData.t) :
  DataStreamManager.process_each cm (l1 ++ l2) new_prices =
  (r1 ← DataStreamManager.process_each cm l1 new_prices;
   r2 ← DataStreamManager.process_each cm l2 new_prices;
   Ok (r1 ++ r2)).
Proof.
  induction l1 as [|d l1 IH]; simpl.
  - destruct (DataStreamManager.process_each cm l2 new_prices); reflexivity.
  - destruct (dict_get new_prices (SymbolData.symbol d)) as [p|]; [|exact IH].
    destruct (ZScoreProcessor.process cm d p) as [r|ex]; simpl; [|reflexivity].
    rewrite IH.
    destruct (DataStreamManager.process_each cm l1 new_prices) as [r1|ex]; simpl;
      [|reflexivity].
    destruct (DataStreamManager.process_each cm l2 new_prices); reflexivity.
Qed.

(** A worker runs the loop of the branch without a pool on its chunk. *)
Lemma process_chunk_loop (chunk : list SymbolData.t) :
  ParallelProcessor._process_chunk (chunk, new_prices, cm)
  = DataStreamManager.process_each cm chunk new_prices.
Proof.
  unfold ParallelProcessor._process_chunk.
  induction chunk as [|d chunk IH]; [reflexivity|]. simpl.
  destruct (dict_get new_prices (SymbolData.symbol d)) as [p|]; [|exact IH].
  destruct (ZScoreProcessor.process cm d p) as [r|ex]; simpl; [|reflexivity].
  rewrite IH. reflexivity.
Qed.

(** The workers' lists, chunk after chunk, are the list of the loop over
    the batch. *)
Lemma workers_concat (chunks : list (list SymbolData.t)) :
  (results ← mapM ParallelProcessor._process_chunk
     (map (fun chunk => (chunk, new_prices, cm)) chunks);
   Ok (concat results))
  = DataStreamManager.process_each cm (concat chunks) new_prices.
Proof.
  induction chunks as [|chunk chunks IH]; [reflexivity|].
  simpl concat. rewrite process_each_app. rewrite <- IH.
  rewrite <- process_chunk_loop. cbn [map].
  generalize (map (fun chunk0 : list SymbolData.t => (chunk0, new_prices, cm)) chunks).
  intros rest.
  change (mapM ParallelProcessor._process_chunk ((chunk, new_prices, cm) :: rest))
    with (x ← ParallelProcessor._process_chunk (chunk, new_prices, cm);
          k ← mapM ParallelProcessor._process_chunk rest; mret (x :: k)).
  destruct (ParallelProcessor._process_chunk (chunk, new_prices, cm)) as [r1|ex];
    [|reflexivity].
  simpl. destruct (mapM _ rest) as [rs|ex]; reflexivity.
Qed.

End FanoutFacts.

Section PickleFacts.

(** The detector does not pickle: it holds the configuration manager, which
    holds its watcher thread. *)
Lemma dumps_detector (cm : ConfigManager.t) :
  Pickle.dumps (Pickle.Instance (ZScoreProcessor.__dict__ cm)) = Raise TypeError.
Proof. reflexivity. Qed.

Lemma dumps_pickled (args : ParallelProcessor.Args) :
  Pickle.dumps (ParallelProcessor.pickled args) = Raise TypeError.
Proof. destruct args as [[chunk new_prices] processor]. reflexivity. Qed.

(** [pool.map] with the detector among the arguments raises as soon as
    there is one argument. *)
Lemma pool_map_raises {B} (func : ParallelProcessor.Args -> res B)
    (iterable : list ParallelProcessor.Args) :
  iterable <> [] -> ParallelProcessor.pool_map func iterable = Raise TypeError.
Proof.
  destruct iterable as [|args rest]; [congruence|]. intros _.
  unfold ParallelProcessor.pool_map. simpl mapM.
  rewrite dumps_pickled. reflexivity.
Qed.

Lemma process_symbols_raises `{Numerics} (pool : ParallelProcessor.t)
    (symbol_data_list : list SymbolData.t) (new_prices : dict float) :
  1 <= ParallelProcessor.num_processes pool ->
  ParallelProcessor.process_symbols pool symbol_data_list new_prices = Raise TypeError.
Proof.
  intros Hn. unfold ParallelProcessor.process_symbols.
  destruct (array_split_chunks symbol_data_list _ Hn) as (chunks & -> & Hlen & _).
  simpl. rewrite pool_map_raises; [reflexivity|].
  destruct chunks as [|chunk chunks]; [simpl in Hlen; lia|discriminate].
Qed.

End PickleFacts.

(** C7. The claim: the fan-out returns the list the single-threaded
    evaluation returns. For a pool built for any request that leaves at
    least one worker, and any batch: the batch is cut into as many
    contiguous chunks as there are workers, the chunks put end to end are
    the batch, and the workers' lists in chunk order would be the list of
    the loop without a pool; but each chunk goes to its worker with the
    detector, which holds the configuration manager and its watcher thread,
    so [pool.map] raises [TypeError] before any worker is given a chunk, for
    every batch, the empty one included, while the loop without a pool
    returns, as it does on the sample series at 94.0. *)
Theorem fanout_raises_for_every_batch `{Numerics} (cm : ConfigManager.t)
    (requested cpu_count : Z) (pool : ParallelProcessor.t)
    (symbol_data_list : list SymbolData.t) (new_prices : dict float) :
  ParallelProcessor.init requested cpu_count cm = Ok pool ->
  let with_pool :=
    {| DataStreamManager.processor := cm; DataStreamManager.parallel_processor := Some pool |} in
  let direct :=
    {| DataStreamManager.processor := cm; DataStreamManager.parallel_processor := None |} in
  (exists chunks,
     ParallelProcessor.array_split symbol_data_list (ParallelProcessor.num_processes pool) = Ok chunks
     /\ length chunks = Z.to_nat (Z.min requested cpu_count)
     /\ concat chunks = symbol_data_list
     /\ (results ← mapM ParallelProcessor._process_chunk
           (map (fun chunk => (chunk, new_prices, cm)) chunks);
         Ok (concat results))
        = DataStreamManager.process_data direct symbol_data_list new_prices)
  /\ ParallelProcessor.process_symbols pool symbol_data_list new_prices = Raise TypeError
  /\ DataStreamManager.process_data with_pool symbol_data_list new_prices = Raise TypeError
  /\ DataStreamManager.process_data
       {| DataStreamManager.processor := Sample.thresholds 3.0 1.7;
          DataStreamManager.parallel_processor := None |}
       [Sample.aapl] [("AAPL", 94.0%float)] = Ok [Sample.quiet_940].
Proof.
  intros Hinit with_pool direct. unfold ParallelProcessor.init in Hinit.
  destruct (Z.min requested cpu_count <? 1) eqn:Hn; [discriminate|].
  apply Z.ltb_ge in Hn. injection Hinit as <-. simpl ParallelProcessor.num_processes.
  destruct (array_split_chunks symbol_data_list _ Hn) as (chunks & Hsplit & Hlen & Hcat).
  split; [|split; [|split]].
  - exists chunks. repeat split; try assumption.
    rewrite workers_concat, Hcat. reflexivity.
  - apply process_symbols_raises. exact Hn.
  - unfold DataStreamManager.process_data, with_pool. simpl.
    apply process_symbols_raises. exact Hn.
  - change (DataStreamManager.process_data _ [Sample.aapl] [("AAPL", 94.0%float)])
      with (result ← ZScoreProcessor.process (Sample.thresholds 3.0 1.7) Sample.aapl 94.0;
            Ok [result]).
    rewrite (process_below (Sample.thresholds 3.0 1.7) Sample.aapl 94.0)
      by (vm_compute; reflexivity).
    reflexivity.
Qed.

(** A pool of three workers on a host with eight processors, over the
    sample series with the price 94.0. *)
Lemma fanout_raises_for_every_batch_witness :
  let cm := Sample.thresholds 3.0 1.7 in
  let pool := {| ParallelProcessor.num_processes := 3; ParallelProcessor.zscore_processor := cm |} in
  ParallelProcessor.init 3 8 cm = Ok pool
  /\ ParallelProcessor.array_split [Sample.aapl] 3 = Ok [[Sample.aapl]; []; []]
  /\ DataStreamManager.process_data (H := Reference.numerics)
       {| DataStreamManager.processor := cm;
          DataStreamManager.parallel_processor := Some pool |}
       [Sample.aapl] [("AAPL", 94.0%float)] = Raise TypeError
  /\ DataStreamManager.process_data (H := Reference.numerics)
       {| DataStreamManager.processor := cm;
          DataStreamManager.parallel_processor := None |}
       [Sample.aapl] [("AAPL", 94.0%float)] = Ok [Sample.quiet_940].
Proof.
  intros cm pool.
  split; [reflexivity|]. split; [reflexivity|].
  exact (proj2 (proj2 (fanout_raises_for_every_batch (H := Reference.numerics)
                         cm 3 8 pool [Sample.aapl] [("AAPL", 94.0%float)] eq_refl))).
Defined.

(** ** The stream processor: [log_alert] and [process_data] *)

Section AppendsFacts.
Variable P : StreamProcessor.LogRecord -> Prop.

Lemma appends_quiet {A} (m : StreamProcessor.M A) :
  (forall w, StreamProcessor.log (snd (m w)) = StreamProcessor.log w
             /\ SymbolDataManager.symbol_data (StreamProcessor.symbol_manager (snd (m w)))
                = SymbolDataManager.symbol_data (StreamProcessor.symbol_manager w)
             /\ SymbolDataManager.symbols (StreamProcessor.symbol_manager (snd (m w)))
                = SymbolDataManager.symbols (StreamProcessor.symbol_manager w)) ->
  appends P m.
Proof.
  intros Hm w. destruct (Hm w) as (Hlog & Hsd & Hsy).
  split; [|split; assumption].
  exists []. rewrite app_nil_r. split; [exact Hlog|].
  intros record Hin. apply elem_of_nil in Hin. contradiction.
Qed.

Lemma appends_ret {A} (a : A) : appends P (mret a).
Proof. apply appends_quiet. intros w. repeat split. Qed.

Lemma appends_lift {A} (r : res A) : appends P (StreamProcessor.lift r).
Proof. apply appends_quiet. intros w. repeat split. Qed.

Lemma appends_getitem_price_trends (symbol : string) :
  appends P (StreamProcessor.getitem_price_trends symbol).
Proof.
  apply appends_quiet. intros w. unfold StreamProcessor.getitem_price_trends.
  destruct (SymbolDataManager.price_trends (StreamProcessor.symbol_manager w) !! symbol);
    repeat split.
Qed.

Lemma appends_setitem_price_trends (symbol : string) (t : Trend.t) :
  appends P (StreamProcessor.setitem_price_trends symbol t).
Proof. apply appends_quiet. intros w. repeat split. Qed.

Lemma appends_setitem_last_processed_price (symbol : string) (price : float) :
  appends P (StreamProcessor.setitem_last_processed_price symbol price).
Proof. apply appends_quiet. intros w. repeat split. Qed.

Lemma appends_logging_info (record : StreamProcessor.LogRecord) :
  P record -> appends P (StreamProcessor.logging_info record).
Proof.
  intros HP w. split; [|split; reflexivity].
  exists [record]. split; [reflexivity|].
  intros r Hin. apply list_elem_of_singleton in Hin as ->. exact HP.
Qed.

Lemma appends_bind {A B} (m : StreamProcessor.M A) (f : A -> StreamProcessor.M B) :
  appends P m ->
  (forall a w, fst (m w) = Ok a -> appends P (f a)) ->
  appends P (m ≫= f).
Proof.
  intros Hm Hf w. unfold mbind, StreamProcessor.M_bind.
  destruct (Hm w) as ((recs1 & Hlog1 & HP1) & Hsd1 & Hsy1).
  specialize (Hf) with (w := w).
  destruct (m w) as [[a|ex] w1]; simpl in *.
  - destruct (Hf a eq_refl w1) as ((recs2 & Hlog2 & HP2) & Hsd2 & Hsy2).
    split; [|split; congruence].
    exists (recs1 ++ recs2). rewrite Hlog2, Hlog1, app_assoc.
    split; [reflexivity|].
    intros record [Hin|Hin]%elem_of_app; auto.
  - split; [|split; assumption]. exists recs1. auto.
Qed.

End AppendsFacts.

Section StreamFacts.
Variable processor : list SymbolData.t -> dict float -> res (list Result.t).
Variable cm : ConfigManager.t.

(** An alert record [log_alert] logs is the "ALERT" line of its result,
    which has a trend z-score. *)
Lemma log_alert_effect (result : Result.t) :
  appends (fun record => is_alert record = true -> alert_of result record)
    (StreamProcessor.log_alert result).
Proof.
  unfold StreamProcessor.log_alert.
  apply appends_bind; [apply appends_lift|]. intros symbol ws Hsym.
  apply appends_bind; [apply appends_getitem_price_trends|].
  intros current_trend _ _.
  apply appends_bind; [apply appends_lift|]. intros e w He.
  unfold StreamProcessor.lift, Result.getitem in He, Hsym. simpl in He, Hsym.
  destruct (Result.enriched result) as [e'|] eqn:Henr; [|discriminate].
  injection He as ->. injection Hsym as <-.
  apply appends_bind.
  { destruct (bool_decide _); [|apply appends_ret].
    apply appends_bind; [|intros; apply appends_setitem_price_trends].
    destruct (Trend.extreme_price current_trend); [|apply appends_ret].
    apply appends_bind; [apply appends_lift|]. intros record w0 Hrec.
    apply appends_logging_info. unfold StreamProcessor.lift in Hrec. simpl in Hrec.
    unfold StreamProcessor.format_trend_change in Hrec.
    destruct (StreamProcessor.format_spec (Trend.last_action current_trend));
      [|discriminate].
    destruct (StreamProcessor.format_spec (Trend.extreme_price current_trend));
      [|discriminate].
    destruct (StreamProcessor.format_spec (Trend.day_high current_trend));
      [|discriminate].
    destruct (StreamProcessor.format_spec (Trend.day_low current_trend));
      [|discriminate].
    injection Hrec as Hrec. rewrite <- Hrec. discriminate. }
  intros _ _ _.
  apply appends_bind; [apply appends_getitem_price_trends|].
  intros current_trend' _ _.
  apply appends_bind; [apply appends_lift|]. intros record w0 Hrec.
  apply appends_logging_info. intros _.
  unfold StreamProcessor.lift in Hrec. simpl in Hrec.
  unfold StreamProcessor.format_alert, StreamProcessor.format_spec in Hrec.
  destruct (Result.zscore_trend e) as [zt|] eqn:Hzt; [|discriminate].
  destruct (Trend.extreme_price current_trend') as [ext_price|]; [|discriminate].
  simpl in Hrec. injection Hrec as <-.
  exists e, zt, ext_price. auto.
Qed.

(** One turn of the loop logs an alert record only for its result, and
    only with both conditions. *)
Lemma process_result_effect (result : Result.t) :
  appends (fun record => is_alert record = true ->
                         alert_of result record /\ corroborated cm result)
    (StreamProcessor.process_result cm result).
Proof.
  unfold StreamProcessor.process_result.
  apply appends_bind; [apply appends_lift|]. intros symbol _ _.
  apply appends_bind; [|intros; apply appends_setitem_last_processed_price].
  destruct (StreamProcessor.alert_condition cm result) eqn:Hcond; [|apply appends_ret].
  intros w. destruct (log_alert_effect result w) as ((records & Hlog & Hal) & Hrest).
  split; [|exact Hrest]. exists records. split; [exact Hlog|].
  intros record Hin Halert. pose proof (Hal record Hin Halert) as Hof.
  split; [exact Hof|]. destruct Hof as (e & zt & ext_price & He & Hzt & _).
  unfold StreamProcessor.alert_condition, Result.get in Hcond.
  rewrite He in Hcond. simpl in Hcond. rewrite Hzt in Hcond.
  apply andb_true_iff in Hcond as [Hz Ht].
  split; [exact Hz|]. exists zt. unfold Result.get. rewrite He. auto.
Qed.

Lemma for_each_effect (results : list Result.t) :
  appends
    (fun record => is_alert record = true ->
                   exists result,
                     result ∈ results /\ alert_of result record
                     /\ corroborated cm result)
    (StreamProcessor.for_each cm results).
Proof.
  induction results as [|result results IH]; [apply appends_ret|].
  simpl StreamProcessor.for_each. apply appends_bind.
  - intros w. destruct (process_result_effect result w)
      as ((records & Hlog & Hal) & Hrest).
    split; [|exact Hrest]. exists records. split; [exact Hlog|].
    intros record Hin Halert. exists result.
    split; [left|]. exact (Hal record Hin Halert).
  - intros _ _ _ w. destruct (IH w) as ((records & Hlog & Hal) & Hrest).
    split; [|exact Hrest]. exists records. split; [exact Hlog|].
    intros record Hin Halert. destruct (Hal record Hin Halert) as (r & Hr & Hc).
    exists r. split; [right; exact Hr|exact Hc].
Qed.

(** Every alert record [process_data] logs is the "ALERT" line of a result
    the processor returned for the series of the symbols of the call, a
    result for which both conditions hold; the stored series and the symbol
    set are left as they were. *)
Lemma process_data_effect (new_prices : dict float) (w : StreamProcessor.World) :
  let w' := snd (StreamProcessor.process_data processor cm new_prices w) in
  let batch :=
    omap (fun symbol =>
            SymbolDataManager.symbol_data (StreamProcessor.symbol_manager w) !! symbol)
      (dict_keys new_prices) in
  (forall record,
     record ∈ emitted (StreamProcessor.process_data processor cm new_prices) w ->
     is_alert record = true ->
     exists results result,
       processor batch new_prices = Ok results
       /\ result ∈ results
       /\ alert_of result record
       /\ corroborated cm result)
  /\ SymbolDataManager.symbol_data (StreamProcessor.symbol_manager w')
     = SymbolDataManager.symbol_data (StreamProcessor.symbol_manager w)
  /\ SymbolDataManager.symbols (StreamProcessor.symbol_manager w')
     = SymbolDataManager.symbols (StreamProcessor.symbol_manager w).
Proof.
  intros w' batch. subst w'. unfold emitted, StreamProcessor.process_data.
  fold batch.
  unfold mbind, StreamProcessor.M_bind, StreamProcessor.lift.
  destruct (processor batch new_prices) as [results|ex] eqn:Hproc; simpl.
  - destruct (for_each_effect results w) as ((recs & Hlog & Hal) & Hsd & Hsy).
    split; [|split; assumption].
    intros record Hin Halert. rewrite Hlog in Hin.
    rewrite drop_app_length in Hin.
    destruct (Hal record Hin Halert) as (r & Hr & Hc).
    exists results, r. auto.
  - split; [|split; reflexivity].
    intros record Hin. rewrite drop_all in Hin.
    apply elem_of_nil in Hin. contradiction.
Qed.

End StreamFacts.

(** ** The stream processor on sample results

    Thresholds 3.0 and 1.7; the results are those of AAPL for the ticks
    93.0 and 93.9, action "Sell", and 106.1, action "Buy". *)

(** C1. The claim: an alert record is emitted exactly when [|zscore|] and
    [|zscore_trend|] exceed their thresholds, and a result without one of
    the two, or without trend z-score, never reaches [log_alert]. The code:
    the result of 93.9 alerts with action "Sell"; the result of 106.1 has
    both conditions and action "Buy", and [log_alert] raises [TypeError] on
    the day high of the "TREND CHANGE" line, which nothing ever set: no
    alert record, and the world is left as it was. Besides, the condition of
    [process_data] lets a result without trend z-score into [log_alert],
    which stores the new action and price before it raises on the alert
    line. *)
Theorem corroborated_alert_lost :
  let cm := Sample.thresholds 3.0 1.7 in
  let w1 := snd (Sample.feed cm Sample.sell_939 Sample.world) in
  fst (Sample.feed cm Sample.sell_939 Sample.world) = Ok tt
  /\ StreamProcessor.log w1 =
       [StreamProcessor.ALERT "AAPL" 93.9 (-3.05) "Sell" (Some 1%nat) (-2.5) 60 93.9]
  /\ trend_of w1 "AAPL" =
       Some {| Trend.last_action := Some "Sell";
               Trend.extreme_price := Some 93.9%float;
               Trend.day_high := None;
               Trend.day_low := None |}
  /\ corroborated cm Sample.buy_1061
  /\ Sample.feed cm Sample.buy_1061 w1 = (Raise TypeError, w1)
  /\ StreamProcessor.alert_condition cm Sample.trendless = true
  /\ Result.get Result.zscore_trend Sample.trendless = None
  /\ fst (StreamProcessor.log_alert Sample.trendless Sample.world) = Raise TypeError
  /\ trend_of (snd (StreamProcessor.log_alert Sample.trendless Sample.world)) "AAPL" =
       Some {| Trend.last_action := Some "Buy";
               Trend.extreme_price := Some 106.1%float;
               Trend.day_high := None;
               Trend.day_low := None |}.
Proof.
  intros cm w1.
  split; [vm_compute; reflexivity|].
  split; [vm_compute; reflexivity|].
  split; [vm_compute; reflexivity|].
  split; [split; [reflexivity|eexists; split; reflexivity]|].
  split; [vm_compute; reflexivity|].
  split; [vm_compute; reflexivity|].
  split; [reflexivity|].
  split; vm_compute; reflexivity.
Qed.

(** C2. The claim: while the action is unchanged the extreme price is
    extended, to the minimum under "Buy" and the maximum under "Sell", and
    an action change resets it to the triggering price. The code: the
    results of 93.0 and 93.9 both alert with action "Sell", and the extreme
    price stays 93.0, where the maximum is 93.9, because [log_alert] assigns
    it only when the action changes; after them the result of 106.1, action
    "Buy", raises in [log_alert] before the assignment and the extreme price
    is still 93.0. [update_price_trends], which no method calls, extends
    under 'sell' and not under the detector's "Sell". *)
Theorem extreme_price_not_extended :
  let cm := Sample.thresholds 3.0 1.7 in
  let w1 := snd (Sample.feed cm Sample.sell_930 Sample.world) in
  let w2 := snd (Sample.feed cm Sample.sell_939 w1) in
  StreamProcessor.log w2 =
    [StreamProcessor.ALERT "AAPL" 93.0 (-3.5) "Sell" (Some 1%nat) (-2.6) 60 93.0;
     StreamProcessor.ALERT "AAPL" 93.9 (-3.05) "Sell" (Some 1%nat) (-2.5) 60 93.0]
  /\ (Trend.extreme_price <$> trend_of w1 "AAPL") = Some (Some 93.0%float)
  /\ (Trend.extreme_price <$> trend_of w2 "AAPL") = Some (Some 93.0%float)
  /\ fgt 93.9 93.0 = true
  /\ Sample.feed cm Sample.buy_1061 w2 = (Raise TypeError, w2)
  /\ trend_after_update (StreamProcessor.symbol_manager w1) "AAPL" 93.9 "Sell"
     = Ok (Some {| Trend.last_action := Some "Sell";
                   Trend.extreme_price := Some 93.0%float;
                   Trend.day_high := Some 93.9%float;
                   Trend.day_low := Some 93.9%float |})
  /\ trend_after_update
       (SymbolDataManager.set_price_trends (StreamProcessor.symbol_manager Sample.world)
          {[ "AAPL" := {| Trend.last_action := Some "sell";
                          Trend.extreme_price := Some 93.0%float;
                          Trend.day_high := None;
                          Trend.day_low := None |} ]})
       "AAPL" 93.9 "sell"
     = Ok (Some {| Trend.last_action := Some "sell";
                   Trend.extreme_price := Some 93.9%float;
                   Trend.day_high := Some 93.9%float;
                   Trend.day_low := Some 93.9%float |}).
Proof.
  intros cm w1 w2. repeat split; vm_compute; reflexivity.
Qed.

(** ** The stream processor never touches the day range or the stored closes *)

Section DayRangeFacts.

Lemma same_day_range_trends (w w' : StreamProcessor.World) :
  SymbolDataManager.price_trends (StreamProcessor.symbol_manager w')
  = SymbolDataManager.price_trends (StreamProcessor.symbol_manager w) ->
  same_day_range w w'.
Proof. intros Heq sym. unfold trend_of. rewrite Heq. auto. Qed.

Lemma same_day_range_trans (w1 w2 w3 : StreamProcessor.World) :
  same_day_range w1 w2 -> same_day_range w2 w3 -> same_day_range w1 w3.
Proof.
  intros H12 H23 sym. destruct (H12 sym) as [Hh Hl].
  destruct (H23 sym) as [Hh' Hl']. split; congruence.
Qed.

Lemma same_day_range_insert (w w' : StreamProcessor.World) (symbol : string)
    (t t' : Trend.t) :
  trend_of w symbol = Some t ->
  Trend.day_high t' = Trend.day_high t ->
  Trend.day_low t' = Trend.day_low t ->
  SymbolDataManager.price_trends (StreamProcessor.symbol_manager w')
  = <[symbol := t']> (SymbolDataManager.price_trends (StreamProcessor.symbol_manager w)) ->
  same_day_range w w'.
Proof.
  intros Ht Hh Hl Heq sym. unfold trend_of in *. rewrite Heq.
  destruct (decide (symbol = sym)) as [->|Hne].
  - rewrite lookup_insert_eq, Ht. simpl. rewrite Hh, Hl. auto.
  - rewrite lookup_insert_ne by exact Hne. auto.
Qed.

Lemma log_alert_day_range (result : Result.t) (w : StreamProcessor.World) :
  same_day_range w (snd (StreamProcessor.log_alert result w)).
Proof.
  unfold StreamProcessor.log_alert, StreamProcessor.lift, Result.getitem, mbind, StreamProcessor.M_bind,
    mret, StreamProcessor.M_ret, StreamProcessor.logging_info.
  destruct (Result.enriched result) as [e|]; cbn [fst snd];
    [|apply same_day_range_trends; reflexivity].
  unfold StreamProcessor.getitem_price_trends at 1.
  destruct (SymbolDataManager.price_trends (StreamProcessor.symbol_manager w) !! Result.symbol e)
    as [current_trend|] eqn:Ht; [|apply same_day_range_trends; reflexivity].
  destruct (bool_decide _).
  - destruct (Trend.extreme_price current_trend);
      [destruct (StreamProcessor.format_trend_change _ _ _)|];
      unfold StreamProcessor.setitem_price_trends, StreamProcessor.getitem_price_trends;
      cbn [StreamProcessor.symbol_manager SymbolDataManager.price_trends SymbolDataManager.set_price_trends
           StreamProcessor.log fst snd];
      rewrite ?lookup_insert_eq;
      try (destruct (StreamProcessor.format_alert _ _ _ _);
           (eapply same_day_range_insert; [exact Ht| | |reflexivity]; reflexivity)).
    apply same_day_range_trends; reflexivity.
  - unfold StreamProcessor.getitem_price_trends. rewrite Ht.
    destruct (StreamProcessor.format_alert _ _ _ _);
      apply same_day_range_trends; reflexivity.
Qed.

Variable processor : list SymbolData.t -> dict float -> res (list Result.t).
Variable cm : ConfigManager.t.

Lemma process_result_day_range (result : Result.t) (w : StreamProcessor.World) :
  same_day_range w (snd (StreamProcessor.process_result cm result w)).
Proof.
  unfold StreamProcessor.process_result, StreamProcessor.lift, Result.getitem, mbind, StreamProcessor.M_bind,
    mret, StreamProcessor.M_ret.
  destruct (Result.enriched result) as [e|]; cbn [fst snd];
    [|apply same_day_range_trends; reflexivity].
  destruct (StreamProcessor.alert_condition cm result);
    [|apply same_day_range_trends; reflexivity].
  pose proof (log_alert_day_range result w) as Hla.
  destruct (StreamProcessor.log_alert result w) as [[[]|ex] w1]; cbn [fst snd] in *;
    [|exact Hla].
  eapply same_day_range_trans; [exact Hla|].
  apply same_day_range_trends. reflexivity.
Qed.

Lemma for_each_day_range (results : list Result.t) (w : StreamProcessor.World) :
  same_day_range w (snd (StreamProcessor.for_each cm results w)).
Proof.
  revert w. induction results as [|result results IH]; intros w.
  - apply same_day_range_trends. reflexivity.
  - simpl StreamProcessor.for_each. unfold mbind, StreamProcessor.M_bind.
    pose proof (process_result_day_range result w) as Hone.
    destruct (StreamProcessor.process_result cm result w) as [[[]|ex] w1];
      cbn [fst snd] in *; [|exact Hone].
    eapply same_day_range_trans; [exact Hone|apply IH].
Qed.

Lemma process_data_day_range (new_prices : dict float) (w : StreamProcessor.World) :
  same_day_range w (snd (StreamProcessor.process_data processor cm new_prices w)).
Proof.
  unfold StreamProcessor.process_data, mbind, StreamProcessor.M_bind, StreamProcessor.lift.
  destruct (processor _ new_prices) as [results|ex]; cbn [fst snd].
  - apply for_each_day_range.
  - apply same_day_range_trends. reflexivity.
Qed.

End DayRangeFacts.

(** C3. The claim: every corroborated evaluation sets the day high to the
    maximum of day high and price and the day low to the minimum. The code:
    after the alert of the result of 93.9, and after the two alerts of the
    results of 93.0 and 93.9, day high and day low of the symbol are still
    [None]; [update_price_trends], which no method calls, sets both to 93.9
    on the same manager. In general no call of [process_data] changes a day
    high or a day low. *)
Theorem day_range_never_updated :
  let cm := Sample.thresholds 3.0 1.7 in
  let w1 := snd (Sample.feed cm Sample.sell_939 Sample.world) in
  let w2 := snd (Sample.feed cm Sample.sell_939
                   (snd (Sample.feed cm Sample.sell_930 Sample.world))) in
  corroborated cm Sample.sell_939
  /\ (is_alert <$> StreamProcessor.log w1) = [true]
  /\ (is_alert <$> StreamProcessor.log w2) = [true; true]
  /\ (Trend.day_high <$> trend_of w1 "AAPL") = Some None
  /\ (Trend.day_low <$> trend_of w1 "AAPL") = Some None
  /\ (Trend.day_high <$> trend_of w2 "AAPL") = Some None
  /\ (Trend.day_low <$> trend_of w2 "AAPL") = Some None
  /\ trend_after_update (StreamProcessor.symbol_manager Sample.world) "AAPL" 93.9 "Sell"
     = Ok (Some {| Trend.last_action := Some "Sell";
                   Trend.extreme_price := Some 93.9%float;
                   Trend.day_high := Some 93.9%float;
                   Trend.day_low := Some 93.9%float |})
  /\ forall processor config new_prices w,
       same_day_range w (snd (StreamProcessor.process_data processor config new_prices w)).
Proof.
  intros cm w1 w2.
  split; [split; [reflexivity|eexists; split; reflexivity]|].
  repeat (split; [vm_compute; reflexivity|]).
  intros processor config new_prices w. apply process_data_day_range.
Qed.

(** C6. The claim: an evaluation with [|z| > sigma_thresh] appends the new
    price to the stored close sequence. The code on the sample series: the
    tick 93.9 crosses the threshold and alerts, and the four stored closes
    are the same four after it; [process_data] of the detector appends to a
    copy, and [append_price] is called by no method. In general no call of
    [process_data] changes a stored series. *)
Theorem stored_closes_not_extended :
  let cm := Sample.thresholds 3.0 1.7 in
  let w1 := Sample.run cm [("AAPL", 93.9%float)] Sample.world in
  ZScoreProcessor.process cm Sample.aapl 93.9 = Ok Sample.sell_result
  /\ fgt (fabs (Result.zscore Sample.sell_result)) 3.0 = true
  /\ (StreamProcessor.log w1) =
       [StreamProcessor.ALERT "AAPL" 93.9 (-3.0499999999999972) "Sell" (Some 1%nat)
          (-1.7303659045848503) 60 93.9]
  /\ closes_of Sample.world "AAPL" = Some [98.0; 102.0; 99.0; 101.0]%float
  /\ closes_of w1 "AAPL" = Some [98.0; 102.0; 99.0; 101.0]%float
  /\ (SymbolData.full_prices (SymbolData.append_price Sample.aapl 93.9)
      = [98.0; 102.0; 99.0; 101.0; 93.9]%float)
  /\ forall processor config new_prices w sym,
       closes_of (snd (StreamProcessor.process_data processor config new_prices w)) sym
       = closes_of w sym.
Proof.
  intros cm w1.
  repeat (split; [vm_compute; reflexivity|]).
  intros processor config new_prices w sym. unfold closes_of.
  destruct (process_data_effect processor config new_prices w) as (_ & Hsd & _).
  rewrite Hsd. reflexivity.
Qed.

(** ** The calibrator: [initialize_data] and [initialize_symbol_data] *)

Section CalibrationFacts.
Context `{Numerics}.
Variable valid_days : list Z.

(** The loop removes a symbol exactly under the drop conditions. *)
Lemma removed_iff_drop_condition (data : SymbolData.t) :
  SymbolDataManager.removed valid_days data <-> drop_condition valid_days data.
Proof.
  unfold SymbolDataManager.removed, SymbolDataManager.calibrate, drop_condition, baseline_session.
  destruct (bool_decide_reflect (SymbolData.historical_data data = [])) as [Hnil|Hnil];
    simpl orb.
  { split; [|reflexivity]. intros _. left. rewrite Hnil. simpl. lia. }
  destruct (Nat.ltb_spec (length (SymbolData.historical_data data)) 2) as [Hlt|Hge].
  { split; [|reflexivity]. intros _. left. exact Hlt. }
  destruct (SymbolDataManager.last_valid_day valid_days) as [day|].
  2:{ split; [|reflexivity]. intros _. right. left. simpl. lia. }
  match goal with
  | |- context [map snd ?rows] => set (prices := map snd rows)
  end.
  destruct (Nat.ltb_spec (length prices) 2) as [Hlt|Hge'].
  { split; [|reflexivity]. intros _. right. left. exact Hlt. }
  destruct (last prices) as [last_price|] eqn:Hlast.
  2:{ apply last_None in Hlast. rewrite Hlast in Hge'. simpl in Hge'. lia. }
  set (std := np_std prices). set (mean := np_mean prices).
  set (z := ((last_price - mean) / std)%float).
  destruct (feq std 0) eqn:Hz.
  { split; [|reflexivity]. intros _. right. right. left. reflexivity. }
  destruct (isnan std) eqn:Hn.
  { split; [|reflexivity]. intros _. do 3 right. left. reflexivity. }
  destruct (isnan last_price) eqn:Hl.
  { split; [|reflexivity]. intros _. do 4 right.
    exists last_price. split; [reflexivity|]. left. exact Hl. }
  destruct (isnan z) eqn:Hzn.
  { split; [|reflexivity]. intros _. do 4 right.
    exists last_price. split; [reflexivity|]. right. left. exact Hzn. }
  destruct (isinf z) eqn:Hzi.
  { split; [|reflexivity]. intros _. do 4 right.
    exists last_price. split; [reflexivity|]. right. right. exact Hzi. }
  simpl. split; [discriminate|].
  intros [?|[?|[?|[?|(lp & Hlp & Hor)]]]]; try lia; try discriminate.
  injection Hlp as <-. fold z in Hor. destruct Hor as [?|[?|?]]; congruence.
Qed.

Lemma initialize_symbol_data_lookup (self : SymbolDataManager.t)
    (sym : string) :
  SymbolDataManager.symbol_data (SymbolDataManager.initialize_symbol_data valid_days self) !! sym
  = SymbolDataManager.symbol_data self !! sym ≫= SymbolDataManager.kept valid_days.
Proof. unfold SymbolDataManager.initialize_symbol_data. simpl. apply lookup_omap. Qed.

Lemma initialize_symbol_data_symbols (self : SymbolDataManager.t)
    (sym : string) :
  sym ∈ SymbolDataManager.symbols (SymbolDataManager.initialize_symbol_data valid_days self)
  <-> sym ∈ SymbolDataManager.symbols self
      /\ ~ exists data, SymbolDataManager.symbol_data self !! sym = Some data
                        /\ SymbolDataManager.removed valid_days data.
Proof.
  unfold SymbolDataManager.initialize_symbol_data. simpl.
  rewrite elem_of_difference, elem_of_dom. unfold is_Some.
  setoid_rewrite map_lookup_filter_Some. simpl. tauto.
Qed.

(** A symbol with a stored frame leaves the symbol set and the series
    exactly under the drop conditions. *)
Lemma calibrated_symbol (self : SymbolDataManager.t) (sym : string)
    (data : SymbolData.t) :
  SymbolDataManager.symbol_data self !! sym = Some data ->
  sym ∈ SymbolDataManager.symbols self ->
  let self' := SymbolDataManager.initialize_symbol_data valid_days self in
  ((sym ∉ SymbolDataManager.symbols self') /\ SymbolDataManager.symbol_data self' !! sym = None)
  <-> drop_condition valid_days data.
Proof.
  intros Hdata Hsym self'. subst self'.
  rewrite <- removed_iff_drop_condition.
  rewrite initialize_symbol_data_symbols, initialize_symbol_data_lookup, Hdata.
  simpl. unfold SymbolDataManager.kept, SymbolDataManager.removed.
  destruct (SymbolDataManager.calibrate valid_days data) eqn:Hcal.
  - split; [reflexivity|]. intros _. split; [|reflexivity].
    intros [_ Hno]. apply Hno. exists data. auto.
  - split; [intros [_ ?]; discriminate|discriminate].
Qed.

(** What [initialize_data] stores for a symbol none of whose fetched frames
    has a row. *)
Lemma store_frames_no_rows (historical_data : list (string * list SymbolData.Row))
    (sd : gmap string SymbolData.t) (sym : string) :
  (forall df, (sym, df) ∈ historical_data -> df = []) ->
  SymbolDataManager.store_frames historical_data sd !! sym = sd !! sym.
Proof.
  revert sd. induction historical_data as [|[s df] rest IH]; intros sd Hall;
    [reflexivity|].
  simpl. rewrite IH.
  - destruct (bool_decide_reflect (df = [])) as [_|Hne]; [reflexivity|].
    destruct (decide (s = sym)) as [->|Hs].
    + exfalso. apply Hne, Hall. left.
    + apply lookup_insert_ne. exact Hs.
  - intros df' Hin. apply Hall. right. exact Hin.
Qed.

End CalibrationFacts.

(** C8. The claim: after calibration a symbol is out of the active symbol
    set and has no series exactly when a drop condition held, fewer than two
    historical rows among them. The code on three symbols: AAPL, five rows,
    stays; MSFT, one row, leaves the set and the series; TSLA, whose fetched
    frame has no row, has no series and is still in the symbol set, because
    [initialize_data] stores no [SymbolData] for an empty frame and the loop
    of [initialize_symbol_data], which removes symbols, runs over the stored
    ones only. In general a symbol for which no frame with rows arrived
    stays in the set. *)
Theorem empty_frame_symbol_stays_active :
  let self := SymbolDataManager.init {[ "AAPL"; "MSFT"; "TSLA" ]} in
  let self' := SymbolDataManager.initialize_data Sample.frames Sample.valid_days self in
  elements (SymbolDataManager.symbols self') = ["AAPL"; "TSLA"]
  /\ (SymbolData.full_prices <$> SymbolDataManager.symbol_data self' !! "AAPL")
     = Some [98.0; 102.0; 99.0; 101.0; 100.0]%float
  /\ SymbolDataManager.symbol_data self' !! "MSFT" = None
  /\ SymbolDataManager.symbol_data self' !! "TSLA" = None
  /\ forall (N : Numerics) historical_data valid_days
            (m : SymbolDataManager.t) sym,
       (forall df, (sym, df) ∈ historical_data -> df = []) ->
       SymbolDataManager.symbol_data m !! sym = None ->
       sym ∈ SymbolDataManager.symbols m ->
       let m' := SymbolDataManager.initialize_data historical_data valid_days m in
       sym ∈ SymbolDataManager.symbols m' /\ SymbolDataManager.symbol_data m' !! sym = None.
Proof.
  intros self self'.
  repeat (split; [vm_compute; reflexivity|]).
  intros N historical_data valid_days m sym Hall Hnone Hsym m'. subst m'.
  unfold SymbolDataManager.initialize_data.
  rewrite initialize_symbol_data_symbols, initialize_symbol_data_lookup. simpl.
  rewrite (store_frames_no_rows _ _ _ Hall), Hnone. simpl.
  split; [|reflexivity]. split; [exact Hsym|].
  intros (data & Hdata & _). discriminate.
Qed.

(** ** The fetcher: [fetch_symbol_data] under [@retry] *)

Section RetryFacts.
Context {A : Type}.
Variable symbol : string.
Variable fn : Z -> list HistoricalDataFetcher.Event * res A.
Hypothesis fn_sleeps : forall k, Forall is_sleep (fst (fn k)).

Lemma split_after_sleeps (s t l1 l2 : list HistoricalDataFetcher.Event) (a : HistoricalDataFetcher.Event) :
  Forall is_sleep s -> ~ is_sleep a ->
  l1 ++ a :: l2 = s ++ t ->
  exists l1', l1 = s ++ l1' /\ t = l1' ++ a :: l2.
Proof.
  intros Hs Ha. revert l1. induction Hs as [|x s Hx Hs IH]; intros l1 Heq.
  - exists l1. auto.
  - destruct l1 as [|y l1]; simpl in Heq.
    + injection Heq as -> _. contradiction.
    + injection Heq as -> Heq. destruct (IH l1 Heq) as (l1' & -> & ->).
      exists l1'. auto.
Qed.

Lemma request_not_sleep (k : Z) : ~ is_sleep (HistoricalDataFetcher.Request symbol k).
Proof. intros [s Hs]. discriminate. Qed.

Lemma request_not_in_sleeps (s pre post : list HistoricalDataFetcher.Event) (k : Z) :
  Forall is_sleep s -> s <> pre ++ HistoricalDataFetcher.Request symbol k :: post.
Proof.
  intros Hs ->. apply Forall_app in Hs as [_ Hs].
  apply Forall_cons in Hs as [Hs _]. exact (request_not_sleep k Hs).
Qed.

(** The trace from a request on is the trace of the loop started at that
    attempt, with the attempts still allowed then. *)
Lemma retry_from_request (remaining : nat) (n k : Z)
    (pre post : list HistoricalDataFetcher.Event) :
  fst (HistoricalDataFetcher.retry remaining n symbol fn) = pre ++ HistoricalDataFetcher.Request symbol k :: post ->
  exists remaining_k,
    k + Z.of_nat remaining_k = n + Z.of_nat remaining
    /\ n <= k
    /\ fst (HistoricalDataFetcher.retry remaining_k k symbol fn) = HistoricalDataFetcher.Request symbol k :: post
    /\ snd (HistoricalDataFetcher.retry remaining_k k symbol fn)
       = snd (HistoricalDataFetcher.retry remaining n symbol fn).
Proof.
  revert n pre. induction remaining as [|r IH]; intros n pre Htrace.
  - destruct pre as [|x pre].
    + simpl in Htrace. exists 0%nat.
      assert (k = n) as ->.
      { simpl in Htrace. destruct (fn n) as [ev [a|e]];
          [|destruct (negb _)]; simpl in Htrace; congruence. }
      repeat split; [lia|exact Htrace].
    + exfalso. pose proof (fn_sleeps n) as Hs. simpl in Htrace.
      destruct (fn n) as [ev [a|e]]; [|destruct (negb _)]; simpl in *;
        injection Htrace as _ Htrace;
        exact (request_not_in_sleeps _ _ _ _ Hs Htrace).
  - destruct pre as [|x pre].
    + exists (S r).
      assert (k = n) as ->.
      { simpl in Htrace. destruct (fn n) as [ev [a|e]];
          [|destruct (negb _); [|destruct (HistoricalDataFetcher.retry r _ _ _)]];
          simpl in Htrace; congruence. }
      repeat split; [lia|exact Htrace].
    + pose proof (fn_sleeps n) as Hs. simpl in Htrace. simpl.
      destruct (fn n) as [ev [a|e]]; simpl in *.
      * exfalso. injection Htrace as _ Htrace.
        exact (request_not_in_sleeps _ _ _ _ Hs Htrace).
      * destruct (negb (HistoricalDataFetcher.retry_if_exception_type e)); simpl in *.
        { exfalso. injection Htrace as _ Htrace.
          exact (request_not_in_sleeps _ _ _ _ Hs Htrace). }
        specialize (IH (n + 1)).
        destruct (HistoricalDataFetcher.retry r (n + 1) symbol fn) as [ev' out'] eqn:Hrec.
        simpl in *. injection Htrace as _ Htrace.
        assert (Hs' : Forall is_sleep (ev ++ [HistoricalDataFetcher.Sleep (HistoricalDataFetcher.wait n)])).
        { apply Forall_app. split; [exact Hs|].
          apply Forall_cons. split; [eexists; reflexivity|constructor]. }
        replace (ev ++ HistoricalDataFetcher.Sleep (HistoricalDataFetcher.wait n) :: ev')
          with ((ev ++ [HistoricalDataFetcher.Sleep (HistoricalDataFetcher.wait n)]) ++ ev') in Htrace
          by (rewrite <- app_assoc; reflexivity).
        symmetry in Htrace.
        destruct (split_after_sleeps _ _ _ _ _ Hs' (request_not_sleep k) Htrace)
          as (pre' & _ & Hev').
        destruct (IH pre' Hev') as (rk & Hsum & Hle & Htr & Hout).
        exists rk. repeat split; [lia|lia|exact Htr|exact Hout].
Qed.

Lemma requests_app (l1 l2 : list HistoricalDataFetcher.Event) :
  requests (l1 ++ l2) = (requests l1 + requests l2)%nat.
Proof. unfold requests. rewrite List.filter_app, length_app. reflexivity. Qed.

Lemma requests_sleeps (s : list HistoricalDataFetcher.Event) :
  Forall is_sleep s -> requests s = 0%nat.
Proof.
  induction 1 as [|x s [sec ->] _ IH]; [reflexivity|]. exact IH.
Qed.

Lemma requests_request (k : Z) (l : list HistoricalDataFetcher.Event) :
  requests (HistoricalDataFetcher.Request symbol k :: l) = S (requests l).
Proof. reflexivity. Qed.

Lemma requests_sleep (seconds : Z) (l : list HistoricalDataFetcher.Event) :
  requests (HistoricalDataFetcher.Sleep seconds :: l) = requests l.
Proof. reflexivity. Qed.

(** The loop makes at most one request per attempt allowed. *)
Lemma retry_requests (remaining : nat) (n : Z) :
  (requests (fst (HistoricalDataFetcher.retry remaining n symbol fn)) <= S remaining)%nat.
Proof.
  revert n. induction remaining as [|r IH]; intros n;
    pose proof (fn_sleeps n) as Hs; simpl.
  - destruct (fn n) as [ev [a|e]]; [|destruct (negb _)]; simpl in *;
      rewrite requests_request, (requests_sleeps _ Hs); lia.
  - destruct (fn n) as [ev [a|e]]; [|destruct (negb _)]; simpl in *.
    1,2: rewrite requests_request, (requests_sleeps _ Hs); lia.
    specialize (IH (n + 1)).
    destruct (HistoricalDataFetcher.retry r (n + 1) symbol fn) as [ev' out']. simpl in *.
    rewrite requests_request, requests_app, (requests_sleeps _ Hs),
      requests_sleep.
    lia.
Qed.

(** What the loop returns was returned by one of the calls. *)
Lemma retry_returns (remaining : nat) (n : Z) (a : A) :
  snd (HistoricalDataFetcher.retry remaining n symbol fn) = Ok a ->
  exists k, snd (fn k) = Ok a.
Proof.
  revert n. induction remaining as [|r IH]; intros n; simpl.
  - destruct (fn n) as [ev [a'|e]] eqn:Hfn; [|destruct (negb _)]; simpl;
      try discriminate.
    intros [= <-]. exists n. rewrite Hfn. reflexivity.
  - destruct (fn n) as [ev [a'|e]] eqn:Hfn; [|destruct (negb _)]; simpl;
      try discriminate.
    + intros [= <-]. exists n. rewrite Hfn. reflexivity.
    + specialize (IH (n + 1)).
      destruct (HistoricalDataFetcher.retry r (n + 1) symbol fn) as [ev' out']. simpl in *.
      exact IH.
Qed.

End RetryFacts.

Section FetcherFacts.
Variable service : string -> Z -> HistoricalDataFetcher.Reply.

Lemma fetch_once_sleeps (symbol : string) (reply : HistoricalDataFetcher.Reply) :
  Forall is_sleep (fst (HistoricalDataFetcher.fetch_once symbol reply)).
Proof.
  destruct reply as [e|status body]; simpl; [constructor|].
  destruct (status =? 429); simpl; [|constructor].
  apply Forall_cons. split; [eexists; reflexivity|constructor].
Qed.

Lemma fetch_once_key (symbol : string) (reply : HistoricalDataFetcher.Reply)
    (s : string) (df : list SymbolData.Row) :
  snd (HistoricalDataFetcher.fetch_once symbol reply) = Ok (s, df) -> s = symbol.
Proof.
  destruct reply as [e|status body]; simpl; [discriminate|].
  destruct (status =? 429); simpl; [discriminate|].
  unfold HistoricalDataFetcher.raise_for_status. destruct (400 <=? status); simpl;
    [discriminate|].
  unfold HistoricalDataFetcher.json.
  destruct body as [| | |[[|row rows]|]];
    destruct (HistoricalDataFetcher.bodiless status); simpl; congruence.
Qed.

(** A rate-limit response and an error status both end the attempt with a
    [ClientError], the first after the cool-down. *)
Lemma fetch_once_refused (symbol : string) (status : Z) (body : HistoricalDataFetcher.Body) :
  status = 429 \/ 400 <= status ->
  HistoricalDataFetcher.fetch_once symbol (HistoricalDataFetcher.Response status body)
  = (if status =? 429 then [HistoricalDataFetcher.Sleep 60] else [], Raise ClientError).
Proof.
  intros Hst. simpl. destruct (status =? 429) eqn:H429; [reflexivity|].
  apply Z.eqb_neq in H429. destruct Hst as [?|Hge]; [contradiction|].
  unfold HistoricalDataFetcher.raise_for_status.
  apply Z.leb_le in Hge. rewrite Hge. reflexivity.
Qed.

Lemma retry_head {A} (remaining : nat) (n : Z) (symbol : string)
    (fn : Z -> list HistoricalDataFetcher.Event * res A) :
  exists rest,
    fst (HistoricalDataFetcher.retry remaining n symbol fn) = HistoricalDataFetcher.Request symbol n :: rest.
Proof.
  destruct remaining as [|r]; simpl;
    destruct (fn n) as [ev [a|e]]; simpl; try (eexists; reflexivity);
    destruct (negb _); simpl; try (eexists; reflexivity).
  destruct (HistoricalDataFetcher.retry r _ _ _). eexists. reflexivity.
Qed.

Lemma fetch_symbol_data_key (symbol s : string) (df : list SymbolData.Row) :
  snd (HistoricalDataFetcher.fetch_symbol_data service symbol) = Ok (s, df) -> s = symbol.
Proof.
  unfold HistoricalDataFetcher.fetch_symbol_data. intros Hok.
  apply retry_returns in Hok as [k Hk]. eapply fetch_once_key, Hk.
Qed.

Lemma wait_bounds (n : Z) :
  HistoricalDataFetcher.wait n = Z.max 4 (Z.min (2 ^ (n - 1)) 60) /\ 4 <= HistoricalDataFetcher.wait n <= 60.
Proof.
  unfold HistoricalDataFetcher.wait, HistoricalDataFetcher.wait_exponential.
  rewrite Z.mul_1_l. split; [reflexivity|]. lia.
Qed.

End FetcherFacts.

(** C9, as amended. For every batch fetch, a symbol has its frame in the
    result exactly when its own fetch returned it, whatever the other
    symbols met, so no failure fails the batch. Per symbol at most 5
    requests are made; a 429 response is followed by the fixed cool-down of
    60 seconds, and a 429 response or a response with a status of 400 or
    more raises and, before the fifth attempt, is retried after the wait
    [max(4, min(2^(n-1), 60))] seconds, between 4 and 60: 4, 4, 4 and 8
    seconds after the attempts 1 to 4; at the fifth attempt the fetch of the
    symbol fails. *)
Theorem fetch_retry_contract (service : string -> Z -> HistoricalDataFetcher.Reply) :
  (forall symbols sym df,
     (sym, df) ∈ HistoricalDataFetcher.fetch_historical_data service symbols
     <-> sym ∈ symbols
         /\ snd (HistoricalDataFetcher.fetch_symbol_data service sym) = Ok (sym, df))
  /\ (forall sym,
        (requests (fst (HistoricalDataFetcher.fetch_symbol_data service sym)) <= 5)%nat)
  /\ (forall sym n pre post status body,
        fst (HistoricalDataFetcher.fetch_symbol_data service sym)
        = pre ++ HistoricalDataFetcher.Request sym n :: post ->
        service sym n = HistoricalDataFetcher.Response status body ->
        status = 429 \/ 400 <= status ->
        let cool_down := if status =? 429 then [HistoricalDataFetcher.Sleep 60] else [] in
        1 <= n <= 5
        /\ if n <? 5
           then exists rest,
                  post = cool_down ++ HistoricalDataFetcher.Sleep (HistoricalDataFetcher.wait n)
                                   :: HistoricalDataFetcher.Request sym (n + 1) :: rest
           else post = cool_down
                /\ snd (HistoricalDataFetcher.fetch_symbol_data service sym) = Raise RetryError)
  /\ (forall n,
        HistoricalDataFetcher.wait n = Z.max 4 (Z.min (2 ^ (n - 1)) 60)
        /\ 4 <= HistoricalDataFetcher.wait n <= 60)
  /\ map HistoricalDataFetcher.wait [1; 2; 3; 4] = [4; 4; 4; 8].
Proof.
  split; [|split; [|split; [|split]]].
  - intros symbols sym df. unfold HistoricalDataFetcher.fetch_historical_data.
    rewrite list_elem_of_omap. split.
    + intros (result & Hin & Hres).
      apply list_elem_of_fmap in Hin as (s & -> & Hs).
      destruct (snd (HistoricalDataFetcher.fetch_symbol_data service s)) as [[s' df']|e] eqn:Hf;
        [|discriminate].
      injection Hres as -> ->.
      pose proof (fetch_symbol_data_key service _ _ _ Hf) as <-. auto.
    + intros [Hin Hok]. exists (Ok (sym, df)). split; [|reflexivity].
      apply list_elem_of_fmap. exists sym. auto.
  - intros sym. unfold HistoricalDataFetcher.fetch_symbol_data.
    apply (retry_requests sym _ (fun k => fetch_once_sleeps _ _)).
  - intros sym n pre post status body Htrace Hreply Hst cool_down.
    unfold HistoricalDataFetcher.fetch_symbol_data in *.
    set (fn := fun k => HistoricalDataFetcher.fetch_once sym (service sym k)) in *.
    destruct (retry_from_request sym fn (fun k => fetch_once_sleeps _ _)
                _ _ _ _ _ Htrace) as (rk & Hsum & Hle & Htr & Hout).
    change (Z.to_nat (HistoricalDataFetcher.max_attempt_number - 1)) with 4%nat in *.
    assert (Hfn : fn n = (cool_down, Raise ClientError)).
    { unfold fn. rewrite Hreply. apply fetch_once_refused, Hst. }
    split; [lia|].
    rewrite <- Hout. clear Hout Htrace.
    destruct rk as [|rk]; simpl in Htr |- *; rewrite Hfn in *; simpl in *.
    + assert (n = 5) as -> by lia. simpl.
      injection Htr as <-. auto.
    + destruct (Z.ltb_spec n 5) as [_|Hge]; [|lia].
      destruct (retry_head rk (n + 1) sym fn) as (rest & Hrest).
      destruct (HistoricalDataFetcher.retry rk (n + 1) sym fn) as [ev' out']. simpl in *.
      injection Htr as <-. subst ev'. exists rest. reflexivity.
  - apply wait_bounds.
  - reflexivity.
Qed.

(** The claim as stated fails on a response that is neither a success nor an
    error. The status 300 is not 2xx and not 429, aiohttp follows no
    redirect for it and [raise_for_status] lets it pass: with a JSON body
    the fetch returns after one request, without raising. The status 304
    passes too and has no body, so [response.json()] is [None] and the
    fetch raises [TypeError], which is not retried: one request. *)
Lemma other_status_not_retried :
  let bars := HistoricalDataFetcher.Json (Some [(1, 100.0%float)]) in
  ~ (200 <= 300 < 300) /\ 300 <> 429
  /\ HistoricalDataFetcher.fetch_symbol_data
       (fun _ _ => HistoricalDataFetcher.Response 300 bars) "AAPL"
     = ([HistoricalDataFetcher.Request "AAPL" 1], Ok ("AAPL", [(1, 100.0%float)]))
  /\ ~ (200 <= 304 < 300) /\ 304 <> 429
  /\ HistoricalDataFetcher.fetch_symbol_data
       (fun _ _ => HistoricalDataFetcher.Response 304 bars) "AAPL"
     = ([HistoricalDataFetcher.Request "AAPL" 1], Raise TypeError).
Proof. intros bars. repeat split; lia. Qed.

(** A service that answers 429, then 503, then the bars: two retries, the
    first after the cool-down and both after the shortest wait. *)
Lemma fetch_retry_example :
  let service : string -> Z -> HistoricalDataFetcher.Reply :=
    fun _ n =>
      if n =? 1 then HistoricalDataFetcher.Response 429 HistoricalDataFetcher.NotJson
      else if n =? 2 then HistoricalDataFetcher.Response 503 HistoricalDataFetcher.NotJson
      else HistoricalDataFetcher.Response 200 (HistoricalDataFetcher.Json (Some [(1, 100.0%float)])) in
  HistoricalDataFetcher.fetch_symbol_data service "AAPL"
  = ([HistoricalDataFetcher.Request "AAPL" 1; HistoricalDataFetcher.Sleep 60; HistoricalDataFetcher.Sleep 4;
      HistoricalDataFetcher.Request "AAPL" 2; HistoricalDataFetcher.Sleep 4;
      HistoricalDataFetcher.Request "AAPL" 3],
     Ok ("AAPL", [(1, 100.0%float)])).
Proof. reflexivity. Qed.

(** ** Further properties of the pipeline *)

(** X1. Every alert record [process_data] logs belongs to a result of the
    processor: the processor returned, for the series of the symbols of the
    call, a list holding a result whose "ALERT" line the record is, with
    the symbol, price, z-score, action, samples-ago, trend z-score and
    lambda of that result; and that result has [|zscore|] above
    [sigma_thresh] and a trend z-score with [|zscore_trend|] above
    [zscore_trend_thresh]. *)
Theorem alert_only_when_corroborated
    (processor : list SymbolData.t -> dict float -> res (list Result.t))
    (cm : ConfigManager.t) (new_prices : dict float) (w : StreamProcessor.World)
    (record : StreamProcessor.LogRecord) :
  record ∈ emitted (StreamProcessor.process_data processor cm new_prices) w ->
  is_alert record = true ->
  let batch :=
    omap (fun symbol =>
            SymbolDataManager.symbol_data (StreamProcessor.symbol_manager w) !! symbol)
      (dict_keys new_prices) in
  exists results result,
    processor batch new_prices = Ok results
    /\ result ∈ results
    /\ alert_of result record
    /\ corroborated cm result.
Proof.
  intros Hin Halert.
  exact (proj1 (process_data_effect processor cm new_prices w) record Hin Halert).
Qed.

(** The stream processor fed with the result of AAPL at 93.9, z-score
    -3.05 and trend z-score -2.5, under the thresholds 3.0 and 1.7: the
    line it logs is the line of that result. *)
Lemma alert_only_when_corroborated_witness :
  emitted (StreamProcessor.process_data (Sample.replay [Sample.sell_939])
             (Sample.thresholds 3.0 1.7) [("AAPL", 93.9%float)]) Sample.world
  = [StreamProcessor.ALERT "AAPL" 93.9 (-3.05) "Sell" (Some 1%nat) (-2.5) 60 93.9]
  /\ exists results result,
       Sample.replay [Sample.sell_939] [Sample.aapl] [("AAPL", 93.9%float)] = Ok results
       /\ result ∈ results
       /\ alert_of result
            (StreamProcessor.ALERT "AAPL" 93.9 (-3.05) "Sell" (Some 1%nat) (-2.5) 60 93.9)
       /\ corroborated (Sample.thresholds 3.0 1.7) result.
Proof.
  assert (Hlog : emitted (StreamProcessor.process_data (Sample.replay [Sample.sell_939])
                            (Sample.thresholds 3.0 1.7) [("AAPL", 93.9%float)]) Sample.world
                 = [StreamProcessor.ALERT "AAPL" 93.9 (-3.05) "Sell" (Some 1%nat) (-2.5) 60 93.9])
    by (vm_compute; reflexivity).
  split; [exact Hlog|].
  refine (alert_only_when_corroborated (Sample.replay [Sample.sell_939])
            (Sample.thresholds 3.0 1.7) [("AAPL", 93.9%float)] Sample.world
            (StreamProcessor.ALERT "AAPL" 93.9 (-3.05) "Sell" (Some 1%nat) (-2.5) 60 93.9)
            _ eq_refl).
  rewrite Hlog. left.
Defined.

Section DetectorResultFacts.
Context `{Numerics}.

(** The payload of a result of the detector always carries a trend
    z-score. *)
Lemma process_trend_zscore (cm : ConfigManager.t) (data : SymbolData.t)
    (new_price : float) (r : Result.t) (e : Result.Enriched) :
  ZScoreProcessor.process cm data new_price = Ok r ->
  Result.enriched r = Some e ->
  exists zt, Result.zscore_trend e = Some zt.
Proof.
  unfold ZScoreProcessor.process. destruct (fgt _ _); [|intros [= <-]; discriminate].
  destruct (ZScoreProcessor.process_data cm data new_price) as [pd|ex] eqn:Hpd;
    simpl; [|discriminate].
  intros [= <-]. simpl. intros [= <-]. simpl.
  destruct (process_data_last_action cm data new_price pd Hpd)
    as (df & Hdf & Hzt & _).
  destruct (build_frame_columns _ _ df Hdf) as (hp & _ & _ & _ & _ & _ & _ & Hlen).
  rewrite Hzt. rewrite length_app in Hlen. simpl in Hlen.
  destruct (ZScoreProcessor.col_zscore_trend df) as [|x l];
    [simpl in Hlen; lia|].
  simpl. destruct (last (x :: l)) as [zt|] eqn:Hlast; [eauto|].
  apply last_None in Hlast. discriminate.
Qed.

End DetectorResultFacts.

(** X2. For a result of the detector with its payload, the condition under
    which [process_data] of the stream processor calls [log_alert] is that
    [|zscore|] and [|zscore_trend|] exceed the thresholds the stream
    processor reads: the branch for an absent trend z-score is never
    taken. *)
Theorem detector_result_alert_condition `{Numerics}
    (detector_cm stream_cm : ConfigManager.t)
    (data : SymbolData.t) (new_price : float)
    (r : Result.t) (e : Result.Enriched) :
  ZScoreProcessor.process detector_cm data new_price = Ok r ->
  Result.enriched r = Some e ->
  (StreamProcessor.alert_condition stream_cm r = true <-> corroborated stream_cm r).
Proof.
  intros Hproc Henr.
  destruct (process_trend_zscore detector_cm data new_price r e Hproc Henr)
    as (zt & Hzt).
  unfold StreamProcessor.alert_condition, corroborated, Result.get.
  rewrite Henr. simpl. rewrite Hzt. rewrite andb_true_iff. split.
  - intros [Hz Ht]. split; [exact Hz|]. exists zt. auto.
  - intros [Hz (zt' & [= <-] & Ht)]. auto.
Qed.

Lemma detector_result_alert_condition_witness :
  StreamProcessor.alert_condition (Sample.thresholds 3.0 1.7) Sample.sell_result = true
  <-> corroborated (Sample.thresholds 3.0 1.7) Sample.sell_result.
Proof.
  refine (detector_result_alert_condition (Sample.thresholds 3.0 1.7)
            (Sample.thresholds 3.0 1.7) Sample.aapl 93.9
            Sample.sell_result Sample.sell_payload _ eq_refl).
  vm_compute. reflexivity.
Defined.

(** X3. A result without payload, which is what the detector returns below
    the sigma threshold, has no ['symbol'] key: the loop of [process_data]
    raises [KeyError] on it and changes nothing, the last processed price
    included. *)
Theorem result_without_payload_raises (cm : ConfigManager.t)
    (result : Result.t) (w : StreamProcessor.World) :
  Result.enriched result = None ->
  StreamProcessor.process_result cm result w = (Raise KeyError, w).
Proof.
  intros Hnone. unfold StreamProcessor.process_result, StreamProcessor.lift, Result.getitem,
    mbind, StreamProcessor.M_bind.
  rewrite Hnone. reflexivity.
Qed.

Lemma result_without_payload_raises_witness :
  ZScoreProcessor.process (Sample.thresholds 3.0 1.7) Sample.aapl 94.0
  = Ok Sample.quiet_940
  /\ StreamProcessor.process_result (Sample.thresholds 3.0 1.7) Sample.quiet_940 Sample.world
     = (Raise KeyError, Sample.world).
Proof.
  split; [vm_compute; reflexivity|].
  exact (result_without_payload_raises (Sample.thresholds 3.0 1.7)
           Sample.quiet_940 Sample.world eq_refl).
Defined.

(** X4. A symbol with a stored frame, that is with at least one fetched
    row, leaves the symbol set and the series in [initialize_symbol_data]
    exactly when a drop condition holds: fewer than 2 historical rows, fewer
    than 2 rows in the baseline session, a baseline deviation that is zero
    or nan, a last baseline price that is nan, or a baseline z-score of that
    price that is nan or infinite. *)
Theorem stored_symbol_dropped_iff `{Numerics} (valid_days : list Z)
    (self : SymbolDataManager.t) (sym : string) (data : SymbolData.t) :
  SymbolDataManager.symbol_data self !! sym = Some data ->
  sym ∈ SymbolDataManager.symbols self ->
  let self' := SymbolDataManager.initialize_symbol_data valid_days self in
  ((sym ∉ SymbolDataManager.symbols self') /\ SymbolDataManager.symbol_data self' !! sym = None)
  <-> drop_condition valid_days data.
Proof. apply calibrated_symbol. Qed.

Lemma stored_symbol_dropped_iff_witness :
  let self :=
    {| SymbolDataManager.symbols := {[ "MSFT" ]};
       SymbolDataManager.symbol_data := {[ "MSFT" := SymbolData.new "MSFT" [(2, 50.0%float)] ]};
       SymbolDataManager.last_processed_price := ∅;
       SymbolDataManager.price_trends := ∅ |} in
  let self' := SymbolDataManager.initialize_symbol_data Sample.valid_days self in
  ((("MSFT" : string) ∉ SymbolDataManager.symbols self')
   /\ SymbolDataManager.symbol_data self' !! "MSFT" = None)
  <-> drop_condition Sample.valid_days (SymbolData.new "MSFT" [(2, 50.0%float)]).
Proof.
  intros self self'.
  refine (stored_symbol_dropped_iff Sample.valid_days self "MSFT"
            (SymbolData.new "MSFT" [(2, 50.0%float)]) _ _).
  - vm_compute. reflexivity.
  - vm_compute. reflexivity.
Defined.

(** X5. [update_price_trends], for a symbol with a trend entry: the day high
    becomes the maximum of day high and price and the day low the minimum,
    whatever the action; a new action is stored with the price as extreme
    price; under an unchanged action the extreme price is extended to the
    minimum for 'buy' and to the maximum for 'sell', and left alone for any
    other action, "Buy" and "Sell" included. *)
Theorem update_price_trends_tracks (self : SymbolDataManager.t)
    (symbol : string) (current_price : float) (action : string) (t : Trend.t) :
  SymbolDataManager.price_trends self !! symbol = Some t ->
  exists t',
    trend_after_update self symbol current_price action = Ok (Some t')
    /\ Trend.day_high t'
       = Some (from_option (fun h => fmax h current_price) current_price
                 (Trend.day_high t))
    /\ Trend.day_low t'
       = Some (from_option (fun l => fmin l current_price) current_price
                 (Trend.day_low t))
    /\ (Trend.last_action t <> Some action ->
        Trend.last_action t' = Some action
        /\ Trend.extreme_price t' = Some current_price)
    /\ (Trend.last_action t = Some action ->
        Trend.last_action t' = Some action
        /\ (action = "buy" ->
            Trend.extreme_price t'
            = Some (from_option (fun e => fmin e current_price) current_price
                      (Trend.extreme_price t)))
        /\ (action = "sell" ->
            Trend.extreme_price t'
            = Some (from_option (fun e => fmax e current_price) current_price
                      (Trend.extreme_price t)))
        /\ (action <> "buy" -> action <> "sell" ->
            Trend.extreme_price t' = Trend.extreme_price t)).
Proof.
  intros Ht. unfold trend_after_update, SymbolDataManager.update_price_trends.
  rewrite Ht.
  match goal with
  | |- context [let '(_, _) := ?p in _] => set (pair := p)
  end.
  destruct pair as [la ep] eqn:Hpair. subst pair.
  unfold mbind, res_bind. cbn [SymbolDataManager.price_trends SymbolDataManager.set_price_trends].
  rewrite lookup_insert_eq. eexists. split; [reflexivity|].
  unfold fmax, fmin. cbn [Trend.day_high Trend.day_low Trend.last_action
                          Trend.extreme_price].
  split; [destruct (Trend.day_high t); reflexivity|].
  split; [destruct (Trend.day_low t); reflexivity|].
  destruct (bool_decide_reflect (Trend.last_action t = Some action)) as [Heq|Hne].
  - split; [contradiction|]. intros _.
    destruct (String.eqb_spec action "buy") as [->|Hb];
      [|destruct (String.eqb_spec action "sell") as [->|Hs]].
    + assert (Hla : la = Some "buy" /\
                    ep = Some (from_option
                                 (fun e => if flt current_price e
                                           then current_price else e)
                                 current_price (Trend.extreme_price t))).
      { destruct (Trend.extreme_price t) as [e|]; simpl in *;
          [destruct (flt current_price e)|]; injection Hpair as <- <-; auto. }
      destruct Hla as [-> ->].
      split; [reflexivity|]. split; [reflexivity|].
      split; [discriminate|]. intros Hb. contradiction.
    + assert (Hla : la = Some "sell" /\
                    ep = Some (from_option
                                 (fun e => if fgt current_price e
                                           then current_price else e)
                                 current_price (Trend.extreme_price t))).
      { destruct (Trend.extreme_price t) as [e|]; simpl in *;
          [destruct (fgt current_price e)|]; injection Hpair as <- <-; auto. }
      destruct Hla as [-> ->].
      split; [reflexivity|]. split; [discriminate|]. split; [reflexivity|].
      intros _ Hs. contradiction.
    + injection Hpair as <- <-.
      split; [exact Heq|]. split; [contradiction|]. split; [contradiction|].
      reflexivity.
  - injection Hpair as <- <-.
    split; [|contradiction]. intros _. split; reflexivity.
Qed.

Lemma update_price_trends_tracks_witness :
  exists t',
    trend_after_update Sample.manager "AAPL" 93.9 "Sell" = Ok (Some t')
    /\ Trend.day_high t' = Some 93.9%float
    /\ Trend.day_low t' = Some 93.9%float.
Proof.
  destruct (update_price_trends_tracks Sample.manager "AAPL" 93.9 "Sell"
              Trend.init ltac:(vm_compute; reflexivity))
    as (t' & Hupd & Hhigh & Hlow & _).
  exists t'. auto.
Defined.

(** X6. [log_alert] on a result whose action is the stored last action
    leaves the trend entry of the symbol as it was: the extreme price is not
    extended. *)
Theorem unchanged_action_keeps_trend (result : Result.t) (e : Result.Enriched)
    (w : StreamProcessor.World) (t : Trend.t) :
  Result.enriched result = Some e ->
  trend_of w (Result.symbol e) = Some t ->
  Trend.last_action t = Some (Result.action e) ->
  trend_of (snd (StreamProcessor.log_alert result w)) (Result.symbol e) = Some t.
Proof.
  intros Henr Ht Hact. unfold trend_of in *.
  unfold StreamProcessor.log_alert, StreamProcessor.lift, Result.getitem, mbind, StreamProcessor.M_bind,
    mret, StreamProcessor.M_ret, StreamProcessor.logging_info.
  rewrite Henr. cbn [fst snd].
  unfold StreamProcessor.getitem_price_trends. rewrite Ht. cbn [id].
  rewrite Hact. rewrite bool_decide_false by (intros Hne; apply Hne; reflexivity).
  rewrite Ht.
  destruct (StreamProcessor.format_alert _ _ _ _); exact Ht.
Qed.

Lemma unchanged_action_keeps_trend_witness :
  let w1 := snd (Sample.feed (Sample.thresholds 3.0 1.7) Sample.sell_930
                   Sample.world) in
  trend_of (snd (StreamProcessor.log_alert Sample.sell_939 w1)) "AAPL"
  = Some {| Trend.last_action := Some "Sell";
            Trend.extreme_price := Some 93.0%float;
            Trend.day_high := None;
            Trend.day_low := None |}.
Proof.
  intros w1.
  refine (unchanged_action_keeps_trend Sample.sell_939 _ w1
            {| Trend.last_action := Some "Sell";
               Trend.extreme_price := Some 93.0%float;
               Trend.day_high := None;
               Trend.day_low := None |} eq_refl _ eq_refl).
  vm_compute. reflexivity.
Defined.

(** ** The start-up: the window of [initialize_data] *)

Section CalendarFacts.
Variable p : Z -> bool.

Lemma filter_seqZ_ge (a : Z) (n : nat) (i : nat) (s : Z) :
  List.filter p (seqZ a (Z.of_nat n)) !! i = Some s -> a <= s < a + Z.of_nat n.
Proof.
  intros Hi. apply list_elem_of_lookup_2, list_elem_of_In, filter_In in Hi as [Hi _].
  apply list_elem_of_In, elem_of_seqZ in Hi. lia.
Qed.

(** The valid days from one of them on. *)
Lemma filter_seqZ_suffix (n : nat) (a : Z) (i : nat) (s : Z) :
  List.filter p (seqZ a (Z.of_nat n)) !! i = Some s ->
  List.filter p (seqZ s (a + Z.of_nat n - s)) = drop i (List.filter p (seqZ a (Z.of_nat n))).
Proof.
  revert a i. induction n as [|n IH]; intros a i Hi.
  - simpl in Hi. rewrite lookup_nil in Hi. discriminate.
  - rewrite (seqZ_cons a) in Hi |- * by lia.
    replace (Z.pred (Z.of_nat (S n))) with (Z.of_nat n) in * by lia.
    simpl in Hi |- *. destruct (p a) eqn:Hpa.
    + destruct i as [|i]; simpl in Hi |- *.
      * injection Hi as <-.
        replace (a + Z.of_nat (S n) - a) with (Z.of_nat (S n)) by lia.
        rewrite (seqZ_cons a) by lia.
        replace (Z.pred (Z.of_nat (S n))) with (Z.of_nat n) by lia.
        simpl. rewrite Hpa. reflexivity.
      * rewrite <- (IH _ _ Hi). f_equal. f_equal. lia.
    + rewrite <- (IH _ _ Hi). f_equal. f_equal. lia.
Qed.

(** The valid days up to one of them. *)
Lemma filter_seqZ_prefix (n : nat) (a : Z) (j : nat) (e : Z) :
  List.filter p (seqZ a (Z.of_nat n)) !! j = Some e ->
  List.filter p (seqZ a (e - a + 1)) = take (S j) (List.filter p (seqZ a (Z.of_nat n))).
Proof.
  revert a j. induction n as [|n IH]; intros a j Hj.
  - simpl in Hj. rewrite lookup_nil in Hj. discriminate.
  - pose proof (filter_seqZ_ge _ _ _ _ Hj) as Hge.
    rewrite (seqZ_cons a (Z.of_nat (S n))) in Hj |- * by lia.
    rewrite (seqZ_cons a (e - a + 1)) by lia.
    replace (Z.pred (Z.of_nat (S n))) with (Z.of_nat n) in * by lia.
    replace (Z.pred (e - a + 1)) with (e - Z.succ a + 1) by lia.
    simpl in Hj |- *. destruct (p a) eqn:Hpa.
    + destruct j as [|j]; simpl in Hj |- *.
      * injection Hj as <-. rewrite seqZ_nil by lia. reflexivity.
      * rewrite (IH _ _ Hj). reflexivity.
    + rewrite (IH _ _ Hj). reflexivity.
Qed.

(** The valid days of a range are increasing. *)
Lemma filter_seqZ_increasing (n : nat) (a : Z) (i j : nat) (s e : Z) :
  List.filter p (seqZ a (Z.of_nat n)) !! j = Some e ->
  List.filter p (seqZ a (Z.of_nat n)) !! i = Some s ->
  (j < i)%nat -> e < s.
Proof.
  intros Hj Hi Hlt.
  pose proof (filter_seqZ_suffix _ _ _ _ Hj) as Hsuf.
  pose proof (filter_seqZ_ge _ _ _ _ Hj) as He.
  assert (Hp : p e = true).
  { apply list_elem_of_lookup_2, list_elem_of_In, filter_In in Hj as [_ Hp]. exact Hp. }
  assert (Hi' : List.filter p (seqZ e (a + Z.of_nat n - e)) !! (i - j)%nat = Some s).
  { rewrite Hsuf, lookup_drop. rewrite <- Hi. f_equal. lia. }
  rewrite (seqZ_cons e) in Hi' by lia. simpl in Hi'. rewrite Hp in Hi'.
  destruct (i - j)%nat as [|d] eqn:Hd; [lia|]. simpl in Hi'.
  apply list_elem_of_lookup_2, list_elem_of_In, filter_In in Hi' as [Hin _].
  apply list_elem_of_In, elem_of_seqZ in Hin. lia.
Qed.

(** The valid days between two of the valid days of a range. *)
Lemma valid_days_slice (a b : Z) (i j : nat) (s e : Z) :
  Calendar.valid_days p a b !! i = Some s ->
  Calendar.valid_days p a b !! j = Some e ->
  Calendar.valid_days p s e
  = take (S j - i) (drop i (Calendar.valid_days p a b)).
Proof.
  unfold Calendar.valid_days. intros Hi Hj.
  destruct (Z.le_gt_cases (b - a + 1) 0) as [Hle|Hgt].
  { rewrite seqZ_nil in Hi by lia. simpl in Hi. rewrite lookup_nil in Hi. discriminate. }
  replace (b - a + 1) with (Z.of_nat (Z.to_nat (b - a + 1))) in * by lia.
  set (n := Z.to_nat (b - a + 1)) in *.
  pose proof (filter_seqZ_suffix _ _ _ _ Hi) as Hsuf.
  rewrite <- Hsuf.
  destruct (Nat.le_gt_cases i j) as [Hij|Hij].
  - assert (Hj' : List.filter p (seqZ s (a + Z.of_nat n - s)) !! (j - i)%nat = Some e).
    { rewrite Hsuf, lookup_drop. rewrite <- Hj. f_equal. lia. }
    pose proof (filter_seqZ_ge _ _ _ _ Hi) as Hs.
    replace (a + Z.of_nat n - s) with (Z.of_nat (Z.to_nat (a + Z.of_nat n - s))) in * by lia.
    rewrite (filter_seqZ_prefix _ _ _ _ Hj'). f_equal. lia.
  - replace (S j - i)%nat with 0%nat by lia. rewrite take_0.
    pose proof (filter_seqZ_increasing _ _ _ _ _ _ Hj Hi Hij).
    rewrite seqZ_nil by lia. reflexivity.
Qed.

End CalendarFacts.

Section WindowFacts.
Variable trading_day : Z -> bool.
Variable today : Z.

Lemma getitem_nonneg {A} (l : list A) (i : Z) :
  0 <= i -> Calendar.getitem l i = l !! Z.to_nat i.
Proof. intros Hi. unfold Calendar.getitem. destruct (Z.leb_spec 0 i); [reflexivity|lia]. Qed.

Lemma getitem_neg {A} (l : list A) (i : Z) :
  i < 0 ->
  Calendar.getitem l i
  = if - Z.of_nat (length l) <=? i then l !! (length l - Z.to_nat (- i))%nat else None.
Proof.
  intros Hi. unfold Calendar.getitem. destruct (Z.leb_spec 0 i); [lia|].
  destruct (Z.leb_spec (- Z.of_nat (length l)) i); [|reflexivity].
  f_equal. lia.
Qed.

Lemma last_valid_day_lookup (l : list Z) :
  SymbolDataManager.last_valid_day l = Calendar.getitem l (-2).
Proof.
  unfold SymbolDataManager.last_valid_day. rewrite getitem_neg by lia.
  destruct (Nat.ltb_spec 1 (length l)); destruct (Z.leb_spec (- Z.of_nat (length l)) (-2));
    try lia; reflexivity.
Qed.

End WindowFacts.

(** The window of the live mode: it ends today and holds the last [ndays]
    valid dates of the thirty days before. *)
Lemma live_window_days (trading_day : Z -> bool) (today : Z) (o : Startup.Options) :
  Startup.test_mode o = false ->
  1 <= Startup.ndays o ->
  let valid_dates := Calendar.valid_days trading_day (today - 30) today in
  match Startup.window trading_day today o with
  | None => valid_dates = []
  | Some (start_date, end_date) =>
      end_date = today
      /\ Calendar.valid_days trading_day start_date end_date
         = drop (length valid_dates - Z.to_nat (Startup.ndays o)) valid_dates
  end.
Proof.
  intros Hmode Hn valid_dates. unfold Startup.window. rewrite Hmode.
  fold valid_dates. set (n := length valid_dates).
  destruct (decide (n = 0%nat)) as [Hz|Hnz].
  { rewrite getitem_nonneg by lia.
    apply length_zero_iff_nil in Hz. rewrite Hz. reflexivity. }
  rewrite getitem_neg by lia. fold n.
  destruct (Z.leb_spec (- Z.of_nat n) (Z.max (- Z.of_nat n) (- Startup.ndays o))); [|lia].
  set (k := (n - Z.to_nat (- Z.max (- Z.of_nat n) (- Startup.ndays o)))%nat).
  assert (Hk : k = (n - Z.to_nat (Startup.ndays o))%nat) by lia.
  destruct (valid_dates !! k) as [start_date|] eqn:Hstart; simpl.
  2:{ apply lookup_ge_None in Hstart. fold n in Hstart. lia. }
  split; [reflexivity|]. rewrite <- Hk.
  unfold valid_dates, Calendar.valid_days in Hstart |- *.
  replace (today - (today - 30) + 1) with (Z.of_nat 31) in * by lia.
  rewrite <- (filter_seqZ_suffix _ _ _ _ _ Hstart). f_equal. f_equal. lia.
Qed.

(** X7. [initialize_data] in live mode, for [ndays] of at least 1: the
    window ends today and its valid days are the last [ndays] trading days
    of the thirty days up to today, today included when it is one; an
    [IndexError] is raised only when those thirty days hold no trading day.
    The baseline day [initialize_symbol_data] takes from the window,
    [valid_days[-2]], is then the trading day before the last one of those
    thirty days whatever [ndays] from 2 on, and with [ndays = 1] there is
    none. *)
Theorem live_window_baseline_day (trading_day : Z -> bool) (today : Z)
    (o : Startup.Options) :
  Startup.test_mode o = false ->
  1 <= Startup.ndays o ->
  let valid_dates := Calendar.valid_days trading_day (today - 30) today in
  match Startup.window trading_day today o with
  | None => valid_dates = []
  | Some (start_date, end_date) =>
      end_date = today
      /\ Calendar.valid_days trading_day start_date end_date
         = drop (length valid_dates - Z.to_nat (Startup.ndays o)) valid_dates
      /\ SymbolDataManager.last_valid_day
           (Calendar.valid_days trading_day start_date end_date)
         = if Startup.ndays o =? 1 then None else Calendar.getitem valid_dates (-2)
  end.
Proof.
  intros Hmode Hn valid_dates.
  pose proof (live_window_days trading_day today o Hmode Hn) as Hw.
  fold valid_dates in Hw.
  destruct (Startup.window trading_day today o) as [[start_date end_date]|];
    [|exact Hw].
  destruct Hw as [He Hvd]. split; [exact He|]. split; [exact Hvd|].
  rewrite Hvd, last_valid_day_lookup, !getitem_neg by lia.
  rewrite length_drop. set (n := length valid_dates).
  set (k := (n - Z.to_nat (Startup.ndays o))%nat).
  destruct (Z.eqb_spec (Startup.ndays o) 1) as [H1|H1].
  - destruct (Z.leb_spec (- Z.of_nat (n - k)) (-2)); [lia|reflexivity].
  - destruct (Z.leb_spec (- Z.of_nat (n - k)) (-2));
      destruct (Z.leb_spec (- Z.of_nat n) (-2)); try lia; [|reflexivity].
    rewrite lookup_drop. f_equal. lia.
Qed.

(** The calendar with closed days 5 and 6, on day 100, [ndays = 2]: the
    window is the days 99 and 100 and the baseline day is 99. *)
Lemma live_window_baseline_day_witness :
  Startup.window Scenario.weekdays Scenario.today (Scenario.live 2) = Some (99, 100)
  /\ (100 = Scenario.today
      /\ Calendar.valid_days Scenario.weekdays 99 100 = [99; 100]
      /\ SymbolDataManager.last_valid_day (Calendar.valid_days Scenario.weekdays 99 100)
         = Some 99).
Proof.
  split; [reflexivity|].
  exact (live_window_baseline_day Scenario.weekdays Scenario.today (Scenario.live 2)
           eq_refl ltac:(vm_compute; discriminate)).
Defined.

(** X8. [initialize_data] in test mode, for [ndays] and [days_ago] of at
    least 1: the window ends at the [days_ago]-th last trading day of the
    thirty days up to today and holds the [ndays + 1] trading days up to it,
    one more than in live mode, so that a baseline day exists already for
    [ndays = 1]: it is the trading day before the end of the window. An
    [IndexError] is raised exactly when there are fewer than [days_ago]
    trading days. *)
Theorem test_window_baseline_day (trading_day : Z -> bool) (today : Z)
    (o : Startup.Options) :
  Startup.test_mode o = true ->
  1 <= Startup.ndays o ->
  1 <= Startup.days_ago o ->
  let valid_dates := Calendar.valid_days trading_day (today - 30) today in
  let upto := take (length valid_dates - Z.to_nat (Startup.days_ago o - 1)) valid_dates in
  match Startup.window trading_day today o with
  | None => Z.of_nat (length valid_dates) < Startup.days_ago o
  | Some (start_date, end_date) =>
      last upto = Some end_date
      /\ Calendar.valid_days trading_day start_date end_date
         = drop (length upto - Z.to_nat (Startup.ndays o + 1)) upto
      /\ SymbolDataManager.last_valid_day
           (Calendar.valid_days trading_day start_date end_date)
         = Calendar.getitem valid_dates (- Startup.days_ago o - 1)
  end.
Proof.
  intros Hmode Hn Hd valid_dates upto. unfold Startup.window. rewrite Hmode.
  fold valid_dates. set (n := length valid_dates) in *.
  rewrite (getitem_neg _ (- Startup.days_ago o)) by lia. fold n.
  destruct (Z.leb_spec (- Z.of_nat n) (- Startup.days_ago o)) as [Hle|Hgt];
    [|simpl; lia].
  set (j := (n - Z.to_nat (- - Startup.days_ago o))%nat).
  destruct (valid_dates !! j) as [end_date|] eqn:Hend; simpl.
  2:{ apply lookup_ge_None in Hend. fold n in Hend. lia. }
  rewrite getitem_neg by lia. fold n.
  destruct (Z.leb_spec (- Z.of_nat n)
              (Z.max (- Z.of_nat n) (- Startup.ndays o - Startup.days_ago o))); [|lia].
  set (i := (n - Z.to_nat (- Z.max (- Z.of_nat n)
                               (- Startup.ndays o - Startup.days_ago o)))%nat).
  destruct (valid_dates !! i) as [start_date|] eqn:Hstart; simpl.
  2:{ apply lookup_ge_None in Hstart. fold n in Hstart. lia. }
  assert (Hupto : upto = take (S j) valid_dates).
  { unfold upto. f_equal. lia. }
  assert (Hlen : length upto = S j).
  { rewrite Hupto, length_take. fold n. lia. }
  split.
  { rewrite Hupto, last_lookup, length_take. fold n.
    replace (Nat.pred (S j `min` n)) with j by lia.
    rewrite lookup_take_lt by lia. exact Hend. }
  rewrite (valid_days_slice _ _ _ _ _ _ _ Hstart Hend).
  rewrite take_drop_commute.
  replace (i + (S j - i))%nat with (S j) by lia.
  fold valid_dates. rewrite <- Hupto.
  replace (length upto - Z.to_nat (Startup.ndays o + 1))%nat with i by lia.
  split; [reflexivity|].
  rewrite last_valid_day_lookup, !getitem_neg by lia.
  rewrite length_drop, Hlen. fold n.
  destruct (Z.leb_spec (- Z.of_nat (S j - i)) (-2));
    destruct (Z.leb_spec (- Z.of_nat n) (- Startup.days_ago o - 1));
    try lia; [|reflexivity].
  rewrite lookup_drop, Hupto, lookup_take_lt by lia. f_equal. lia.
Qed.

(** The same calendar and day, [ndays = 1] and [days_ago = 2]: the window
    is the days 98 and 99 and the baseline day is 98. *)
Lemma test_window_baseline_day_witness :
  Startup.window Scenario.weekdays Scenario.today (Scenario.replayed 1 2) = Some (98, 99)
  /\ (last (take 22 (Calendar.valid_days Scenario.weekdays 70 100)) = Some 99
      /\ Calendar.valid_days Scenario.weekdays 98 99 = [98; 99]
      /\ SymbolDataManager.last_valid_day (Calendar.valid_days Scenario.weekdays 98 99)
         = Some 98).
Proof.
  split; [reflexivity|].
  exact (test_window_baseline_day Scenario.weekdays Scenario.today (Scenario.replayed 1 2)
           eq_refl ltac:(vm_compute; discriminate) ltac:(vm_compute; discriminate)).
Defined.

Section StartupFacts.
Context `{Numerics}.

(** The series [initialize_symbol_data] keeps. *)
Lemma kept_baseline (valid_days : list Z) (data data' : SymbolData.t) :
  SymbolDataManager.kept valid_days data = Some data' ->
  let prices := baseline_session valid_days data in
  SymbolData.symbol data' = SymbolData.symbol data
  /\ SymbolData.full_prices data' = map snd (SymbolData.historical_data data)
  /\ (2 <= length (SymbolData.historical_data data))%nat
  /\ (2 <= length prices)%nat
  /\ SymbolData.baseline_prices data' = Some prices
  /\ SymbolData.baseline_mean data' = np_mean prices
  /\ SymbolData.baseline_std data' = np_std prices
  /\ feq (np_std prices) 0 = false
  /\ isnan (np_std prices) = false.
Proof.
  unfold SymbolDataManager.kept, SymbolDataManager.calibrate, baseline_session.
  destruct (bool_decide (SymbolData.historical_data data = [])); simpl orb;
    [discriminate|].
  destruct (Nat.ltb_spec (length (SymbolData.historical_data data)) 2) as [Hlt|Hge];
    [discriminate|].
  destruct (SymbolDataManager.last_valid_day valid_days) as [day|]; [|discriminate].
  match goal with
  | |- context [map snd ?rows] => set (prices := map snd rows)
  end.
  destruct (Nat.ltb_spec (length prices) 2) as [Hlt|Hge']; [discriminate|].
  destruct (last prices) as [last_price|]; [|discriminate].
  destruct (feq (np_std prices) 0) eqn:Hz; [discriminate|].
  destruct (isnan (np_std prices)) eqn:Hn; [discriminate|].
  destruct (isnan last_price); [discriminate|]. simpl.
  destruct (isnan _ || isinf _); [discriminate|].
  intros Hk. injection Hk as <-. simpl. auto 10.
Qed.

Lemma store_frames_lookup (historical_data : list (string * list SymbolData.Row))
    (sd : gmap string SymbolData.t) (sym : string) (data : SymbolData.t) :
  SymbolDataManager.store_frames historical_data sd !! sym = Some data ->
  sd !! sym = Some data
  \/ exists df, (sym, df) ∈ historical_data /\ df <> []
                /\ data = SymbolData.new sym df.
Proof.
  revert sd. induction historical_data as [|[s df] rest IH]; intros sd Hl.
  - left. exact Hl.
  - simpl in Hl. apply IH in Hl as [Hl|(df' & Hin & Hne & ->)].
    + destruct (bool_decide_reflect (df = [])) as [_|Hne]; [left; exact Hl|].
      destruct (decide (s = sym)) as [->|Hs].
      * rewrite lookup_insert_eq in Hl. injection Hl as <-.
        right. exists df. split; [left|auto].
      * rewrite lookup_insert_ne in Hl by exact Hs. left. exact Hl.
    + right. exists df'. split; [right; exact Hin|auto].
Qed.

Lemma omap_all_None {A B} (f : A -> option B) (m : gmap string A) :
  (forall a, f a = None) -> omap f m = ∅.
Proof.
  intros Hf. apply map_eq. intros k. rewrite lookup_omap, lookup_empty.
  destruct (m !! k); simpl; auto.
Qed.

Lemma kept_without_baseline_day (valid_days : list Z) (data : SymbolData.t) :
  SymbolDataManager.last_valid_day valid_days = None ->
  SymbolDataManager.kept valid_days data = None.
Proof.
  intros Hl. unfold SymbolDataManager.kept, SymbolDataManager.calibrate. rewrite Hl.
  destruct (_ || _); reflexivity.
Qed.

End StartupFacts.

(** X9. [initialize_data] in live mode with [ndays = 1]: the window holds
    one valid day, [initialize_symbol_data] finds no baseline day and
    removes every symbol it looks at, so that no series is left to
    process. *)
Theorem single_day_window_removes_all `{Numerics} (trading_day : Z -> bool)
    (service : Z -> Z -> string -> Z -> HistoricalDataFetcher.Reply) (today : Z)
    (o : Startup.Options) (self self' : SymbolDataManager.t) :
  Startup.test_mode o = false ->
  Startup.ndays o = 1 ->
  Startup.initialize_data trading_day service today o self = Some self' ->
  SymbolDataManager.symbol_data self' = ∅.
Proof.
  intros Hmode Hn. unfold Startup.initialize_data.
  pose proof (live_window_days trading_day today o Hmode ltac:(lia)) as Hw.
  destruct (Startup.window trading_day today o) as [[start_date end_date]|];
    [|discriminate].
  simpl. destruct Hw as (_ & Hvd).
  intros Hs. injection Hs as <-.
  unfold SymbolDataManager.initialize_data, SymbolDataManager.initialize_symbol_data. simpl.
  apply omap_all_None. intros data. apply kept_without_baseline_day.
  rewrite Hvd. unfold SymbolDataManager.last_valid_day. rewrite length_drop, Hn.
  match goal with
  | |- context [(1 <? ?n)%nat] => destruct (Nat.ltb_spec 1 n); [lia|reflexivity]
  end.
Qed.

(** The sample service and calendar on day 100 with [ndays = 1]: AAPL,
    kept with [ndays = 2], is removed. *)
Lemma single_day_window_removes_all_witness :
  let self := SymbolDataManager.init {[ "AAPL"; "MSFT" ]} in
  let self' :=
    SymbolDataManager.initialize_data
      [("AAPL", [(99, 98.0%float); (99, 102.0%float); (99, 99.0%float);
                 (99, 101.0%float); (100, 100.0%float)]);
       ("MSFT", [])] [100] self in
  Startup.initialize_data Scenario.weekdays Scenario.service Scenario.today
    (Scenario.live 1) self = Some self'
  /\ SymbolDataManager.symbol_data self' = ∅.
Proof.
  intros self self'.
  assert (Hrun : Startup.initialize_data Scenario.weekdays Scenario.service
                   Scenario.today (Scenario.live 1) self = Some self')
    by (vm_compute; reflexivity).
  split; [exact Hrun|].
  exact (single_day_window_removes_all Scenario.weekdays Scenario.service Scenario.today
           (Scenario.live 1) self self' eq_refl eq_refl Hrun).
Defined.

Lemma fetch_historical_data_elem (service : string -> Z -> HistoricalDataFetcher.Reply)
    (symbols : list string) (sym : string) (df : list SymbolData.Row) :
  (sym, df) ∈ HistoricalDataFetcher.fetch_historical_data service symbols ->
  sym ∈ symbols
  /\ snd (HistoricalDataFetcher.fetch_symbol_data service sym) = Ok (sym, df).
Proof.
  unfold HistoricalDataFetcher.fetch_historical_data.
  rewrite list_elem_of_omap. intros (result & Hin & Hres).
  apply list_elem_of_fmap in Hin as (s & -> & Hs).
  destruct (snd (HistoricalDataFetcher.fetch_symbol_data service s)) as [[s' df']|e] eqn:Hf;
    [|discriminate].
  injection Hres as -> ->.
  pose proof (fetch_symbol_data_key service _ _ _ Hf) as <-. auto.
Qed.

Lemma process_zscore `{Numerics} (cm : ConfigManager.t) (data : SymbolData.t)
    (new_price : float) (r : Result.t) :
  feq (SymbolData.baseline_std data) 0 = false ->
  ZScoreProcessor.process cm data new_price = Ok r ->
  Result.zscore r = zscore_of data new_price.
Proof.
  intros Hstd. unfold ZScoreProcessor.process. rewrite Hstd.
  fold (zscore_of data new_price).
  destruct (fgt _ _).
  - destruct (ZScoreProcessor.process_data cm data new_price); simpl; [|discriminate].
    intros Hr. injection Hr as <-. reflexivity.
  - intros Hr. injection Hr as <-. reflexivity.
Qed.

(** X10. After [initialize_data] on a manager fresh from [__init__], every
    series kept is stored under its own symbol, which is still in the symbol
    set and has its trend entry with all four values [None]; it has at
    least two closes, a baseline of at least two prices with their mean and
    deviation, and a deviation that is neither zero nor nan, so that
    [process] never takes its zero-deviation branch on it: the z-score it
    returns is [(new_price - baseline_mean) / baseline_std]. *)
Theorem calibrated_series_ready `{Numerics} (trading_day : Z -> bool)
    (service : Z -> Z -> string -> Z -> HistoricalDataFetcher.Reply) (today : Z)
    (o : Startup.Options) (syms : gset string) (m : SymbolDataManager.t) :
  Startup.initialize_data trading_day service today o (SymbolDataManager.init syms)
  = Some m ->
  forall sym data,
    SymbolDataManager.symbol_data m !! sym = Some data ->
    sym ∈ SymbolDataManager.symbols m
    /\ SymbolDataManager.price_trends m !! sym = Some Trend.init
    /\ SymbolData.symbol data = sym
    /\ (2 <= length (SymbolData.full_prices data))%nat
    /\ (exists prices,
          SymbolData.baseline_prices data = Some prices
          /\ (2 <= length prices)%nat
          /\ SymbolData.baseline_mean data = np_mean prices
          /\ SymbolData.baseline_std data = np_std prices)
    /\ feq (SymbolData.baseline_std data) 0 = false
    /\ isnan (SymbolData.baseline_std data) = false
    /\ forall cm new_price r,
         ZScoreProcessor.process cm data new_price = Ok r ->
         Result.zscore r = zscore_of data new_price.
Proof.
  unfold Startup.initialize_data.
  destruct (Startup.window trading_day today o) as [[start_date end_date]|];
    [|discriminate].
  simpl. intros Hm sym data Hdata. injection Hm as <-.
  unfold SymbolDataManager.initialize_data in Hdata |- *.
  rewrite initialize_symbol_data_lookup in Hdata. simpl in Hdata.
  destruct (SymbolDataManager.store_frames _ _ !! sym) as [stored|] eqn:Hstored;
    [|discriminate].
  simpl in Hdata. pose proof Hstored as Hst.
  apply store_frames_lookup in Hstored as [Hstored|(df & Hin & Hne & Heq)].
  { rewrite lookup_empty in Hstored. discriminate. }
  subst stored.
  apply fetch_historical_data_elem in Hin as [Hin _].
  apply elem_of_elements in Hin.
  pose proof Hdata as Hkept.
  apply kept_baseline in Hdata
    as (Hsym & Hfull & Hrows & Hlen & Hbase & Hmean & Hstd & Hz & Hn).
  simpl in Hsym, Hfull, Hrows.
  split; [|split; [|split; [|split; [|split; [|split; [|split]]]]]].
  - apply initialize_symbol_data_symbols. simpl. split; [exact Hin|].
    intros (data' & Hd' & Hrem). rewrite Hst in Hd'. injection Hd' as <-.
    unfold SymbolDataManager.kept in Hkept. unfold SymbolDataManager.removed in Hrem.
    rewrite Hrem in Hkept. discriminate.
  - simpl. apply lookup_gset_to_gmap_Some. auto.
  - exact Hsym.
  - rewrite Hfull, length_map. exact Hrows.
  - eexists. eauto.
  - rewrite Hstd. exact Hz.
  - rewrite Hstd. exact Hn.
  - intros cm new_price r. apply process_zscore. rewrite Hstd. exact Hz.
Qed.

(** The sample service and calendar on day 100 with [ndays = 2]. *)
Lemma calibrated_series_ready_witness :
  let self' :=
    SymbolDataManager.initialize_data
      [("AAPL", [(99, 98.0%float); (99, 102.0%float); (99, 99.0%float);
                 (99, 101.0%float); (100, 100.0%float)]);
       ("MSFT", [])] [99; 100] (SymbolDataManager.init {[ "AAPL"; "MSFT" ]}) in
  Startup.initialize_data Scenario.weekdays Scenario.service Scenario.today
    (Scenario.live 2) (SymbolDataManager.init {[ "AAPL"; "MSFT" ]}) = Some self'
  /\ (SymbolData.full_prices <$> SymbolDataManager.symbol_data self' !! "AAPL")
     = Some [98.0; 102.0; 99.0; 101.0; 100.0]%float
  /\ forall sym data,
       SymbolDataManager.symbol_data self' !! sym = Some data ->
       sym ∈ SymbolDataManager.symbols self'
       /\ SymbolDataManager.price_trends self' !! sym = Some Trend.init
       /\ SymbolData.symbol data = sym
       /\ (2 <= length (SymbolData.full_prices data))%nat
       /\ (exists prices,
             SymbolData.baseline_prices data = Some prices
             /\ (2 <= length prices)%nat
             /\ SymbolData.baseline_mean data = np_mean prices
             /\ SymbolData.baseline_std data = np_std prices)
       /\ feq (SymbolData.baseline_std data) 0 = false
       /\ isnan (SymbolData.baseline_std data) = false
       /\ forall cm new_price r,
            ZScoreProcessor.process cm data new_price = Ok r ->
            Result.zscore r = zscore_of data new_price.
Proof.
  intros self'.
  assert (Hrun : Startup.initialize_data Scenario.weekdays Scenario.service
                   Scenario.today (Scenario.live 2)
                   (SymbolDataManager.init {[ "AAPL"; "MSFT" ]}) = Some self')
    by (vm_compute; reflexivity).
  split; [exact Hrun|]. split; [vm_compute; reflexivity|].
  exact (calibrated_series_ready Scenario.weekdays Scenario.service Scenario.today
           (Scenario.live 2) {[ "AAPL"; "MSFT" ]} self' Hrun).
Defined.

(** ** The listener: [handle_message] *)

Section KeepsFacts.
Context {B : Type}.
Variable f : StreamProcessor.World -> B.

Lemma keeps_ret {A} (a : A) : keeps f (mret a : StreamProcessor.M A).
Proof. intros w. reflexivity. Qed.

Lemma keeps_lift {A} (r : res A) : keeps f (StreamProcessor.lift r).
Proof. intros w. reflexivity. Qed.

Lemma keeps_getitem_price_trends (symbol : string) :
  keeps f (StreamProcessor.getitem_price_trends symbol).
Proof.
  intros w. unfold StreamProcessor.getitem_price_trends.
  destruct (_ !! symbol); reflexivity.
Qed.

Lemma keeps_bind {A A'} (m : StreamProcessor.M A) (k : A -> StreamProcessor.M A') :
  keeps f m -> (forall a, keeps f (k a)) -> keeps f (m ≫= k).
Proof.
  intros Hm Hk w. unfold mbind, StreamProcessor.M_bind.
  specialize (Hm w). destruct (m w) as [[a|e] w1]; simpl in *.
  - rewrite (Hk a w1). exact Hm.
  - exact Hm.
Qed.

Lemma keeps_bind_lift {A A'} (r : res A) (k : A -> StreamProcessor.M A') :
  (forall a, r = Ok a -> keeps f (k a)) -> keeps f (StreamProcessor.lift r ≫= k).
Proof.
  intros Hk w. unfold mbind, StreamProcessor.M_bind, StreamProcessor.lift.
  destruct r as [a|e]; [apply (Hk a eq_refl)|reflexivity].
Qed.

(** [log_alert] keeps what its two writes, to the trend entry of the symbol
    and to the log, keep. *)
Lemma keeps_log_alert (result : Result.t) :
  (forall symbol t,
     Result.getitem Result.symbol result = Ok symbol ->
     keeps f (StreamProcessor.setitem_price_trends symbol t)) ->
  (forall record, keeps f (StreamProcessor.logging_info record)) ->
  keeps f (StreamProcessor.log_alert result).
Proof.
  intros Hset Hlog. unfold StreamProcessor.log_alert.
  apply keeps_bind_lift. intros symbol Hsym.
  apply keeps_bind; [apply keeps_getitem_price_trends|]. intros current_trend.
  apply keeps_bind; [apply keeps_lift|]. intros e.
  apply keeps_bind.
  { destruct (bool_decide _); [|apply keeps_ret].
    apply keeps_bind; [|intros; apply Hset, Hsym].
    destruct (Trend.extreme_price current_trend); [|apply keeps_ret].
    apply keeps_bind; [apply keeps_lift|]. intros. apply Hlog. }
  intros _.
  apply keeps_bind; [apply keeps_getitem_price_trends|]. intros.
  apply keeps_bind; [apply keeps_lift|]. intros. apply Hlog.
Qed.

End KeepsFacts.

Section LastPriceFacts.
Variable cm : ConfigManager.t.

(** One turn of the loop records the price of a result with its payload, or
    records nothing. *)
Lemma process_result_last_price (result : Result.t) (w : StreamProcessor.World) :
  let w' := snd (StreamProcessor.process_result cm result w) in
  last_prices w' = last_prices w
  \/ exists e, Result.enriched result = Some e
               /\ last_prices w'
                  = <[Result.symbol e := Result.latest_price result]> (last_prices w).
Proof.
  intros w'. subst w'. unfold StreamProcessor.process_result.
  unfold mbind at 1. unfold StreamProcessor.M_bind, StreamProcessor.lift, Result.getitem.
  destruct (Result.enriched result) as [e|] eqn:Henr; [|left; reflexivity].
  unfold mbind, StreamProcessor.M_bind.
  assert (Hk : keeps last_prices
                 (if StreamProcessor.alert_condition cm result
                  then StreamProcessor.log_alert result else mret tt)).
  { destruct (StreamProcessor.alert_condition cm result); [|apply keeps_ret].
    apply keeps_log_alert; intros; intros w0; reflexivity. }
  specialize (Hk w).
  destruct ((if StreamProcessor.alert_condition cm result
             then StreamProcessor.log_alert result else mret tt) w) as [[[]|ex] w1];
    simpl in Hk |- *.
  - right. exists e. split; [reflexivity|].
    unfold last_prices in Hk |- *. simpl. rewrite Hk. reflexivity.
  - left. exact Hk.
Qed.

Lemma for_each_last_price (results : list Result.t) (w : StreamProcessor.World)
    (sym : string) (x : float) :
  last_price_of (snd (StreamProcessor.for_each cm results w)) sym = Some x ->
  last_price_of w sym = Some x
  \/ exists result e,
       result ∈ results /\ Result.enriched result = Some e
       /\ Result.symbol e = sym /\ Result.latest_price result = x.
Proof.
  revert w. induction results as [|result results IH]; intros w; [left; assumption|].
  simpl StreamProcessor.for_each. unfold mbind, StreamProcessor.M_bind.
  pose proof (process_result_last_price result w) as Hstep. simpl in Hstep.
  destruct (StreamProcessor.process_result cm result w) as [[[]|ex] w1]; simpl in Hstep |- *.
  - intros Hl. apply IH in Hl as [Hl|(r & e & Hin & He & Hs & Hx)].
    + unfold last_price_of in Hl |- *.
      destruct Hstep as [Heq|(e & He & Heq)]; rewrite Heq in Hl; [left; exact Hl|].
      destruct (decide (Result.symbol e = sym)) as [Hs|Hs].
      * rewrite Hs, lookup_insert_eq in Hl. injection Hl as Hl.
        right. exists result, e. split; [left|auto].
      * rewrite lookup_insert_ne in Hl by exact Hs. left. exact Hl.
    + right. exists r, e. split; [right; exact Hin|auto].
  - unfold last_price_of. intros Hl.
    destruct Hstep as [Heq|(e & He & Heq)]; rewrite Heq in Hl; [left; exact Hl|].
    destruct (decide (Result.symbol e = sym)) as [Hs|Hs].
    + rewrite Hs, lookup_insert_eq in Hl. injection Hl as Hl.
      right. exists result, e. split; [left|auto].
    + rewrite lookup_insert_ne in Hl by exact Hs. left. exact Hl.
Qed.

End LastPriceFacts.

Section PipelineFacts.
Context `{Numerics}.
Variable cm : ConfigManager.t.

(** A pool of at least one worker raises on every batch; one of less is
    refused by [array_split]. *)
Lemma pipeline_pool_raises (n : Z) (symbol_data_list : list SymbolData.t)
    (new_prices : dict float) :
  DataStreamManager.process_data (pipeline cm (Some n)) symbol_data_list new_prices
  = Raise (if n <=? 0 then ValueError else TypeError).
Proof.
  unfold DataStreamManager.process_data, pipeline. simpl.
  destruct (Z.leb_spec n 0) as [Hn|Hn].
  - unfold ParallelProcessor.process_symbols, ParallelProcessor.array_split. simpl.
    destruct (Z.leb_spec n 0); [reflexivity|lia].
  - apply process_symbols_raises. simpl. lia.
Qed.

(** With or without a pool, a returned result list is the one of the plain
    loop. *)
Lemma pipeline_results (workers : option Z) (symbol_data_list : list SymbolData.t)
    (new_prices : dict float) (results : list Result.t) :
  DataStreamManager.process_data (pipeline cm workers) symbol_data_list new_prices
  = Ok results ->
  DataStreamManager.process_each cm symbol_data_list new_prices = Ok results.
Proof.
  destruct workers as [n|].
  - rewrite pipeline_pool_raises. discriminate.
  - unfold DataStreamManager.process_data, pipeline. simpl. auto.
Qed.

Lemma process_each_elem (symbol_data_list : list SymbolData.t)
    (new_prices : dict float) (results : list Result.t) (r : Result.t) :
  DataStreamManager.process_each cm symbol_data_list new_prices = Ok results ->
  r ∈ results ->
  exists data x,
    data ∈ symbol_data_list
    /\ dict_get new_prices (SymbolData.symbol data) = Some x
    /\ ZScoreProcessor.process cm data x = Ok r.
Proof.
  revert results. induction symbol_data_list as [|d l IH]; intros results; simpl.
  - intros Hr. injection Hr as <-. intros Hin. apply elem_of_nil in Hin. contradiction.
  - destruct (dict_get new_prices (SymbolData.symbol d)) as [x|] eqn:Hx.
    + destruct (ZScoreProcessor.process cm d x) as [r0|] eqn:Hp; simpl; [|discriminate].
      destruct (DataStreamManager.process_each cm l new_prices) as [rs|] eqn:Hrs; simpl;
        [|discriminate].
      intros Hr. injection Hr as <-. intros Hin.
      apply elem_of_cons in Hin as [->|Hin].
      * exists d, x. split; [left|auto].
      * destruct (IH rs eq_refl Hin) as (data & x' & Hd & Hg & Hpr).
        exists data, x'. split; [right; exact Hd|auto].
    + intros Hr Hin. destruct (IH results Hr Hin) as (data & x' & Hd & Hg & Hpr).
      exists data, x'. split; [right; exact Hd|auto].
Qed.

(** A result with its payload was above the sigma threshold. *)
Lemma process_payload (data : SymbolData.t) (x : float) (r : Result.t)
    (e : Result.Enriched) :
  ZScoreProcessor.process cm data x = Ok r ->
  Result.enriched r = Some e ->
  feq (SymbolData.baseline_std data) 0 = false
  /\ fgt (fabs (zscore_of data x)) (ConfigManager.get_sigma_thresh cm 30.0) = true
  /\ Result.symbol e = SymbolData.symbol data
  /\ Result.latest_price r = x.
Proof.
  intros Hp He.
  destruct (feq (SymbolData.baseline_std data) 0) eqn:Hstd.
  { rewrite process_zero_std in Hp by exact Hstd. injection Hp as <-. discriminate. }
  destruct (fgt (fabs (zscore_of data x)) (ConfigManager.get_sigma_thresh cm 30.0)) eqn:Hgt.
  2:{ rewrite process_below in Hp by assumption. injection Hp as <-. discriminate. }
  pose proof (process_above cm data x Hstd Hgt) as Ha.
  destruct (ZScoreProcessor.process_data cm data x) as [pd|ex].
  - destruct Ha as (e' & Heq & Hpay). rewrite Heq in Hp. injection Hp as <-.
    simpl in He. injection He as <-. destruct Hpay as (Hs & _). auto.
  - rewrite Ha in Hp. discriminate.
Qed.

Lemma dict_get_singleton (s k : string) (x y : float) :
  dict_get [(s, x)] k = Some y -> k = s /\ y = x.
Proof.
  unfold dict_get. simpl. destruct (String.eqb_spec s k) as [->|]; simpl; [|discriminate].
  intros Hy. injection Hy as <-. auto.
Qed.

End PipelineFacts.

Lemma process_data_last_price
    (processor : list SymbolData.t -> dict float -> res (list Result.t))
    (cm : ConfigManager.t) (new_prices : dict float) (w : StreamProcessor.World)
    (sym : string) (x : float) :
  last_price_of (snd (StreamProcessor.process_data processor cm new_prices w)) sym = Some x ->
  last_price_of w sym = Some x
  \/ exists results result e,
       processor
         (omap (fun symbol =>
                  SymbolDataManager.symbol_data (StreamProcessor.symbol_manager w) !! symbol)
            (dict_keys new_prices)) new_prices = Ok results
       /\ result ∈ results /\ Result.enriched result = Some e
       /\ Result.symbol e = sym /\ Result.latest_price result = x.
Proof.
  unfold StreamProcessor.process_data.
  unfold mbind, StreamProcessor.M_bind, StreamProcessor.lift.
  destruct (processor _ new_prices) as [results|ex]; simpl; [|auto].
  intros Hl. apply for_each_last_price in Hl as [Hl|(r & e & Hr)]; [auto|].
  right. exists results, r, e. auto.
Qed.

Lemma logged_fst (m : StreamProcessor.M unit) (w : StreamProcessor.World) :
  fst (Listener.logged m w) = snd (m w).
Proof. unfold Listener.logged. destruct (m w) as [[[]|ex] w1]; reflexivity. Qed.

(** X11. Whatever the message, the stream type and the pool,
    [handle_message] records a last processed price only for a tick on a
    symbol with a series whose deviation is not zero and whose z-score at
    that price exceeds [sigma_thresh] in absolute value: a price recorded
    for a symbol after the message was recorded before it or is the price
    of such a tick. *)
Theorem last_price_only_above_threshold `{Numerics}
    (json_loads : string -> option Json.value) (stream_type : string)
    (cm : ConfigManager.t) (workers : option Z) (message : string)
    (w w' : StreamProcessor.World) (errors : list Listener.ErrorRecord) :
  Listener.handle_message json_loads
    (DataStreamManager.process_data (pipeline cm workers)) stream_type cm message w
  = Some (w', errors) ->
  forall sym x,
    last_price_of w' sym = Some x ->
    last_price_of w sym = Some x
    \/ exists data,
         SymbolDataManager.symbol_data (StreamProcessor.symbol_manager w) !! sym = Some data
         /\ feq (SymbolData.baseline_std data) 0 = false
         /\ fgt (fabs (zscore_of data x)) (ConfigManager.get_sigma_thresh cm 30.0) = true.
Proof.
  intros Hh sym x Hl.
  assert (Hstep : forall key data,
            Listener.process_keyed (DataStreamManager.process_data (pipeline cm workers))
              cm key data ≫= (fun m => Some (Listener.logged m w)) = Some (w', errors) ->
            last_price_of w sym = Some x
            \/ exists data,
                 SymbolDataManager.symbol_data (StreamProcessor.symbol_manager w) !! sym
                 = Some data
                 /\ feq (SymbolData.baseline_std data) 0 = false
                 /\ fgt (fabs (zscore_of data x)) (ConfigManager.get_sigma_thresh cm 30.0)
                    = true).
  { intros key items Hm. unfold Listener.process_keyed in Hm.
    destruct (dict_get items "S") as [symbol|];
      [|vm_compute in Hm; simplify_eq; auto].
    destruct (dict_get items key) as [price|];
      [|vm_compute in Hm; simplify_eq; auto].
    unfold Listener.process_tick in Hm.
    destruct symbol as [| | |s| |]; try discriminate.
    destruct price as [| |p| | |]; try discriminate.
    simpl in Hm. injection Hm as Hw.
    pose proof (logged_fst
      (StreamProcessor.process_data
         (DataStreamManager.process_data (pipeline cm workers)) cm [(s, p)]) w) as Hf.
    rewrite Hw in Hf. simpl in Hf. rewrite Hf in Hl.
    apply process_data_last_price in Hl as [Hl|(results & r & e & Hp & Hin & He & Hs & Hx)];
      [auto|].
    right. simpl in Hp. apply pipeline_results in Hp.
    destruct (process_each_elem cm _ _ _ _ Hp Hin) as (data & x' & Hd & Hg & Hpr).
    apply dict_get_singleton in Hg as [Hsym ->].
    destruct (process_payload cm _ _ _ _ Hpr He) as (Hstd & Hgt & Hse & Hlp).
    destruct (SymbolDataManager.symbol_data (StreamProcessor.symbol_manager w) !! s)
      as [d|] eqn:Hsd; simpl in Hd; [|apply elem_of_nil in Hd; contradiction].
    apply list_elem_of_singleton in Hd as ->.
    assert (sym = s) as -> by congruence.
    assert (x = p) as -> by congruence.
    exists d. auto. }
  unfold Listener.handle_message in Hh.
  destruct (json_loads message) as [[| | | | |items]|];
    try (simplify_eq; auto; fail).
  destruct (Json.truthy _ && Json.truthy _); [|simplify_eq; auto].
  unfold Listener.process_trade, Listener.process_bar in Hh.
  destruct (_ && _); [exact (Hstep _ _ Hh)|].
  destruct (_ && _); [exact (Hstep _ _ Hh)|].
  simplify_eq. auto.
Qed.

(** The trade of AAPL at 93.9 on the sample world, thresholds 3.0 and 1.7:
    the price is recorded, and its z-score is -3.0499999999999972. *)
Lemma last_price_only_above_threshold_witness :
  Listener.handle_message Scenario.json_loads
    (DataStreamManager.process_data (pipeline (Sample.thresholds 3.0 1.7) None))
    "trades" (Sample.thresholds 3.0 1.7) "AAPL 93.9" Sample.world
  = Some (Scenario.alerted, [])
  /\ last_price_of Scenario.alerted "AAPL" = Some 93.9%float
  /\ (last_price_of Sample.world "AAPL" = Some 93.9%float
      \/ exists data,
           SymbolDataManager.symbol_data (StreamProcessor.symbol_manager Sample.world)
             !! "AAPL" = Some data
           /\ feq (SymbolData.baseline_std data) 0 = false
           /\ fgt (fabs (zscore_of data 93.9))
                (ConfigManager.get_sigma_thresh (Sample.thresholds 3.0 1.7) 30.0) = true).
Proof.
  assert (Hrun : Listener.handle_message Scenario.json_loads
            (DataStreamManager.process_data (pipeline (Sample.thresholds 3.0 1.7) None))
            "trades" (Sample.thresholds 3.0 1.7) "AAPL 93.9" Sample.world
          = Some (Scenario.alerted, [])) by (vm_compute; reflexivity).
  assert (Hl : last_price_of Scenario.alerted "AAPL" = Some 93.9%float)
    by (vm_compute; reflexivity).
  split; [exact Hrun|]. split; [exact Hl|].
  exact (last_price_only_above_threshold Scenario.json_loads "trades"
           (Sample.thresholds 3.0 1.7) None "AAPL 93.9" Sample.world Scenario.alerted []
           Hrun "AAPL" 93.9%float Hl).
Defined.

(** X12. Without a pool, a tick of the subscribed kind on a symbol with its
    series, at a price whose z-score does not exceed [sigma_thresh] or with
    a zero baseline deviation: [process] returns a result without payload,
    [process_data] raises [KeyError] on [result['symbol']], and
    [handle_message] logs the error and leaves the world as it was, the last
    processed price included. *)
Theorem quiet_tick_logs_error `{Numerics}
    (json_loads : string -> option Json.value) (stream_type : string)
    (cm : ConfigManager.t) (message : string)
    (w : StreamProcessor.World) (items : dict Json.value)
    (symbol : string) (price : float) (data : SymbolData.t) :
  json_loads message = Some (Json.Object items) ->
  tick_of stream_type items symbol price ->
  SymbolDataManager.symbol_data (StreamProcessor.symbol_manager w) !! symbol = Some data ->
  SymbolData.symbol data = symbol ->
  feq (SymbolData.baseline_std data) 0 = true
  \/ fgt (fabs (zscore_of data price)) (ConfigManager.get_sigma_thresh cm 30.0) = false ->
  Listener.handle_message json_loads
    (DataStreamManager.process_data (pipeline cm None)) stream_type cm message w
  = Some (w, [Listener.HANDLING_ERROR (Listener.Raised KeyError)]).
Proof.
  intros Hjson (Hne & HS & Hkind) Hdata Hsym Hquiet.
  assert (Hproc : exists r,
            DataStreamManager.process_data (pipeline cm None) [data] [(symbol, price)]
            = Ok [r] /\ Result.enriched r = None).
  { assert (Hp : exists r, ZScoreProcessor.process cm data price = Ok r
                           /\ Result.enriched r = None).
    { destruct (feq (SymbolData.baseline_std data) 0) eqn:Hstd.
      - eexists. split; [apply process_zero_std, Hstd|reflexivity].
      - destruct Hquiet as [?|Hq]; [discriminate|].
        eexists. split; [apply process_below; assumption|reflexivity]. }
    destruct Hp as (r & Hp & He). exists r. split; [|exact He].
    unfold DataStreamManager.process_data, pipeline. simpl.
    unfold dict_get. simpl. rewrite Hsym, String.eqb_refl. simpl.
    rewrite Hp. reflexivity. }
  destruct Hproc as (r & Hproc & He).
  assert (Hrun : Listener.logged
            (StreamProcessor.process_data
               (DataStreamManager.process_data (pipeline cm None)) cm
               [(symbol, price)]) w
            = (w, [Listener.HANDLING_ERROR (Listener.Raised KeyError)])).
  { unfold Listener.logged, StreamProcessor.process_data. simpl. rewrite Hdata. simpl.
    unfold mbind, StreamProcessor.M_bind, StreamProcessor.lift. rewrite Hproc. simpl.
    unfold StreamProcessor.process_result.
    unfold mbind, StreamProcessor.M_bind, StreamProcessor.lift, Result.getitem.
    rewrite He. reflexivity. }
  assert (Htruthy : Json.truthy (Json.get items "S") = true).
  { unfold Json.get. rewrite HS. simpl.
    destruct (String.eqb_spec symbol ""); [contradiction|reflexivity]. }
  unfold Listener.handle_message. rewrite Hjson, Htruthy.
  unfold Listener.process_trade, Listener.process_bar, Listener.process_keyed.
  rewrite HS.
  destruct Hkind as [(-> & HT & Hp)|(-> & HT & Hp)];
    unfold Json.get; rewrite HT, Hp; simpl; rewrite Hrun; reflexivity.
Qed.

(** The trade of AAPL at 94.0, z-score -3.0, under the threshold 3.0. *)
Lemma quiet_tick_logs_error_witness :
  Listener.handle_message Scenario.json_loads
    (DataStreamManager.process_data (pipeline (Sample.thresholds 3.0 1.7) None))
    "trades" (Sample.thresholds 3.0 1.7) "AAPL 94.0" Sample.world
  = Some (Sample.world, [Listener.HANDLING_ERROR (Listener.Raised KeyError)]).
Proof.
  refine (quiet_tick_logs_error Scenario.json_loads "trades" (Sample.thresholds 3.0 1.7)
            "AAPL 94.0" Sample.world
            [("T", Json.String "t"); ("S", Json.String "AAPL"); ("p", Json.Number 94.0)]
            "AAPL" 94.0%float Sample.aapl eq_refl _ _ eq_refl _).
  - split; [discriminate|]. split; [reflexivity|]. left. auto.
  - vm_compute. reflexivity.
  - right. vm_compute. reflexivity.
Defined.

(** X13. [handle_message] on a message that is no tick of the subscribed
    kind, for any processor. A text [json.loads] refuses is logged as a
    decoding error; a decoded value that is not an object has no [get] and
    the [AttributeError] is logged; an object whose ["T"] or ["S"] is
    missing, [None], empty or zero, or whose type is not the one the stream
    type asks for, is dropped without a word; a tick without its price key
    is logged as a [KeyError]. In all four cases the world is left as it
    was. *)
Theorem unusable_message_changes_nothing
    (json_loads : string -> option Json.value)
    (processor : list SymbolData.t -> dict float -> res (list Result.t))
    (stream_type : string) (cm : ConfigManager.t) (message : string)
    (w : StreamProcessor.World) :
  let handled := Listener.handle_message json_loads processor stream_type cm message w in
  (json_loads message = None -> handled = Some (w, [Listener.DECODE_ERROR]))
  /\ (forall v,
        json_loads message = Some v ->
        (forall items, v <> Json.Object items) ->
        handled = Some (w, [Listener.HANDLING_ERROR Listener.AttributeError]))
  /\ (forall items,
        json_loads message = Some (Json.Object items) ->
        Json.truthy (Json.get items "T") = false
        \/ Json.truthy (Json.get items "S") = false
        \/ ~ (stream_type = "trades" /\ Json.get items "T" = Json.String "t"
              \/ stream_type = "bars" /\ Json.get items "T" = Json.String "b") ->
        handled = Some (w, []))
  /\ (forall items key,
        json_loads message = Some (Json.Object items) ->
        Json.truthy (Json.get items "S") = true ->
        stream_type = "trades" /\ Json.get items "T" = Json.String "t" /\ key = "p"
        \/ stream_type = "bars" /\ Json.get items "T" = Json.String "b" /\ key = "c" ->
        dict_get items key = None ->
        handled = Some (w, [Listener.HANDLING_ERROR (Listener.Raised KeyError)])).
Proof.
  intros handled. subst handled. unfold Listener.handle_message.
  split; [|split; [|split]].
  - intros ->. reflexivity.
  - intros v -> Hv. destruct v; try reflexivity. exfalso. eapply Hv. reflexivity.
  - intros items -> Hor.
    destruct (Json.truthy (Json.get items "T")) eqn:HT; [|reflexivity].
    destruct (Json.truthy (Json.get items "S")) eqn:HS; [|reflexivity]. simpl.
    destruct Hor as [?|[?|Hkind]]; try discriminate.
    destruct (String.eqb_spec stream_type "trades") as [->|Hst]; simpl.
    + destruct (Json.get items "T") as [| | |t| |] eqn:Ht; simpl; try reflexivity.
      destruct (String.eqb_spec t "t") as [->|]; [|reflexivity].
      exfalso. apply Hkind. left. auto.
    + destruct (String.eqb_spec stream_type "bars") as [->|Hsb]; simpl; [|reflexivity].
      destruct (Json.get items "T") as [| | |t| |] eqn:Ht; simpl; try reflexivity.
      destruct (String.eqb_spec t "b") as [->|]; [|reflexivity].
      exfalso. apply Hkind. right. auto.
  - intros items key -> HS Hkind Hkey. rewrite HS.
    assert (Hsome : exists v, dict_get items "S" = Some v).
    { unfold Json.get in HS. destruct (dict_get items "S"); [eauto|discriminate]. }
    destruct Hsome as (v & Hv).
    unfold Listener.process_trade, Listener.process_bar, Listener.process_keyed.
    rewrite Hv.
    destruct Hkind as [(-> & -> & ->)|(-> & -> & ->)]; simpl; rewrite Hkey; reflexivity.
Qed.

(** A text that is no JSON, and an array that holds a subscription
    notice. *)
Lemma unusable_message_changes_nothing_witness :
  Listener.handle_message Scenario.json_loads (Sample.replay []) "trades"
    (Sample.thresholds 3.0 1.7) "not json" Sample.world
  = Some (Sample.world, [Listener.DECODE_ERROR])
  /\ Listener.handle_message Scenario.json_loads (Sample.replay []) "trades"
       (Sample.thresholds 3.0 1.7) "subscribed" Sample.world
     = Some (Sample.world, [Listener.HANDLING_ERROR Listener.AttributeError]).
Proof.
  pose proof (unusable_message_changes_nothing Scenario.json_loads (Sample.replay [])
                "trades" (Sample.thresholds 3.0 1.7) "not json" Sample.world)
    as (Hdecode & _).
  pose proof (unusable_message_changes_nothing Scenario.json_loads (Sample.replay [])
                "trades" (Sample.thresholds 3.0 1.7) "subscribed" Sample.world)
    as (_ & Hvalue & _).
  split.
  - exact (Hdecode eq_refl).
  - refine (Hvalue _ eq_refl _). intros items. discriminate.
Defined.

Section TickFacts.
Variable json_loads : string -> option Json.value.
Variable processor : list SymbolData.t -> dict float -> res (list Result.t).
Variable stream_type : string.
Variable cm : ConfigManager.t.

(** A tick of the subscribed kind is handed to [process_data]. *)
Lemma handle_tick (message : string) (w : StreamProcessor.World)
    (items : dict Json.value) (symbol : string) (price : float) :
  json_loads message = Some (Json.Object items) ->
  tick_of stream_type items symbol price ->
  Listener.handle_message json_loads processor stream_type cm message w
  = Some (Listener.logged
            (StreamProcessor.process_data processor cm [(symbol, price)]) w).
Proof.
  intros Hjson (Hne & HS & Hkind).
  assert (Htruthy : Json.truthy (Json.get items "S") = true).
  { unfold Json.get. rewrite HS. simpl.
    destruct (String.eqb_spec symbol ""); [contradiction|reflexivity]. }
  unfold Listener.handle_message. rewrite Hjson, Htruthy.
  unfold Listener.process_trade, Listener.process_bar, Listener.process_keyed.
  rewrite HS.
  destruct Hkind as [(-> & HT & Hp)|(-> & HT & Hp)];
    unfold Json.get; rewrite HT, Hp; reflexivity.
Qed.

(** When the processor raises, the error is logged and nothing else
    happens. *)
Lemma process_data_raises (new_prices : dict float) (w : StreamProcessor.World)
    (ex : exn) :
  processor
    (omap (fun symbol =>
             SymbolDataManager.symbol_data (StreamProcessor.symbol_manager w) !! symbol)
       (dict_keys new_prices)) new_prices = Raise ex ->
  Listener.logged (StreamProcessor.process_data processor cm new_prices) w
  = (w, [Listener.HANDLING_ERROR (Listener.Raised ex)]).
Proof.
  intros Hp. unfold Listener.logged, StreamProcessor.process_data.
  unfold mbind, StreamProcessor.M_bind, StreamProcessor.lift.
  rewrite Hp. reflexivity.
Qed.

End TickFacts.

(** X14. Without a pool, a tick of the subscribed kind on a symbol without
    a series, as one removed at start-up or never fetched: nothing is
    processed, nothing is logged and no price is recorded. *)
Theorem untracked_tick_ignored `{Numerics}
    (json_loads : string -> option Json.value) (stream_type : string)
    (cm : ConfigManager.t) (message : string)
    (w : StreamProcessor.World) (items : dict Json.value)
    (symbol : string) (price : float) :
  json_loads message = Some (Json.Object items) ->
  tick_of stream_type items symbol price ->
  SymbolDataManager.symbol_data (StreamProcessor.symbol_manager w) !! symbol = None ->
  Listener.handle_message json_loads
    (DataStreamManager.process_data (pipeline cm None)) stream_type cm message w
  = Some (w, []).
Proof.
  intros Hjson Htick Hdata.
  rewrite (handle_tick _ _ _ _ _ _ _ _ _ Hjson Htick).
  unfold Listener.logged, StreamProcessor.process_data. simpl. rewrite Hdata.
  reflexivity.
Qed.

(** The trade of TSLA, which the sample world does not track. *)
Lemma untracked_tick_ignored_witness :
  Listener.handle_message Scenario.json_loads
    (DataStreamManager.process_data (pipeline (Sample.thresholds 3.0 1.7) None))
    "trades" (Sample.thresholds 3.0 1.7) "TSLA 10.0" Sample.world
  = Some (Sample.world, []).
Proof.
  refine (untracked_tick_ignored Scenario.json_loads "trades" (Sample.thresholds 3.0 1.7)
            "TSLA 10.0" Sample.world
            [("T", Json.String "t"); ("S", Json.String "TSLA"); ("p", Json.Number 10.0)]
            "TSLA" 10.0%float eq_refl _ _).
  - split; [discriminate|]. split; [reflexivity|]. left. auto.
  - vm_compute. reflexivity.
Defined.

(** X15. The first alert of a symbol, without a pool. A tick of the
    subscribed kind on a symbol with its series, whose result has its
    payload with a trend z-score beyond [zscore_trend_thresh], while the
    trend entry of the symbol is as [__init__] left it: [handle_message]
    logs no error and one "ALERT" line, stores the action with the price as
    extreme price, leaves day high and day low [None], and records the
    price as last processed price. *)
Theorem first_alert_recorded `{Numerics}
    (json_loads : string -> option Json.value) (stream_type : string)
    (cm : ConfigManager.t) (message : string)
    (w : StreamProcessor.World) (items : dict Json.value)
    (symbol : string) (price : float) (data : SymbolData.t)
    (r : Result.t) (e : Result.Enriched) (zt : float) :
  json_loads message = Some (Json.Object items) ->
  tick_of stream_type items symbol price ->
  SymbolDataManager.symbol_data (StreamProcessor.symbol_manager w) !! symbol = Some data ->
  SymbolData.symbol data = symbol ->
  ZScoreProcessor.process cm data price = Ok r ->
  Result.enriched r = Some e ->
  Result.zscore_trend e = Some zt ->
  fgt (fabs zt) (ConfigManager.get_zscore_trend_thresh cm 2.0) = true ->
  trend_of w symbol = Some Trend.init ->
  let m := StreamProcessor.symbol_manager w in
  Listener.handle_message json_loads
    (DataStreamManager.process_data (pipeline cm None)) stream_type cm message w
  = Some
      ({| StreamProcessor.symbol_manager :=
            {| SymbolDataManager.symbols := SymbolDataManager.symbols m;
               SymbolDataManager.symbol_data := SymbolDataManager.symbol_data m;
               SymbolDataManager.last_processed_price :=
                 <[symbol := price]> (SymbolDataManager.last_processed_price m);
               SymbolDataManager.price_trends :=
                 <[symbol := {| Trend.last_action := Some (Result.action e);
                                Trend.extreme_price := Some price;
                                Trend.day_high := None;
                                Trend.day_low := None |}]>
                   (SymbolDataManager.price_trends m) |};
          StreamProcessor.log :=
            StreamProcessor.log w
            ++ [StreamProcessor.ALERT symbol price (Result.zscore r) (Result.action e)
                  (Result.samples_ago e) zt (Result.lambda e) price] |},
       []).
Proof.
  intros Hjson Htick Hdata Hsym Hproc He Hzt Hgt Htrend m.
  rewrite (handle_tick _ _ _ _ _ _ _ _ _ Hjson Htick).
  destruct (process_payload cm _ _ _ _ Hproc He) as (Hstd & Hsig & Hse & Hlp).
  assert (Hz : Result.zscore r = zscore_of data price)
    by (eapply process_zscore; eassumption).
  unfold Listener.logged, StreamProcessor.process_data. simpl. rewrite Hdata. simpl.
  unfold mbind at 1. unfold StreamProcessor.M_bind at 1. unfold StreamProcessor.lift at 1.
  unfold DataStreamManager.process_data, pipeline.
  simpl. unfold dict_get. simpl. rewrite Hsym, String.eqb_refl. simpl.
  rewrite Hproc. simpl.
  unfold StreamProcessor.process_result, StreamProcessor.alert_condition.
  unfold Result.get. rewrite He. simpl. rewrite Hzt, Hz, Hsig, Hgt. simpl.
  unfold StreamProcessor.log_alert.
  unfold mbind, StreamProcessor.M_bind, StreamProcessor.lift, Result.getitem.
  rewrite He. unfold StreamProcessor.getitem_price_trends.
  unfold trend_of in Htrend. rewrite Hse, Hsym. rewrite Htrend. simpl.
  rewrite lookup_insert_eq. simpl.
  unfold StreamProcessor.format_alert. rewrite Hzt. simpl.
  rewrite Hlp, Hz. reflexivity.
Qed.

(** The trade of AAPL at 93.9 on the sample world, with the filter computed
    from its definition and the thresholds 3.0 and 1.2: the trend component
    has no peak, the action is "None", and the z-score of the last cycle
    value is about -1.21. *)
Lemma first_alert_recorded_witness :
  Listener.handle_message Scenario.json_loads
    (DataStreamManager.process_data (H := Reference.numerics)
       (pipeline (Sample.thresholds 3.0 1.2) None))
    "trades" (Sample.thresholds 3.0 1.2) "AAPL 93.9" Sample.world
  = Some (Scenario.first_alert, []).
Proof.
  refine (first_alert_recorded (H := Reference.numerics)
            Scenario.json_loads "trades" (Sample.thresholds 3.0 1.2)
            "AAPL 93.9" Sample.world
            [("T", Json.String "t"); ("S", Json.String "AAPL"); ("p", Json.Number 93.9)]
            "AAPL" 93.9%float Sample.aapl Scenario.trend_result Scenario.trend_payload
            (-1.2115136735150862)%float eq_refl _ _ eq_refl _ eq_refl eq_refl _ _).
  - split; [discriminate|]. split; [reflexivity|]. left. auto.
  - vm_compute. reflexivity.
  - vm_compute. reflexivity.
  - vm_compute. reflexivity.
  - vm_compute. reflexivity.
Defined.

(** ** The fan-out on the batches of the stream *)

Section IdleWorkers.
Context {A : Type}.

Lemma slice_empty (ary : list A) (a : nat) : ParallelProcessor.slice ary a a = [].
Proof. unfold ParallelProcessor.slice. rewrite Nat.sub_diag. apply take_0. Qed.

Lemma cumsum_zeros (a k : nat) :
  ParallelProcessor.cumsum a (repeat 0%nat k) = repeat a k.
Proof.
  induction k as [|k IH]; [reflexivity|]. simpl.
  rewrite Nat.add_0_r, IH. reflexivity.
Qed.

Lemma sub_arys_idle (ary : list A) (a k : nat) :
  ParallelProcessor.sub_arys ary (a :: repeat a k) = repeat [] k.
Proof.
  induction k as [|k IH]; [reflexivity|].
  change (repeat a (S k)) with (a :: repeat a k).
  rewrite sub_arys_cons, slice_empty, IH. reflexivity.
Qed.

(** A batch of at most one element goes to the first section whole. *)
Lemma array_split_short (batch : list A) (n : Z) :
  (length batch <= 1)%nat -> 1 <= n ->
  ParallelProcessor.array_split batch n = Ok (batch :: repeat [] (Z.to_nat (n - 1))).
Proof.
  intros Hlen Hn. unfold ParallelProcessor.array_split.
  destruct (Z.leb_spec n 0); [lia|]. f_equal.
  destruct batch as [|x [|y batch]]; simpl length in *; [| |lia].
  - change (Z.of_nat 0) with 0. rewrite Z.div_0_l, Z.mod_0_l by lia.
    simpl repeat. simpl app. rewrite Z.sub_0_r.
    change (ParallelProcessor.cumsum 0 (0%nat :: repeat (Z.to_nat 0) (Z.to_nat n)))
      with (0%nat :: ParallelProcessor.cumsum 0 (repeat 0%nat (Z.to_nat n))).
    rewrite cumsum_zeros, sub_arys_idle.
    replace (Z.to_nat n) with (S (Z.to_nat (n - 1))) by lia. reflexivity.
  - change (Z.of_nat 1) with 1.
    destruct (decide (n = 1)) as [->|Hn1]; [reflexivity|].
    rewrite Z.div_small, Z.mod_small by lia.
    change (Z.to_nat (0 + 1)) with 1%nat. change (Z.to_nat 1) with 1%nat.
    change (Z.to_nat 0) with 0%nat. simpl repeat at 1. simpl app.
    change (ParallelProcessor.cumsum 0 (0%nat :: 1%nat :: repeat 0%nat (Z.to_nat (n - 1))))
      with (0%nat :: 1%nat :: ParallelProcessor.cumsum 1 (repeat 0%nat (Z.to_nat (n - 1)))).
    rewrite cumsum_zeros, sub_arys_cons, sub_arys_idle. reflexivity.
Qed.

End IdleWorkers.

(** X21. With a pool of any size, every tick of the subscribed kind ends in
    a logged [TypeError]. The batch [process_trade] and [process_bar] hand
    to the processor holds at most one series, the one of the symbol of the
    tick; [np.array_split] cuts it into the batch itself followed by empty
    chunks; each chunk, the empty ones too, is sent to its worker with the
    detector, which [pickle] refuses, so [process_symbols] raises and
    [handle_message] logs the error and leaves everything as it was,
    whether the symbol has a series or not and whatever the price. *)
Theorem pooled_tick_logs_type_error `{Numerics}
    (json_loads : string -> option Json.value) (stream_type : string)
    (cm : ConfigManager.t) (n : Z) (message : string)
    (w : StreamProcessor.World) (items : dict Json.value)
    (symbol : string) (price : float) :
  1 <= n ->
  json_loads message = Some (Json.Object items) ->
  tick_of stream_type items symbol price ->
  let new_prices := [(symbol, price)] in
  let batch :=
    omap (fun symbol =>
            SymbolDataManager.symbol_data (StreamProcessor.symbol_manager w) !! symbol)
      (dict_keys new_prices) in
  let pool := {| ParallelProcessor.num_processes := n;
                 ParallelProcessor.zscore_processor := cm |} in
  (length batch <= 1)%nat
  /\ ParallelProcessor.array_split batch n = Ok (batch :: repeat [] (Z.to_nat (n - 1)))
  /\ ParallelProcessor.process_symbols pool batch new_prices = Raise TypeError
  /\ Listener.handle_message json_loads
       (DataStreamManager.process_data (pipeline cm (Some n))) stream_type cm message w
     = Some (w, [Listener.HANDLING_ERROR (Listener.Raised TypeError)]).
Proof.
  intros Hn Hjson Htick new_prices batch pool.
  assert (Hlen : (length batch <= 1)%nat).
  { unfold batch. simpl.
    destruct (SymbolDataManager.symbol_data (StreamProcessor.symbol_manager w) !! symbol);
      simpl; lia. }
  split; [exact Hlen|]. split; [exact (array_split_short batch n Hlen Hn)|].
  split; [apply process_symbols_raises; exact Hn|].
  rewrite (handle_tick _ _ _ _ _ _ _ _ _ Hjson Htick). f_equal.
  apply process_data_raises. rewrite pipeline_pool_raises.
  destruct (Z.leb_spec n 0); [lia|reflexivity].
Qed.

(** The trade of AAPL at 93.9 on the sample world and a pool of three. *)
Lemma pooled_tick_logs_type_error_witness :
  ParallelProcessor.array_split [Sample.aapl] 3 = Ok [[Sample.aapl]; []; []]
  /\ ParallelProcessor.process_symbols (H := Reference.numerics)
       {| ParallelProcessor.num_processes := 3;
          ParallelProcessor.zscore_processor := Sample.thresholds 3.0 1.7 |}
       [Sample.aapl] [("AAPL", 93.9%float)] = Raise TypeError
  /\ Listener.handle_message Scenario.json_loads
       (DataStreamManager.process_data (H := Reference.numerics)
          (pipeline (Sample.thresholds 3.0 1.7) (Some 3)))
       "trades" (Sample.thresholds 3.0 1.7) "AAPL 93.9" Sample.world
     = Some (Sample.world, [Listener.HANDLING_ERROR (Listener.Raised TypeError)]).
Proof.
  refine (proj2 (pooled_tick_logs_type_error (H := Reference.numerics)
                   Scenario.json_loads "trades" (Sample.thresholds 3.0 1.7) 3
                   "AAPL 93.9" Sample.world
                   [("T", Json.String "t"); ("S", Json.String "AAPL");
                    ("p", Json.Number 93.9)]
                   "AAPL" 93.9%float ltac:(lia) eq_refl _)).
  split; [discriminate|]. split; [reflexivity|]. left. auto.
Defined.

(** ** The tracker after its first alert *)

Section FrozenFacts.
Variable sym : string.
Variable t : Trend.t.
Hypothesis t_action : Trend.last_action t <> None.
Hypothesis t_extreme : Trend.extreme_price t <> None.
Hypothesis t_range : Trend.day_high t = None \/ Trend.day_low t = None.

(** On such an entry [log_alert] writes nothing: under the stored action it
    only logs, under another one the "TREND CHANGE" line raises before the
    assignments. *)
Lemma log_alert_frozen (result : Result.t) (w : StreamProcessor.World) :
  trend_of w sym = Some t ->
  trend_of (snd (StreamProcessor.log_alert result w)) sym = Some t.
Proof.
  intros Ht.
  destruct (Result.enriched result) as [e|] eqn:He.
  2:{ unfold StreamProcessor.log_alert.
      unfold mbind, StreamProcessor.M_bind, StreamProcessor.lift, Result.getitem.
      rewrite He. exact Ht. }
  destruct (decide (Result.symbol e = sym)) as [Hs|Hs].
  - unfold StreamProcessor.log_alert.
    unfold mbind, StreamProcessor.M_bind, StreamProcessor.lift, Result.getitem.
    rewrite He. unfold StreamProcessor.getitem_price_trends. rewrite Hs.
    pose proof Ht as Ht'. unfold trend_of in Ht'. rewrite Ht'.
    destruct (Trend.last_action t) as [a|] eqn:Ha; [|contradiction].
    destruct (Trend.extreme_price t) as [x|] eqn:Hx; [|contradiction].
    match goal with
    | |- context [@bool_decide ?P ?d] => destruct (@bool_decide P d)
    end.
    + unfold StreamProcessor.format_trend_change, StreamProcessor.format_spec.
      rewrite Ha, Hx. simpl.
      destruct (Trend.day_high t); simpl.
      * destruct t_range as [?|Hl]; [discriminate|]. rewrite Hl. exact Ht.
      * exact Ht.
    + simpl. rewrite Ht'.
      destruct (StreamProcessor.format_alert sym result e t); exact Ht.
  - rewrite (keeps_log_alert (fun w => trend_of w sym) result); [exact Ht| |].
    + intros symbol t' Hsym w0. unfold Result.getitem in Hsym. rewrite He in Hsym.
      injection Hsym as <-. unfold trend_of. simpl. apply lookup_insert_ne. exact Hs.
    + intros record w0. reflexivity.
Qed.

Lemma for_each_frozen (cm : ConfigManager.t) (results : list Result.t)
    (w : StreamProcessor.World) :
  trend_of w sym = Some t ->
  trend_of (snd (StreamProcessor.for_each cm results w)) sym = Some t.
Proof.
  revert w. induction results as [|result results IH]; intros w Ht; [exact Ht|].
  simpl StreamProcessor.for_each. unfold mbind, StreamProcessor.M_bind.
  assert (Hstep : trend_of (snd (StreamProcessor.process_result cm result w)) sym = Some t).
  { unfold StreamProcessor.process_result.
    unfold mbind, StreamProcessor.M_bind, StreamProcessor.lift.
    destruct (Result.getitem Result.symbol result) as [symbol|ex]; [|exact Ht].
    destruct (StreamProcessor.alert_condition cm result).
    - pose proof (log_alert_frozen result w Ht) as Hl.
      destruct (StreamProcessor.log_alert result w) as [[[]|ex] w1]; exact Hl.
    - exact Ht. }
  destruct (StreamProcessor.process_result cm result w) as [[[]|ex] w1]; simpl in *.
  - apply IH, Hstep.
  - exact Hstep.
Qed.

Lemma process_data_frozen
    (processor : list SymbolData.t -> dict float -> res (list Result.t))
    (cm : ConfigManager.t) (new_prices : dict float) (w : StreamProcessor.World) :
  trend_of w sym = Some t ->
  trend_of (snd (StreamProcessor.process_data processor cm new_prices w)) sym = Some t.
Proof.
  intros Ht. unfold StreamProcessor.process_data.
  unfold mbind, StreamProcessor.M_bind, StreamProcessor.lift.
  destruct (processor _ new_prices) as [results|ex]; [|exact Ht].
  apply for_each_frozen, Ht.
Qed.

End FrozenFacts.

(** X16. Once a symbol has alerted, its trend entry holds an action and an
    extreme price while its day high and day low are still [None]. From then
    on no call of [process_data] changes the entry, whatever the processor
    returns: an alert under the stored action only logs, and an alert under
    another action raises on the "TREND CHANGE" line before anything is
    assigned. The action and the extreme price of the first alert are
    final. *)
Theorem trend_frozen_after_first_alert
    (processor : list SymbolData.t -> dict float -> res (list Result.t))
    (cm : ConfigManager.t) (batches : list (dict float))
    (w : StreamProcessor.World) (sym : string) (t : Trend.t) :
  trend_of w sym = Some t ->
  Trend.last_action t <> None ->
  Trend.extreme_price t <> None ->
  Trend.day_high t = None \/ Trend.day_low t = None ->
  trend_of (after_batches processor cm batches w) sym = Some t.
Proof.
  intros Ht Ha Hx Hr. revert w Ht.
  induction batches as [|new_prices batches IH]; intros w Ht; [exact Ht|].
  simpl. apply IH. apply process_data_frozen; assumption.
Qed.

(** After the alert of AAPL at 93.9, action "Sell", two results with the
    action "Buy" and a lower "Sell" leave the entry as the first alert set
    it. *)
Lemma trend_frozen_after_first_alert_witness :
  let t := {| Trend.last_action := Some "Sell";
              Trend.extreme_price := Some 93.9%float;
              Trend.day_high := None;
              Trend.day_low := None |} in
  trend_of Scenario.alerted "AAPL" = Some t
  /\ trend_of
       (after_batches
          (Sample.replay [Sample.buy_1061; Sample.sell_930; Sample.buy_1061])
          (Sample.thresholds 3.0 1.7)
          [[("AAPL", 106.1%float)]; [("AAPL", 93.0%float)]] Scenario.alerted)
       "AAPL" = Some t.
Proof.
  intros t.
  assert (Ht : trend_of Scenario.alerted "AAPL" = Some t) by (vm_compute; reflexivity).
  split; [exact Ht|].
  refine (trend_frozen_after_first_alert _ _ _ Scenario.alerted "AAPL" t Ht _ _ _).
  - discriminate.
  - discriminate.
  - left. reflexivity.
Defined.

(** ** The fetcher: the outcome of [fetch_symbol_data] *)

Section RetryOutcome.
Context {A : Type}.
Variable symbol : string.
Variable fn : Z -> list HistoricalDataFetcher.Event * res A.
Hypothesis fn_sleeps : forall k, Forall is_sleep (fst (fn k)).

(** The loop at its last attempt, or at an attempt that does not fail with
    a retried exception. *)
Lemma retry_final (remaining : nat) (n : Z) :
  (forall e, snd (fn n) = Raise e ->
             HistoricalDataFetcher.retry_if_exception_type e = true ->
             remaining = 0%nat) ->
  requests (fst (HistoricalDataFetcher.retry remaining n symbol fn)) = 1%nat
  /\ snd (HistoricalDataFetcher.retry remaining n symbol fn)
     = match snd (fn n) with
       | Ok a => Ok a
       | Raise e => if HistoricalDataFetcher.retry_if_exception_type e
                    then Raise RetryError else Raise e
       end.
Proof.
  intros Hlast. pose proof (fn_sleeps n) as Hs.
  destruct remaining as [|r]; simpl; destruct (fn n) as [ev [a|e]]; simpl in *.
  - rewrite requests_request, (requests_sleeps _ Hs). auto.
  - destruct (HistoricalDataFetcher.retry_if_exception_type e); simpl;
      rewrite requests_request, (requests_sleeps _ Hs); auto.
  - rewrite requests_request, (requests_sleeps _ Hs). auto.
  - destruct (HistoricalDataFetcher.retry_if_exception_type e) eqn:He; simpl.
    + specialize (Hlast e eq_refl He). discriminate.
    + rewrite requests_request, (requests_sleeps _ Hs). auto.
Qed.

(** Attempts that fail with a retried exception are followed by the next
    one. *)
Lemma retry_skip (d : nat) (remaining : nat) (n : Z) :
  (forall j, n <= j < n + Z.of_nat d ->
             exists e, snd (fn j) = Raise e
                       /\ HistoricalDataFetcher.retry_if_exception_type e = true) ->
  requests (fst (HistoricalDataFetcher.retry (d + remaining) n symbol fn))
  = (d + requests (fst (HistoricalDataFetcher.retry remaining (n + Z.of_nat d) symbol fn)))%nat
  /\ snd (HistoricalDataFetcher.retry (d + remaining) n symbol fn)
     = snd (HistoricalDataFetcher.retry remaining (n + Z.of_nat d) symbol fn).
Proof.
  revert n. induction d as [|d IH]; intros n Hfail.
  - change (Z.of_nat 0) with 0. rewrite Z.add_0_r. split; reflexivity.
  - destruct (Hfail n ltac:(lia)) as (e & He & Hre).
    pose proof (fn_sleeps n) as Hs.
    destruct (IH (n + 1)) as [IHr IHo].
    { intros j Hj. apply Hfail. lia. }
    replace (n + 1 + Z.of_nat d) with (n + Z.of_nat (S d)) in * by lia.
    simpl Nat.add. simpl HistoricalDataFetcher.retry.
    destruct (fn n) as [ev out]. simpl in He, Hs. subst out. rewrite Hre. simpl.
    destruct (HistoricalDataFetcher.retry (d + remaining) (n + 1) symbol fn) as [ev' out'].
    simpl in *. rewrite requests_request, requests_app, (requests_sleeps _ Hs),
      requests_sleep.
    split; [lia|exact IHo].
Qed.

End RetryOutcome.

(** X17. [fetch_symbol_data] under [@retry] ends at the first attempt,
    among the five allowed, that does not fail with a [ClientError] or a
    [TimeoutError]: it makes exactly that many requests and returns what
    this attempt returned or raises what it raised. An exception of another
    type is thus never retried, as the [KeyError] of a response whose bar
    list for the symbol is empty. When the fifth attempt fails with a
    retried exception as the four before, the fetch raises [RetryError]. *)
Theorem fetch_ends_at_first_final_attempt
    (service : string -> Z -> HistoricalDataFetcher.Reply) (symbol : string) (k : Z) :
  1 <= k <= 5 ->
  (forall j, 1 <= j < k -> retried service symbol j) ->
  k = 5 \/ ~ retried service symbol k ->
  let '(trace, outcome) := HistoricalDataFetcher.fetch_symbol_data service symbol in
  requests trace = Z.to_nat k
  /\ outcome = match attempt service symbol k with
               | Ok r => Ok r
               | Raise e => if HistoricalDataFetcher.retry_if_exception_type e
                            then Raise RetryError else Raise e
               end.
Proof.
  intros Hk Hbefore Hfinal.
  unfold HistoricalDataFetcher.fetch_symbol_data.
  change (Z.to_nat (HistoricalDataFetcher.max_attempt_number - 1)) with 4%nat.
  set (fn := fun n => HistoricalDataFetcher.fetch_once symbol (service symbol n)).
  assert (Hs : forall n, Forall is_sleep (fst (fn n)))
    by (intros n; apply fetch_once_sleeps).
  set (d := Z.to_nat (k - 1)).
  destruct (retry_skip symbol fn Hs d (4 - d) 1) as [Hreq Hout].
  { intros j Hj. apply Hbefore. lia. }
  replace (d + (4 - d))%nat with 4%nat in * by lia.
  replace (1 + Z.of_nat d) with k in * by lia.
  destruct (retry_final symbol fn Hs (4 - d) k) as [Hreq' Hout'].
  { intros e He Hre. destruct Hfinal as [->|Hnot]; [reflexivity|].
    exfalso. apply Hnot. exists e. auto. }
  destruct (HistoricalDataFetcher.retry 4 1 symbol fn) as [trace outcome].
  simpl in *. split; [lia|]. rewrite Hout, Hout'. reflexivity.
Qed.

(** The service that answers 429, then 503, then a bar: three requests. *)
Lemma fetch_ends_at_first_final_attempt_witness :
  let '(trace, outcome) :=
    HistoricalDataFetcher.fetch_symbol_data Scenario.flaky "AAPL" in
  requests trace = 3%nat /\ outcome = Ok ("AAPL", [(1, 100.0%float)]).
Proof.
  refine (fetch_ends_at_first_final_attempt Scenario.flaky "AAPL" 3 _ _ _).
  - lia.
  - intros j Hj. exists ClientError.
    assert (j = 1 \/ j = 2) as [->| ->] by lia; split; reflexivity.
  - right. intros (e & He & _). discriminate.
Defined.

(** ** The symbols: [get_symbols] and [read_symbols_from_file] *)

Section StrFacts.

Lemma isspace_upper_char (c : Ascii.ascii) : Str.isspace (Str.upper_char c) = Str.isspace c.
Proof. destruct c as [[] [] [] [] [] [] [] []]; reflexivity. Qed.

Lemma upper_char_idemp (c : Ascii.ascii) : Str.upper_char (Str.upper_char c) = Str.upper_char c.
Proof. destruct c as [[] [] [] [] [] [] [] []]; reflexivity. Qed.

Lemma upper_idemp (s : string) : Str.upper (Str.upper s) = Str.upper s.
Proof. induction s as [|c s IH]; simpl; [reflexivity|]. rewrite upper_char_idemp, IH. reflexivity. Qed.

Lemma upper_empty (s : string) : Str.upper s = "" <-> s = "".
Proof. destruct s; simpl; split; congruence. Qed.

Lemma lstrip_upper (s : string) : Str.lstrip (Str.upper s) = Str.upper (Str.lstrip s).
Proof.
  induction s as [|c s IH]; simpl; [reflexivity|].
  rewrite isspace_upper_char. destruct (Str.isspace c); [exact IH|reflexivity].
Qed.

Lemma rstrip_upper (s : string) : Str.rstrip (Str.upper s) = Str.upper (Str.rstrip s).
Proof.
  induction s as [|c s IH]; simpl; [reflexivity|].
  rewrite IH, isspace_upper_char.
  destruct (Str.rstrip s); simpl; [destruct (Str.isspace c)|]; reflexivity.
Qed.

Lemma strip_upper (s : string) : Str.strip (Str.upper s) = Str.upper (Str.strip s).
Proof. unfold Str.strip. rewrite lstrip_upper, rstrip_upper. reflexivity. Qed.

Lemma rstrip_idemp (s : string) : Str.rstrip (Str.rstrip s) = Str.rstrip s.
Proof.
  induction s as [|c s IH]; simpl; [reflexivity|].
  destruct (Str.rstrip s) as [|c' t] eqn:Hr.
  - destruct (Str.isspace c) eqn:Hc; simpl; [reflexivity|]. rewrite Hc. reflexivity.
  - simpl in IH |- *. rewrite IH. reflexivity.
Qed.

Lemma lstrip_head (s : string) :
  match Str.lstrip s with
  | EmptyString => True
  | String c _ => Str.isspace c = false
  end.
Proof.
  induction s as [|c s IH]; simpl; [exact I|].
  destruct (Str.isspace c) eqn:Hc; [exact IH|exact Hc].
Qed.

Lemma lstrip_rstrip (s : string) :
  Str.lstrip (Str.rstrip (Str.lstrip s)) = Str.rstrip (Str.lstrip s).
Proof.
  pose proof (lstrip_head s) as Hh.
  destruct (Str.lstrip s) as [|c t]; [reflexivity|]. simpl.
  destruct (Str.rstrip t); [rewrite Hh|]; simpl; rewrite Hh; reflexivity.
Qed.

Lemma strip_idemp (s : string) : Str.strip (Str.strip s) = Str.strip s.
Proof. unfold Str.strip. rewrite lstrip_rstrip. apply rstrip_idemp. Qed.

End StrFacts.

Lemma elem_of_symbols_of (l : list string) (s : string) :
  s ∈ Helpers.symbols_of l
  <-> exists entry, entry ∈ l /\ Str.strip entry <> ""
                    /\ s = Str.upper (Str.strip entry).
Proof.
  unfold Helpers.symbols_of. rewrite elem_of_list_to_set, list_elem_of_fmap.
  split.
  - intros (entry & -> & Hin). apply list_elem_of_In, filter_In in Hin as [Hin Hne].
    exists entry. split; [apply list_elem_of_In; exact Hin|]. split; [|reflexivity].
    destruct (String.eqb_spec (Str.strip entry) ""); [discriminate|assumption].
  - intros (entry & Hin & Hne & ->). exists entry. split; [reflexivity|].
    apply list_elem_of_In, filter_In. split; [apply list_elem_of_In; exact Hin|].
    destruct (String.eqb_spec (Str.strip entry) ""); [contradiction|reflexivity].
Qed.

Lemma get_symbols_union (readlines : string -> option (list string))
    (file_path symbol_list : option string) :
  Helpers.get_symbols readlines file_path symbol_list
  = let symbols := Helpers.symbols_of (entries readlines file_path symbol_list) in
    if bool_decide (symbols = ∅) then Raise ValueError else Ok symbols.
Proof.
  assert (Happ : forall l1 l2,
            Helpers.symbols_of (l1 ++ l2)
            = Helpers.symbols_of l1 ∪ Helpers.symbols_of l2).
  { intros l1 l2. unfold Helpers.symbols_of.
    rewrite List.filter_app, map_app. apply leibniz_equiv, list_to_set_app. }
  assert (Hnil : Helpers.symbols_of [] = ∅) by reflexivity.
  unfold Helpers.get_symbols, entries, Helpers.read_symbols_from_file.
  cbv zeta. rewrite Happ.
  destruct (Str.truthy file_path); destruct (Str.truthy symbol_list);
    try destruct (readlines _); simpl default; rewrite ?Hnil;
    rewrite ?(left_id_L ∅ (∪)), ?(right_id_L ∅ (∪)); reflexivity.
Qed.

(** X18. [get_symbols] on ASCII text. Its entries are the lines of the
    file, when a path is given and the file can be read, and the items
    between the commas of the list, when one is given. It returns the set
    of the entries that are not blank, each stripped and in upper case, and
    this set is not empty: a symbol returned is never empty, has no space
    around it and no lower-case letter. It raises [ValueError] exactly when
    every entry is blank, as when neither argument is given or the file
    cannot be read and there is no list. *)
Theorem get_symbols_normalised (readlines : string -> option (list string))
    (file_path symbol_list : option string) :
  Forall ascii_text (entries readlines file_path symbol_list) ->
  match Helpers.get_symbols readlines file_path symbol_list with
  | Ok symbols =>
      symbols <> ∅
      /\ (forall s,
            s ∈ symbols
            <-> exists entry,
                  entry ∈ entries readlines file_path symbol_list
                  /\ Str.strip entry <> "" /\ s = Str.upper (Str.strip entry))
      /\ (forall s, s ∈ symbols -> s <> "" /\ Str.strip s = s /\ Str.upper s = s)
  | Raise e =>
      e = ValueError
      /\ forall entry,
           entry ∈ entries readlines file_path symbol_list -> Str.strip entry = ""
  end.
Proof.
  intros _. rewrite get_symbols_union. cbv zeta.
  destruct (bool_decide_reflect
              (Helpers.symbols_of (entries readlines file_path symbol_list) = ∅))
    as [Hempty|Hne].
  - split; [reflexivity|]. intros entry Hin.
    destruct (decide (Str.strip entry = "")) as [|Hs]; [assumption|].
    exfalso. apply (not_elem_of_empty (C := gset string) (Str.upper (Str.strip entry))).
    rewrite <- Hempty. apply elem_of_symbols_of. exists entry. auto.
  - split; [exact Hne|]. split; [apply elem_of_symbols_of|].
    intros s Hs. apply elem_of_symbols_of in Hs as (entry & _ & Hn & ->).
    split; [|split].
    + intros Hu. apply (proj1 (upper_empty _)) in Hu. contradiction.
    + rewrite strip_upper, strip_idemp. reflexivity.
    + apply upper_idemp.
Qed.

(** The sample file with the list ["msft, ,tsla"]. *)
Lemma get_symbols_normalised_witness :
  Helpers.get_symbols Scenario.readlines (Some "symbols.txt") (Some "msft, ,tsla")
  = Ok {[ "AAPL"; "MSFT"; "TSLA" ]}
  /\ forall s : string,
       s ∈ ({[ "AAPL"; "MSFT"; "TSLA" ]} : gset string) ->
       s <> "" /\ Str.strip s = s /\ Str.upper s = s.
Proof.
  assert (Hrun : Helpers.get_symbols Scenario.readlines (Some "symbols.txt")
                   (Some "msft, ,tsla") = Ok {[ "AAPL"; "MSFT"; "TSLA" ]})
    by (vm_compute; reflexivity).
  split; [exact Hrun|].
  pose proof (get_symbols_normalised Scenario.readlines (Some "symbols.txt")
                (Some "msft, ,tsla")) as Hg.
  rewrite Hrun in Hg. refine (proj2 (proj2 (Hg _))).
  vm_compute. repeat constructor.
Defined.

(** ** The configuration file: [load_config], [update], [watch_config] *)

(** X19. The configuration file at fault. When it is missing, [__init__]
    raises [FileNotFoundError] from [os.path.getmtime], although
    [load_config] had fallen back to [{}], and a turn of [watch_config]
    leaves the configuration in memory as it was. When it is there with a
    content [json.load] refuses and it is newer than the last one read,
    [watch_config] replaces the configuration by [{}]: every threshold,
    those set by [update] included, falls back to the default of the call
    that reads it, 30.0 for [sigma_thresh] and 2.0 for
    [zscore_trend_thresh]; when it is not newer nothing is read. *)
Theorem config_file_faults (self : ConfigFile.State) (file : ConfigFile.File) :
  (ConfigFile.init file = None <-> ConfigFile.content file = ConfigFile.Missing)
  /\ (ConfigFile.content file = ConfigFile.Missing ->
      ConfigFile.watch_config self file = self)
  /\ (forall mtime,
        ConfigFile.content file = ConfigFile.Invalid mtime ->
        let self' := ConfigFile.watch_config self file in
        if ConfigFile.last_modified self <? mtime then
          ConfigFile.config self' = ConfigFile.empty
          /\ ConfigFile.last_modified self' = mtime
          /\ ConfigManager.get_sigma_thresh (ConfigFile.config self') 30.0 = 30.0%float
          /\ ConfigManager.get_zscore_trend_thresh (ConfigFile.config self') 2.0
             = 2.0%float
          /\ forall dflt,
               ConfigManager.get_lambda_multiplier (ConfigFile.config self') dflt = dflt
        else self' = self).
Proof.
  unfold ConfigFile.init, ConfigFile.watch_config, ConfigFile.getmtime,
    ConfigFile.load_config.
  split; [|split].
  - destruct (ConfigFile.content file); simpl; split; congruence.
  - intros ->. reflexivity.
  - intros mtime ->. simpl.
    destruct (ConfigFile.last_modified self <? mtime); [|reflexivity].
    simpl. auto 10.
Qed.

(** A sigma threshold of 3.0 in memory and a file saved later that
    [json.load] refuses: after the turn the threshold read is 30.0. *)
Lemma config_file_faults_witness :
  ConfigManager.get_sigma_thresh (ConfigFile.config Scenario.state) 30.0 = 3.0%float
  /\ ConfigManager.get_sigma_thresh
       (ConfigFile.config (ConfigFile.watch_config Scenario.state Scenario.broken)) 30.0
     = 30.0%float.
Proof.
  split; [reflexivity|].
  pose proof (config_file_faults Scenario.state Scenario.broken) as (_ & _ & Hinvalid).
  exact (proj1 (proj2 (proj2 (Hinvalid 20 eq_refl)))).
Defined.

(** X20. [update_config_thresholds] and [update]: a threshold given is the
    one read afterwards, 0.0 included, one left out keeps what was there,
    and the multipliers are not touched. When the file can be written it
    holds the configuration in memory afterwards and the next turn of
    [watch_config] reads nothing, since [update] took the time of its own
    write. When it cannot be written the file is as before, the values
    given live in memory only, and the next change of the file replaces
    them by what the file holds. *)
Theorem update_round_trip (sigma_thresh zscore_trend_thresh : option float)
    (now1 now2 : Z) (self : ConfigFile.State) (file : ConfigFile.File) :
  let '(self', file') :=
    ConfigFile.update_config_thresholds sigma_thresh zscore_trend_thresh
      now1 now2 self file in
  (forall dflt,
     ConfigManager.get_sigma_thresh (ConfigFile.config self') dflt
     = default (ConfigManager.get_sigma_thresh (ConfigFile.config self) dflt)
         sigma_thresh)
  /\ (forall dflt,
        ConfigManager.get_zscore_trend_thresh (ConfigFile.config self') dflt
        = default (ConfigManager.get_zscore_trend_thresh (ConfigFile.config self) dflt)
            zscore_trend_thresh)
  /\ ConfigManager.lambda_multiplier (ConfigFile.config self')
     = ConfigManager.lambda_multiplier (ConfigFile.config self)
  /\ (if ConfigFile.writable file then
        sigma_thresh <> None \/ zscore_trend_thresh <> None ->
        ConfigFile.load_config file' = ConfigFile.config self'
        /\ ConfigFile.watch_config self' file' = self'
      else
        file' = file
        /\ forall mtime config,
             ConfigFile.last_modified self < mtime ->
             ConfigFile.config
               (ConfigFile.watch_config self'
                  {| ConfigFile.content := ConfigFile.Valid mtime config;
                     ConfigFile.writable := false |})
             = config).
Proof.
  unfold ConfigFile.update_config_thresholds, ConfigFile.update.
  destruct (ConfigFile.writable file) eqn:Hw;
    destruct sigma_thresh as [s|]; destruct zscore_trend_thresh as [z|];
    simpl; rewrite ?Hw; simpl;
    (split; [reflexivity|]); (split; [reflexivity|]); (split; [reflexivity|]).
  1-3: intros _; split; [reflexivity|];
       unfold ConfigFile.watch_config; simpl; rewrite Z.ltb_irrefl; reflexivity.
  1: intros [?|?]; congruence.
  all: split; [reflexivity|]; intros mtime config Hlt;
       unfold ConfigFile.watch_config; simpl;
       destruct (Z.ltb_spec (ConfigFile.last_modified self) mtime); [reflexivity|lia].
Qed.

(** A sigma threshold of 0.0 from the command line on the sample state and a
    file that can be written: 0.0 is read afterwards, and the watcher keeps
    it. *)
Lemma update_round_trip_witness :
  let updated :=
    ConfigFile.update_config_thresholds (Some 0.0%float) None 30 31
      Scenario.state Scenario.broken in
  ConfigManager.get_sigma_thresh (ConfigFile.config (fst updated)) 30.0 = 0.0%float
  /\ ConfigFile.watch_config (fst updated) (snd updated) = fst updated.
Proof.
  intros updated.
  pose proof (update_round_trip (Some 0.0%float) None 30 31 Scenario.state Scenario.broken)
    as Hu.
  fold updated in Hu. destruct updated as [self' file'].
  change (ConfigFile.writable Scenario.broken) with true in Hu. cbv iota in Hu.
  destruct Hu as (Hs & _ & _ & Hw).
  split; [exact (Hs 30.0%float)|].
  apply Hw. left. discriminate.
Defined.
